(** * Microplastic detector: detection geometry, analysis reconciliation,
      display projection and export

    A shallow embedding of the TypeScript sources:
    - the page component [MicroplasticDetectorApp] (state, [particlesToDisplay],
      [analysisStats], [processRoboflowResults], [startDetection],
      [startAnalysis], [handleExportCsv]);
    - the route handler [POST] of [/api/analyze-particles] (bracket extraction,
      [JSON.parse], merge of the parsed analysis onto the boxes);
    - the geometry of [createAnnotatedImage] in [lib/imageUtils.ts];
    - the control gating of [ImageInput] and the branches of [SummaryStats].

    JavaScript numbers are IEEE 754 binary64 values: they are modelled by the
    kernel's primitive floats.  Strings are byte strings (UTF-8 text). *)

From Stdlib Require Import ZArith Floats Uint63 Ascii String.
From stdpp Require Import base list strings gmap pretty.

Set Warnings "-inexact-float,-register-all".
Local Open Scope string_scope.
Local Open Scope list_scope.

(** ** JavaScript values *)

Module JS.

(** A value that came out of [JSON.parse] (or that is about to be serialised
    with [JSON.stringify]).  An object is the list of its own properties in
    insertion order. *)
Inductive JSON : Type :=
| JNull
| JBool (b : bool)
| JNum (f : float)
| JStr (s : string)
| JArr (items : list JSON)
| JObj (props : list (string * JSON)).

(** [undefined] is the absence of a value. *)
Definition Value := option JSON.
Definition undefined : Value := None.

Definition isNaN (f : float) : bool := negb (PrimFloat.eqb f f).

(** ToBoolean. *)
Definition truthy (v : JSON) : bool :=
  match v with
  | JNull => false
  | JBool b => b
  | JNum f => negb (PrimFloat.eqb f 0%float || isNaN f)
  | JStr s => negb (String.eqb s EmptyString)
  | JArr _ => true
  | JObj _ => true
  end.

Definition truthyV (v : Value) : bool :=
  match v with
  | Some j => truthy j
  | None => false
  end.

Fixpoint assoc (k : string) (props : list (string * JSON)) : Value :=
  match props with
  | [] => None
  | (k', v) :: rest => if String.eqb k k' then Some v else assoc k rest
  end.

(** [o.k] for the property names the sources read ([image], [width],
    [index], [analysis], [shape], ...): none of them is inherited from a
    prototype, so the read is the own property of an object and [undefined]
    on any other value. *)
Definition get (v : JSON) (k : string) : Value :=
  match v with
  | JObj props => assoc k props
  | _ => None
  end.

(** [v?.k] *)
Definition getV (v : Value) (k : string) : Value :=
  match v with
  | Some j => get j k
  | None => None
  end.

(** [o[k] = v] on an ordinary object: an existing property keeps its place.
    (Keys are kept in the order of insertion, also the integer-like ones,
    which an object enumerates first; no statement below depends on the order
    of the keys.) *)
Fixpoint set (k : string) (v : JSON) (props : list (string * JSON))
  : list (string * JSON) :=
  match props with
  | [] => [(k, v)]
  | (k', v') :: rest =>
      if String.eqb k k' then (k', v) :: rest else (k', v') :: set k v rest
  end.

(** An array index as a number. *)
Definition of_nat (n : nat) : float :=
  PrimFloat.of_uint63 (Uint63.of_Z (Z.of_nat n)).

(** [typeof v === 'number' && v === index] for an array position [index]. *)
Definition isNumber (v : Value) : bool :=
  match v with
  | Some (JNum _) => true
  | _ => false
  end.

Definition isString (v : Value) : bool :=
  match v with
  | Some (JStr _) => true
  | _ => false
  end.

Definition strictEqNat (v : Value) (index : nat) : bool :=
  match v with
  | Some (JNum f) => PrimFloat.eqb f (of_nat index)
  | _ => false
  end.

(** [v !== s] for a string literal [s]. *)
Definition strictNeStr (v : Value) (s : string) : bool :=
  match v with
  | Some (JStr s') => negb (String.eqb s' s)
  | _ => true
  end.

Section Coercions.

(** The two conversions between numbers and strings are the platform's
    (Number::toString and StringToNumber). *)
Variable NumberToString : float -> string.
Variable StringToNumber : string -> float.

Fixpoint join (sep : string) (l : list string) : string :=
  match l with
  | [] => EmptyString
  | [s] => s
  | s :: rest => s +:+ sep +:+ join sep rest
  end.

(** ToString, for the values on which the conversion returns.  An object
    that has an entry of its own named [toString] (in JSON never a function)
    makes the conversion throw a TypeError; [Converts.toStringReturns], below,
    tells these values apart, and the statements that need the conversion to
    return assume it. *)
Fixpoint ToString (v : JSON) : string :=
  match v with
  | JNull => "null"
  | JBool true => "true"
  | JBool false => "false"
  | JNum f => NumberToString f
  | JStr s => s
  | JArr items =>
      join ","
        (map (fun item => match item with
                          | JNull => EmptyString
                          | _ => ToString item
                          end) items)
  | JObj _ => "[object Object]"
  end.

(** ToNumber. *)
Definition ToNumber (v : JSON) : float :=
  match v with
  | JNull => 0%float
  | JBool true => 1%float
  | JBool false => 0%float
  | JNum f => f
  | JStr s => StringToNumber s
  | JArr _ | JObj _ => StringToNumber (ToString v)
  end.

End Coercions.

End JS.

Export JS.

(** ** [JSON.parse]

    The platform's parser, following the JSON grammar (ECMA-404): white space,
    the three literals, numbers, strings with escapes, arrays and objects.
    A number is converted to the nearest binary64 value, ties to even.  A
    [\uXXXX] escape is stored as the UTF-8 bytes of its code unit. *)

Module JSONParser.

Local Open Scope char_scope.
Local Open Scope Z_scope.

Definition dquote : ascii := "034".
Definition backslash : ascii := "092".

Definition is_ws (c : ascii) : bool :=
  Ascii.eqb c " " || Ascii.eqb c "009" || Ascii.eqb c "010" || Ascii.eqb c "013".

Fixpoint skip_ws (s : list ascii) : list ascii :=
  match s with
  | c :: rest => if is_ws c then skip_ws rest else s
  | [] => []
  end.

Definition digit (c : ascii) : option Z :=
  let n := Z.of_nat (nat_of_ascii c) in
  if (48 <=? n) && (n <=? 57) then Some (n - 48) else None.

Definition hexdigit (c : ascii) : option Z :=
  let n := Z.of_nat (nat_of_ascii c) in
  if (48 <=? n) && (n <=? 57) then Some (n - 48)
  else if (65 <=? n) && (n <=? 70) then Some (n - 55)
  else if (97 <=? n) && (n <=? 102) then Some (n - 87)
  else None.

(** [digits acc n s]: the longest run of decimal digits at the head of [s],
    accumulated in base ten, with the number of digits read. *)
Fixpoint digits (acc : Z) (n : Z) (s : list ascii) : Z * Z * list ascii :=
  match s with
  | c :: rest =>
      match digit c with
      | Some d => digits (10 * acc + d) (n + 1) rest
      | None => (acc, n, s)
      end
  | [] => (acc, n, s)
  end.

Definition float_of_Z (q : Z) : float := PrimFloat.of_uint63 (Uint63.of_Z q).

(** The binary64 value nearest to [m * 10^e] for [m >= 0] (ties to even). *)
Definition decimal_to_float (neg : bool) (m e : Z) : float :=
  if m =? 0 then (if neg then (-0)%float else 0%float)
  else
    let n := m * 10 ^ Z.max e 0 in
    let d := 10 ^ Z.max (- e) 0 in
    let lg := Z.log2 n - Z.log2 d in
    let ex := if d * 2 ^ Z.max lg 0 <=? n * 2 ^ Z.max (- lg) 0 then lg else lg - 1 in
    let k := Z.min (52 - ex) 1074 in
    let N := n * 2 ^ Z.max k 0 in
    let D := d * 2 ^ Z.max (- k) 0 in
    let q := N / D in
    let r := N mod D in
    let q' := if (D <? 2 * r) || ((D =? 2 * r) && Z.odd q) then q + 1 else q in
    let f := Z.ldexp (float_of_Z q') (- k) in
    if neg then (- f)%float else f.

(** [strip lit s]: what follows [lit] at the head of [s]. *)
Fixpoint strip (lit s : list ascii) : option (list ascii) :=
  match lit, s with
  | [], _ => Some s
  | l :: lit', c :: s' => if Ascii.eqb l c then strip lit' s' else None
  | _ :: _, [] => None
  end.

(** The sign in front of a number or of an exponent. *)
Definition sign (allowPlus : bool) (s : list ascii) : bool * list ascii :=
  match s with
  | c :: rest =>
      if Ascii.eqb c "-" then (true, rest)
      else if allowPlus && Ascii.eqb c "+" then (false, rest)
      else (false, s)
  | [] => (false, s)
  end.

(** The integer part: [0], or a run of digits that does not start with [0]. *)
Definition int_part (s : list ascii) : option (Z * list ascii) :=
  match s with
  | c :: rest =>
      if Ascii.eqb c "0" then Some (0, rest)
      else
        match digit c with
        | Some _ => let '(i, _, rest') := digits 0 0 s in Some (i, rest')
        | None => None
        end
  | [] => None
  end.

(** The fraction: a dot and at least one digit, or nothing.  The digits
    extend the mantissa [i]; the second component counts them. *)
Definition frac_part (i : Z) (s : list ascii) : option (Z * Z * list ascii) :=
  match s with
  | c :: rest =>
      if Ascii.eqb c "." then
        let '(m, n, rest') := digits i 0 rest in
        if n =? 0 then None else Some (m, n, rest')
      else Some (i, 0, s)
  | [] => Some (i, 0, s)
  end.

(** The exponent: [e] or [E], an optional sign and at least one digit, or
    nothing. *)
Definition exp_part (s : list ascii) : option (Z * list ascii) :=
  match s with
  | c :: rest =>
      if Ascii.eqb c "e" || Ascii.eqb c "E" then
        let '(eneg, rest1) := sign true rest in
        let '(x, n, rest2) := digits 0 0 rest1 in
        if n =? 0 then None else Some ((if eneg then - x else x), rest2)
      else Some (0, s)
  | [] => Some (0, s)
  end.

Definition parse_number (s : list ascii) : option (float * list ascii) :=
  let '(neg, s1) := sign false s in
  match int_part s1 with
  | None => None
  | Some (i, s2) =>
      match frac_part i s2 with
      | None => None
      | Some (m, nfrac, s3) =>
          match exp_part s3 with
          | None => None
          | Some (x, s4) => Some (decimal_to_float neg m (x - nfrac), s4)
          end
      end
  end.

Definition byte (n : Z) : ascii := ascii_of_nat (Z.to_nat n).

(** The UTF-8 bytes of a 16-bit code unit.  Each escape is encoded on its
    own: an escaped surrogate pair is not combined into the four bytes of its
    character.  No statement below depends on the bytes of an escaped
    character. *)
Definition utf8 (u : Z) : list ascii :=
  if u <? 128 then [byte u]
  else if u <? 2048 then [byte (192 + u / 64); byte (128 + u mod 64)]
  else [byte (224 + u / 4096); byte (128 + (u / 64) mod 64); byte (128 + u mod 64)].

(** The character a one-letter escape stands for. *)
Definition escape (e : ascii) : option ascii :=
  if Ascii.eqb e dquote then Some dquote
  else if Ascii.eqb e backslash then Some backslash
  else if Ascii.eqb e "/" then Some "/"
  else if Ascii.eqb e "b" then Some "008"
  else if Ascii.eqb e "f" then Some "012"
  else if Ascii.eqb e "n" then Some "010"
  else if Ascii.eqb e "r" then Some "013"
  else if Ascii.eqb e "t" then Some "009"
  else None.

(** The code unit of four hexadecimal digits. *)
Definition hex4 (h1 h2 h3 h4 : ascii) : option Z :=
  match hexdigit h1, hexdigit h2, hexdigit h3, hexdigit h4 with
  | Some a, Some b, Some c, Some d => Some (4096 * a + 256 * b + 16 * c + d)
  | _, _, _, _ => None
  end.

Definition prepend (cs : list ascii) (r : option (list ascii * list ascii))
  : option (list ascii * list ascii) :=
  match r with
  | Some (cs', rest) => Some ((cs ++ cs')%list, rest)
  | None => None
  end.

(** The characters of a string after its opening quote, up to the closing one. *)
Fixpoint parse_chars (s : list ascii) : option (list ascii * list ascii) :=
  match s with
  | [] => None
  | c :: rest =>
      if Ascii.eqb c dquote then Some ([], rest)
      else if Ascii.eqb c backslash then
        match rest with
        | e :: rest1 =>
            if Ascii.eqb e "u" then
              match rest1 with
              | h1 :: h2 :: h3 :: h4 :: rest2 =>
                  match hex4 h1 h2 h3 h4 with
                  | Some u => prepend (utf8 u) (parse_chars rest2)
                  | None => None
                  end
              | _ => None
              end
            else
              match escape e with
              | Some x => prepend [x] (parse_chars rest1)
              | None => None
              end
        | [] => None
        end
      else if (nat_of_ascii c <? 32)%nat then None
      else prepend [c] (parse_chars rest)
  end.

Definition parse_string (s : list ascii) : option (string * list ascii) :=
  match parse_chars s with
  | Some (cs, r) => Some (string_of_list_ascii cs, r)
  | None => None
  end.

(** [after c s]: what follows [c] when the text, white space skipped, starts
    with [c]. *)
Definition after (c : ascii) (s : list ascii) : option (list ascii) :=
  match skip_ws s with
  | c' :: rest => if Ascii.eqb c' c then Some rest else None
  | [] => None
  end.

Definition literal (lit : list ascii) (v : JSON) (s : list ascii)
  : option (JSON * list ascii) :=
  match strip lit s with
  | Some rest => Some (v, rest)
  | None => None
  end.

(** A value, with the white space before it; [fuel] bounds the depth of the
    recursion. *)
Fixpoint parse_value (fuel : nat) (s : list ascii) : option (JSON * list ascii) :=
  match fuel with
  | O => None
  | S fuel =>
      match skip_ws s with
      | [] => None
      | c :: rest =>
          if Ascii.eqb c "[" then
            match after "]" rest with
            | Some rest' => Some (JArr [], rest')
            | None =>
                match parse_elements fuel rest with
                | Some (items, rest') => Some (JArr items, rest')
                | None => None
                end
            end
          else if Ascii.eqb c "{" then
            match after "}" rest with
            | Some rest' => Some (JObj [], rest')
            | None =>
                match parse_members fuel [] rest with
                | Some (props, rest') => Some (JObj props, rest')
                | None => None
                end
            end
          else if Ascii.eqb c dquote then
            match parse_string rest with
            | Some (str, rest') => Some (JStr str, rest')
            | None => None
            end
          else if Ascii.eqb c "n" then literal ["u"; "l"; "l"] JNull rest
          else if Ascii.eqb c "t" then literal ["r"; "u"; "e"] (JBool true) rest
          else if Ascii.eqb c "f" then literal ["a"; "l"; "s"; "e"] (JBool false) rest
          else
            match parse_number (c :: rest) with
            | Some (f, rest') => Some (JNum f, rest')
            | None => None
            end
      end
  end
with parse_elements (fuel : nat) (s : list ascii) : option (list JSON * list ascii) :=
  match fuel with
  | O => None
  | S fuel =>
      match parse_value fuel s with
      | Some (v, rest) =>
          match after "]" rest with
          | Some rest' => Some ([v], rest')
          | None =>
              match after "," rest with
              | Some rest' =>
                  match parse_elements fuel rest' with
                  | Some (vs, rest'') => Some (v :: vs, rest'')
                  | None => None
                  end
              | None => None
              end
          end
      | None => None
      end
  end
with parse_members (fuel : nat) (acc : list (string * JSON)) (s : list ascii)
  : option (list (string * JSON) * list ascii) :=
  match fuel with
  | O => None
  | S fuel =>
      match after dquote s with
      | Some rest =>
          match parse_string rest with
          | Some (key, rest1) =>
              match after ":" rest1 with
              | Some rest2 =>
                  match parse_value fuel rest2 with
                  | Some (v, rest3) =>
                      let acc' := JS.set key v acc in
                      match after "}" rest3 with
                      | Some rest4 => Some (acc', rest4)
                      | None =>
                          match after "," rest3 with
                          | Some rest4 => parse_members fuel acc' rest4
                          | None => None
                          end
                      end
                  | None => None
                  end
              | None => None
              end
          | None => None
          end
      | None => None
      end
  end.

(** [JSON.parse(text)]; [None] is the thrown SyntaxError.  Of two successive
    recursive calls at least one has read a character, so twice the length
    of the text is enough fuel. *)
Definition parse (text : string) : option JSON :=
  let s := list_ascii_of_string text in
  match parse_value (S (2 * List.length s)) s with
  | Some (v, rest) =>
      match skip_ws rest with
      | [] => Some v
      | _ :: _ => None
      end
  | None => None
  end.

End JSONParser.

(** ** Shared types ([src/types/index.ts]) *)

(** [interface BoundingBox]: centre, size (relative to the image),
    confidence and class label. *)
Module BoundingBox.
Record t : Type := mk {
  x : float;
  y : float;
  width : float;
  height : float;
  confidence : float;
  class : string
}.
End BoundingBox.

(** [interface AnalyzedParticle extends BoundingBox]: the box, its [index] and
    its [analysis].  The analysis is whatever value the analysis route sent:
    nothing checks it against [ParticleAnalysis], so it stays a JavaScript
    value ([None] when the property is absent).  The coordinates are numbers:
    a particle that came back from the route with [null] for a coordinate
    (see [Wire], below) has no counterpart here, and the statements about
    analysed particles assume [Wire.exactBox] of the boxes that were sent. *)
Module AnalyzedParticle.
Record t : Type := mk {
  box : BoundingBox.t;
  index : nat;
  analysis : Value
}.
End AnalyzedParticle.

(** The result of a call that may [throw new Error(message)]. *)
Inductive Thrown (A : Type) : Type :=
| Return (a : A)
| Throw (message : string).
Arguments Return {A} a.
Arguments Throw {A} message.

(** ** Detection geometry *)

Module Geometry.

Section Normalize.

Variable NumberToString : float -> string.
Variable StringToNumber : string -> float.

(** The test of [processRoboflowResults] on one prediction. *)
Definition validPrediction (pred : JSON) : bool :=
  truthy pred
  && isNumber (get pred "x") && isNumber (get pred "y")
  && isNumber (get pred "width") && isNumber (get pred "height")
  && isNumber (get pred "confidence") && isString (get pred "class").

(** The body of the [forEach]: push the relative box of a valid prediction,
    skip any other. *)
Definition pushPrediction (imgWidth imgHeight : JSON)
  (boxes : list BoundingBox.t) (pred : JSON) : list BoundingBox.t :=
  if validPrediction pred then
    match get pred "x", get pred "y", get pred "width", get pred "height",
          get pred "confidence", get pred "class" with
    | Some (JNum px), Some (JNum py), Some (JNum pw), Some (JNum ph),
      Some (JNum pc), Some (JStr pclass) =>
        let n := ToNumber NumberToString StringToNumber in
        boxes ++ [BoundingBox.mk (px / n imgWidth) (py / n imgHeight)
                                 (pw / n imgWidth) (ph / n imgHeight)
                                 pc pclass]
    | _, _, _, _, _, _ => boxes
    end
  else boxes.

(** [processRoboflowResults(roboflowData)] *)
Definition processRoboflowResults (roboflowData : Value)
  : Thrown (list BoundingBox.t) :=
  let image := getV roboflowData "image" in
  if negb (truthyV (getV image "width")) || negb (truthyV (getV image "height"))
  then Throw "Invalid detection data structure (missing image dimensions)."
  else
    match getV roboflowData "predictions", getV image "width", getV image "height" with
    | Some (JArr predictions), Some imgWidth, Some imgHeight =>
        Return (fold_left (pushPrediction imgWidth imgHeight) predictions [])
    | _, _, _ => Return []
    end.

End Normalize.

(** The rectangle [createAnnotatedImage] strokes for a box on a canvas of
    [imgWidth] by [imgHeight] pixels. *)
Record Rect : Type := mkRect {
  topLeftX : float;
  topLeftY : float;
  width : float;
  height : float
}.

Definition boxRect (box : BoundingBox.t) (imgWidth imgHeight : float) : Rect :=
  let width := (BoundingBox.width box * imgWidth)%float in
  let height := (BoundingBox.height box * imgHeight)%float in
  let topLeftX := (BoundingBox.x box * imgWidth - width / 2)%float in
  let topLeftY := (BoundingBox.y box * imgHeight - height / 2)%float in
  mkRect topLeftX topLeftY width height.

(** What [createAnnotatedImage] draws: for each box, in order, its rectangle
    and its position in the list as the label. *)
Definition createAnnotatedImage (boxes : list BoundingBox.t)
  (imgWidth imgHeight : float) : list (Rect * nat) :=
  imap (fun index box => (boxRect box imgWidth imgHeight, index)) boxes.

End Geometry.

(** ** The analysis route ([POST /api/analyze-particles]) *)

Module Route.

(** [s.indexOf(c)], [-1] when [c] does not occur. *)
Fixpoint indexOf (c : ascii) (s : string) : Z :=
  match s with
  | EmptyString => -1
  | String c' rest =>
      if Ascii.eqb c' c then 0
      else let i := indexOf c rest in
           if (i =? -1)%Z then -1 else (i + 1)%Z
  end.

(** [s.lastIndexOf(c)], [-1] when [c] does not occur. *)
Fixpoint lastIndexOf (c : ascii) (s : string) : Z :=
  match s with
  | EmptyString => -1
  | String c' rest =>
      let i := lastIndexOf c rest in
      if (i =? -1)%Z then (if Ascii.eqb c' c then 0 else -1) else (i + 1)%Z
  end.

Fixpoint drop_chars (n : nat) (s : string) : string :=
  match n, s with
  | O, _ => s
  | S n', String _ rest => drop_chars n' rest
  | S _, EmptyString => EmptyString
  end.

Fixpoint take_chars (n : nat) (s : string) : string :=
  match n, s with
  | S n', String c rest => String c (take_chars n' rest)
  | _, _ => EmptyString
  end.

(** [s.substring(from, to)] for [0 <= from <= to]. *)
Definition substring (from to : Z) (s : string) : string :=
  take_chars (Z.to_nat (to - from)) (drop_chars (Z.to_nat from) s).

(** The ways the parsing block fails. *)
Inductive ParseError : Type :=
| NoArrayFound
| EmptyExtraction
| MalformedJson
| UnexpectedShape.

(** The messages of the errors the block throws itself; [JSON.parse] brings
    its own. *)
Definition message (e : ParseError) : option string :=
  match e with
  | NoArrayFound => Some "Valid JSON array structure not found in AI response."
  | EmptyExtraction => Some "AI response content was empty after extraction."
  | MalformedJson => None
  | UnexpectedShape =>
      Some "AI response parsed but was not in the expected JSON array format."
  end.

Section Parse.

Variable JSON_parse : string -> option JSON.

(** The text between the first [[] and the last []], both included. *)
Definition extract (responseText : string) : option string :=
  let startIndex := indexOf "[" responseText in
  let endIndex := lastIndexOf "]" responseText in
  if negb (startIndex =? -1)%Z && negb (endIndex =? -1)%Z
     && (startIndex <? endIndex)%Z
  then Some (substring startIndex (endIndex + 1) responseText)
  else None.

(** The [try] block of [POST] that parses the reply of the model. *)
Definition parseAnalysis (responseText : string) : ParseError + list JSON :=
  match extract responseText with
  | None => inl NoArrayFound
  | Some parseInput =>
      if String.eqb parseInput EmptyString then inl EmptyExtraction
      else
        match JSON_parse parseInput with
        | None => inl MalformedJson
        | Some (JArr parsedAnalysis) => inr parsedAnalysis
        | Some _ => inl UnexpectedShape
        end
  end.

End Parse.

(** A box as the page sends it: [{ ...box, index }]. *)
Record IndexedBox : Type := mkIndexedBox {
  ib_box : BoundingBox.t;
  ib_index : nat
}.

Definition notAnalyzed : JSON :=
  JObj [("shape", JStr "Not Analyzed"); ("color", JStr "Not Analyzed");
        ("transparency", JStr "Not Analyzed");
        ("reason", JStr "Index not found in AI response.")].

Definition parseErrorAnalysis : JSON :=
  JObj [("shape", JStr "Parse Error"); ("color", JStr "Parse Error");
        ("transparency", JStr "Parse Error");
        ("error", JStr "Could not parse AI analysis response.")].

(** The predicate given to [parsedAnalysis.find]. *)
Definition indexMatches (index : nat) (item : JSON) : bool :=
  truthy item && isNumber (get item "index")
  && strictEqNat (get item "index") index.

(** The callback of [boundingBoxes.map] in the merge step. *)
Definition mergeBox (parsedAnalysis : list JSON) (index : nat)
  (originalBox : IndexedBox) : AnalyzedParticle.t :=
  let analysisResult := List.find (indexMatches index) parsedAnalysis in
  AnalyzedParticle.mk (ib_box originalBox) index
    (match analysisResult with
     | Some item => if truthy item then get item "analysis" else Some notAnalyzed
     | None => Some notAnalyzed
     end).

(** [finalParticles] *)
Definition finalParticles (boundingBoxes : list IndexedBox)
  (parsedAnalysis : list JSON) : list AnalyzedParticle.t :=
  imap (mergeBox parsedAnalysis) boundingBoxes.

(** The particles of the parse-failure reply. *)
Definition parseErrorParticles (boundingBoxes : list IndexedBox)
  : list AnalyzedParticle.t :=
  imap (fun index box =>
          AnalyzedParticle.mk (ib_box box) index (Some parseErrorAnalysis))
       boundingBoxes.

(** What the model call does. *)
Inductive Gemini : Type :=
| InitThrows
| GenerateThrows (message : string)
| ResponseMissing
| ResponseText (responseText : string).

(** The request body and the environment of one call. *)
Record Request : Type := mkRequest {
  GEMINI_API_KEY : bool;
  imageBase64 : string;
  boundingBoxes : list IndexedBox;
  gemini : Gemini
}.

(** The object given to [NextResponse.json], with the HTTP status: [error]
    and [particles] when present.  The reply itself is this object as
    [JSON.stringify] writes it (see [Wire], below). *)
Record Response : Type := mkResponse {
  status : nat;
  error : option string;
  particles : option (list AnalyzedParticle.t)
}.

Definition orElse (s default : string) : string :=
  if String.eqb s EmptyString then default else s.

Section Handler.

Variable JSON_parse : string -> option JSON.

Definition aiServiceError (message : string) : Response :=
  mkResponse 500 (Some ("AI service error: " +:+ orElse message "Unknown")) (Some []).

(** [POST(request)] *)
Definition POST (request : Request) : Response :=
  if negb (GEMINI_API_KEY request) then
    mkResponse 500 (Some "Server configuration error.") None
  else if String.eqb (imageBase64 request) EmptyString then
    mkResponse 400 (Some "Missing image data.") None
  else if Nat.eqb (List.length (boundingBoxes request)) 0 then
    mkResponse 400 (Some "Missing bounding boxes.") None
  else
    match gemini request with
    | InitThrows => mkResponse 500 (Some "Failed to initialize AI service.") None
    | GenerateThrows message => aiServiceError message
    | ResponseMissing => aiServiceError "Gemini response structure invalid."
    | ResponseText responseText =>
        match parseAnalysis JSON_parse responseText with
        | inl _ =>
            mkResponse 200 (Some "AI analysis completed, but response parsing failed.")
                       (Some (parseErrorParticles (boundingBoxes request)))
        | inr parsedAnalysis =>
            mkResponse 200 None
                       (Some (finalParticles (boundingBoxes request) parsedAnalysis))
        end
    end.

End Handler.

End Route.

(** ** The page component ([MicroplasticDetectorApp]) *)

Module Page.

Inductive DisplayMode : Type :=
| ModeConfidence
| ModeType
| ModeColor
| ModeTransparency.

(** The [useState] cells of the component. *)
Record State : Type := mkState {
  confidenceThreshold : float;
  capturedImage : option string;
  boundingBoxes : list BoundingBox.t;
  analyzedParticles : list AnalyzedParticle.t;
  isDetecting : bool;
  isAnalyzing : bool;
  errorState : option string;
  analysisErrorState : option string;
  displayMode : DisplayMode;
  highlightedParticleIndex : option nat
}.

Definition initial : State :=
  mkState 0.5%float None [] [] false false None None ModeConfidence None.

Definition isProcessing (st : State) : bool :=
  isDetecting st || isAnalyzing st.

(** [p.confidence >= confidenceThreshold] *)
Definition aboveThreshold (threshold : float) (box : BoundingBox.t) : bool :=
  PrimFloat.leb threshold (BoundingBox.confidence box).

(** [particlesToDisplay] *)
Definition particlesToDisplay (st : State) : list AnalyzedParticle.t :=
  let particles :=
    if (0 <? List.length (analyzedParticles st))%nat then analyzedParticles st
    else if (0 <? List.length (boundingBoxes st))%nat then
      imap (fun index box => AnalyzedParticle.mk box index (Some JNull))
           (boundingBoxes st)
    else [] in
  List.filter (fun p => aboveThreshold (confidenceThreshold st) (AnalyzedParticle.box p))
              particles.

(** *** Statistics *)

(** The value of one key of a [Record<string, number>] built by
    [o[k] = (o[k] || 0) + 1]: a count, or, when the first read of [k] found a
    function inherited from [Object.prototype], the text made of that
    function's source and the appended ones. *)
Inductive Cell : Type :=
| Count (n : nat)
| Text.

(** The properties every object literal inherits. *)
Definition inherited (k : string) : bool :=
  bool_decide (k ∈ ["constructor"; "__defineGetter__"; "__defineSetter__";
                    "hasOwnProperty"; "__lookupGetter__"; "__lookupSetter__";
                    "isPrototypeOf"; "propertyIsEnumerable"; "toString";
                    "valueOf"; "__proto__"; "toLocaleString"]).

(** [o[k] = (o[k] || 0) + 1].  An assignment to [__proto__] of a value that
    is not an object leaves the object as it was. *)
Definition bump (k : string) (o : gmap string Cell) : gmap string Cell :=
  match o !! k with
  | Some (Count n) => <[k := Count (n + 1)]> o
  | Some Text => <[k := Text]> o
  | None =>
      if inherited k then
        (if String.eqb k "__proto__" then o else <[k := Text]> o)
      else <[k := Count 1]> o
  end.

Record AnalysisStats : Type := mkStats {
  shapes : gmap string Cell;
  colors : gmap string Cell;
  transparency : gmap string Cell;
  count : nat;
  analyzedCount : nat;
  hasStats : bool
}.

(** The test of the [forEach] of [analysisStats]. *)
Definition contributes (particle : AnalyzedParticle.t) : bool :=
  let analysis := AnalyzedParticle.analysis particle in
  truthyV analysis
  && negb (truthyV (getV analysis "error"))
  && strictNeStr (getV analysis "shape") "Not Analyzed".

Section Stats.

Variable NumberToString : float -> string.

(** [v || "Unknown"], as a property key. *)
Definition label (v : Value) : string :=
  match v with
  | Some j => if truthy j then ToString NumberToString j else "Unknown"
  | None => "Unknown"
  end.

(** The four accumulators of the [forEach]. *)
Definition Acc : Type :=
  (gmap string Cell * gmap string Cell * gmap string Cell * nat)%type.

Definition tally (acc : Acc) (particle : AnalyzedParticle.t) : Acc :=
  let '(shapes, colors, transparency, analyzedCount) := acc in
  if contributes particle then
    let analysis := AnalyzedParticle.analysis particle in
    (bump (label (getV analysis "shape")) shapes,
     bump (label (getV analysis "color")) colors,
     bump (label (getV analysis "transparency")) transparency,
     S analyzedCount)
  else acc.

(** [analysisStats], as a function of [particlesToDisplay]. *)
Definition computeStats (particlesToDisplay : list AnalyzedParticle.t)
  : option AnalysisStats :=
  if Nat.eqb (List.length particlesToDisplay) 0 then None
  else
    let '(shapes, colors, transparency, analyzedCount) :=
      fold_left tally particlesToDisplay (∅, ∅, ∅, O) in
    let hasStats := (0 <? analyzedCount)%nat in
    Some (mkStats shapes colors transparency (List.length particlesToDisplay)
                  analyzedCount hasStats).

Definition analysisStats (st : State) : option AnalysisStats :=
  computeStats (particlesToDisplay st).

(** [availableDisplayModes] *)
Definition availableDisplayModes (st : State) : list DisplayMode :=
  match analysisStats st with
  | Some stats =>
      if hasStats stats then [ModeConfidence; ModeType; ModeColor; ModeTransparency]
      else [ModeConfidence]
  | None => [ModeConfidence]
  end.

End Stats.

(** *** [SummaryStats]: which of its four returns is taken *)

Inductive SummaryView : Type :=
| NoMicroplasticsDetected
| NoneMeetThreshold
| Breakdown (stats : AnalysisStats)
| RenderNothing.

Definition SummaryStats (stats : option AnalysisStats) (totalDetectedCount : nat)
  (isProcessing : bool) : SummaryView :=
  match stats with
  | None =>
      if negb isProcessing && Nat.eqb totalDetectedCount 0
      then NoMicroplasticsDetected else RenderNothing
  | Some s =>
      if (0 <? totalDetectedCount)%nat && Nat.eqb (count s) 0 && negb isProcessing
      then NoneMeetThreshold
      else if (0 <? count s)%nat then Breakdown s
      else RenderNothing
  end.

(** *** [ImageInput] and [AnalysisSettings]: the [disabled] attributes *)

Definition hasImage (st : State) : bool :=
  match capturedImage st with
  | Some url => negb (String.eqb url EmptyString)
  | None => false
  end.

(** Capture button, upload button and file input. *)
Definition inputDisabled (st : State) : bool := isProcessing st || hasImage st.
(** Clear button. *)
Definition clearDisabled (st : State) : bool := isProcessing st.
(** Confidence slider. *)
Definition sliderDisabled (st : State) : bool := isProcessing st.

(** *** Handlers *)

Definition resetAnalysisState (st : State) : State :=
  mkState (confidenceThreshold st) (capturedImage st) [] [] (isDetecting st)
          (isAnalyzing st) None None ModeConfidence None.

Definition setCapturedImage (image : option string) (st : State) : State :=
  mkState (confidenceThreshold st) image (boundingBoxes st) (analyzedParticles st)
          (isDetecting st) (isAnalyzing st) (errorState st) (analysisErrorState st)
          (displayMode st) (highlightedParticleIndex st).

Definition handleClearImage (st : State) : State :=
  resetAnalysisState (setCapturedImage None st).

(** [startAnalysis], up to its first [await]. *)
Definition startAnalysis_begin (st : State) : State :=
  mkState (confidenceThreshold st) (capturedImage st) (boundingBoxes st)
          (analyzedParticles st) false true (errorState st) None
          (displayMode st) (highlightedParticleIndex st).

(** What the awaited steps of [startAnalysis] come to. *)
Inductive AnalysisOutcome : Type :=
| Rejects (message : string)
| NonJsonReply (status : nat)
| Reply (response : Route.Response).

Definition ok (status : nat) : bool := (200 <=? status)%nat && (status <=? 299)%nat.

Definition orDefault (s : option string) (default : string) : string :=
  match s with
  | Some m => Route.orElse m default
  | None => default
  end.

Definition setAnalysis (particles : list AnalyzedParticle.t)
  (analysisError : option string) (analyzing : bool) (st : State) : State :=
  mkState (confidenceThreshold st) (capturedImage st) (boundingBoxes st)
          particles (isDetecting st) analyzing (errorState st) analysisError
          (displayMode st) (highlightedParticleIndex st).

(** The [catch] and [finally] of [startAnalysis]. *)
Definition analysisFailed (message : string) (st : State) : State :=
  setAnalysis [] (Some ("Analysis Error: " +:+ message)) false st.

(** [startAnalysis], from the settling of its awaited calls to its end. *)
Definition startAnalysis_settle (outcome : AnalysisOutcome) (st : State) : State :=
  match outcome with
  | Rejects message => analysisFailed message st
  | NonJsonReply status =>
      analysisFailed ("Analysis API non-JSON response (Status: " +:+ pretty status +:+ ")") st
  | Reply analysisData =>
      if negb (ok (Route.status analysisData)) then
        analysisFailed
          (orDefault (Route.error analysisData)
             ("Analysis API failed: " +:+ pretty (Route.status analysisData))) st
      else
        match Route.particles analysisData with
        | Some particles =>
            setAnalysis particles
              (match Route.error analysisData with
               | Some e => if String.eqb e EmptyString then analysisErrorState st
                           else Some e
               | None => analysisErrorState st
               end) false st
        | None => analysisFailed "Invalid data structure from analysis API." st
        end
  end.

(** [startDetection], up to its first [await]. *)
Definition startDetection_begin (st : State) : State :=
  mkState (confidenceThreshold st) (capturedImage st) [] [] true false None None
          (displayMode st) None.

(** What the awaited steps of [startDetection] come to: a rejection (resize,
    fetch, body), a reply that is not ok with the [error] of its body when the
    body is JSON, or the detection data with the resized image. *)
Inductive DetectionOutcome : Type :=
| DetectionRejects (message : string)
| DetectionNotOk (status : nat) (body : option (option string))
| DetectionData (resizedImageDataUrl : string) (detectionData : Value).

(** The [catch] of [startDetection]. *)
Definition detectionFailed (message : string) (st : State) : State :=
  mkState (confidenceThreshold st) (capturedImage st) (boundingBoxes st)
          (analyzedParticles st) false false
          (Some ("Detection Error: " +:+ message)) (analysisErrorState st)
          (displayMode st) (highlightedParticleIndex st).

Definition setBoundingBoxes (boxes : list BoundingBox.t) (st : State) : State :=
  mkState (confidenceThreshold st) (capturedImage st) boxes (analyzedParticles st)
          (isDetecting st) (isAnalyzing st) (errorState st) (analysisErrorState st)
          (displayMode st) (highlightedParticleIndex st).

Definition setIsDetecting (b : bool) (st : State) : State :=
  mkState (confidenceThreshold st) (capturedImage st) (boundingBoxes st)
          (analyzedParticles st) b (isAnalyzing st) (errorState st)
          (analysisErrorState st) (displayMode st) (highlightedParticleIndex st).

(** A call that has been issued and has not settled: [startDetection] with the
    threshold its closure holds, or [startAnalysis] with its arguments. *)
Inductive Task : Type :=
| Detecting (confidenceThreshold : float)
| Analyzing (imageDataUrl : string) (boxesToAnalyze : list BoundingBox.t).

Section Detection.

Variable NumberToString : float -> string.
Variable StringToNumber : string -> float.

(** [startDetection], from the settling of its awaited calls to its end; the
    second component is the [startAnalysis] call it leaves running. *)
Definition startDetection_settle (threshold : float) (outcome : DetectionOutcome)
  (st : State) : State * option Task :=
  match outcome with
  | DetectionRejects message => (detectionFailed message st, None)
  | DetectionNotOk status body =>
      let message :=
        match body with
        | Some e => orDefault e "Detection API request failed"
        | None => "Detection failed: " +:+ pretty status
        end in
      (detectionFailed message st, None)
  | DetectionData resizedImageDataUrl detectionData =>
      match Geometry.processRoboflowResults NumberToString StringToNumber detectionData with
      | Throw message => (detectionFailed message st, None)
      | Return detectedBoxes =>
          let st1 := setBoundingBoxes detectedBoxes st in
          let boxesAboveThreshold := List.filter (aboveThreshold threshold) detectedBoxes in
          if (0 <? List.length boxesAboveThreshold)%nat then
            (startAnalysis_begin st1, Some (Analyzing resizedImageDataUrl boxesAboveThreshold))
          else (setIsDetecting false st1, None)
      end
  end.

End Detection.

(** [boxesWithIndices] *)
Definition boxesWithIndices (boxesToAnalyze : list BoundingBox.t) : list Route.IndexedBox :=
  imap (fun index box => Route.mkIndexedBox box index) boxesToAnalyze.

(** The reply of the analysis route to the request [startAnalysis] sends.
    Request and reply travel as JSON text, which gives back as it was every
    number that [Wire.exact] accepts (finite, and not the negative zero) and
    writes [null] or [0] for the others: this definition is the reply for
    boxes that satisfy [Wire.exactBox], and the statements about the boxes of
    a reply assume it. *)
Definition routeReply (JSON_parse : string -> option JSON) (apiKey : bool)
  (annotatedImageDataUrl : string) (boxesToAnalyze : list BoundingBox.t)
  (gemini : Route.Gemini) : AnalysisOutcome :=
  Reply (Route.POST JSON_parse
           (Route.mkRequest apiKey annotatedImageDataUrl
                            (boxesWithIndices boxesToAnalyze) gemini)).

(** *** The component and its running calls *)

Record System : Type := mkSystem {
  page : State;
  pending : list Task
}.

Definition start : System := mkSystem initial [].

(** What can happen to the component: a handler is called, or a running call
    (the [i]-th pending one) settles. *)
Inductive Event : Type :=
| Capture (imageSrc : option string)
| FileLoaded (result : option string)
| FileReadError
| ClearImage
| ConfidenceChange (value : float)
| DisplayModeChange (mode : DisplayMode)
| HoverParticle (index : option nat)
| DetectionSettles (i : nat) (outcome : DetectionOutcome)
| AnalysisSettles (i : nat) (outcome : AnalysisOutcome).

Definition setErrorState (e : option string) (st : State) : State :=
  mkState (confidenceThreshold st) (capturedImage st) (boundingBoxes st)
          (analyzedParticles st) (isDetecting st) (isAnalyzing st) e
          (analysisErrorState st) (displayMode st) (highlightedParticleIndex st).

(** The common part of [captureImage] and of [reader.onloadend]:
    [resetAnalysisState(); setCapturedImage(image); void startDetection(image)]. *)
Definition submit (image : string) (sys : System) : System :=
  mkSystem
    (startDetection_begin (setCapturedImage (Some image) (resetAnalysisState (page sys))))
    (pending sys ++ [Detecting (confidenceThreshold (page sys))]).

Definition nonEmpty (s : option string) : option string :=
  match s with
  | Some str => if String.eqb str EmptyString then None else Some str
  | None => None
  end.

Section Step.

Variable NumberToString : float -> string.
Variable StringToNumber : string -> float.

Definition step (ev : Event) (sys : System) : option System :=
  let st := page sys in
  match ev with
  | Capture imageSrc =>
      match nonEmpty imageSrc with
      | Some image => Some (submit image sys)
      | None => Some (mkSystem (setErrorState (Some "Failed to capture image.") st) (pending sys))
      end
  | FileLoaded result =>
      match nonEmpty result with
      | Some image => Some (submit image sys)
      | None => Some (mkSystem (setErrorState (Some "Failed to read file.") st) (pending sys))
      end
  | FileReadError =>
      Some (mkSystem (setErrorState (Some "Error reading file.") st) (pending sys))
  | ClearImage => Some (mkSystem (handleClearImage st) (pending sys))
  | ConfidenceChange value =>
      Some (mkSystem
              (mkState value (capturedImage st) (boundingBoxes st) (analyzedParticles st)
                       (isDetecting st) (isAnalyzing st) (errorState st)
                       (analysisErrorState st) (displayMode st)
                       (highlightedParticleIndex st))
              (pending sys))
  | DisplayModeChange mode =>
      Some (mkSystem
              (mkState (confidenceThreshold st) (capturedImage st) (boundingBoxes st)
                       (analyzedParticles st) (isDetecting st) (isAnalyzing st)
                       (errorState st) (analysisErrorState st) mode
                       (highlightedParticleIndex st))
              (pending sys))
  | HoverParticle index =>
      Some (mkSystem
              (mkState (confidenceThreshold st) (capturedImage st) (boundingBoxes st)
                       (analyzedParticles st) (isDetecting st) (isAnalyzing st)
                       (errorState st) (analysisErrorState st) (displayMode st) index)
              (pending sys))
  | DetectionSettles i outcome =>
      match pending sys !! i with
      | Some (Detecting threshold) =>
          let '(st', started) :=
            startDetection_settle NumberToString StringToNumber threshold outcome st in
          Some (mkSystem st'
                  (delete i (pending sys) ++
                   match started with
                   | Some task => [task]
                   | None => []
                   end))
      | _ => None
      end
  | AnalysisSettles i outcome =>
      match pending sys !! i with
      | Some (Analyzing _ _) =>
          Some (mkSystem (startAnalysis_settle outcome st) (delete i (pending sys)))
      | _ => None
      end
  end.

Fixpoint run (events : list Event) (sys : System) : option System :=
  match events with
  | [] => Some sys
  | ev :: rest =>
      match step ev sys with
      | Some sys' => run rest sys'
      | None => None
      end
  end.

End Step.

(** *** CSV export ([handleExportCsv]) *)

Definition dquote : string := String "034" EmptyString.
Definition newline : string := String "010" EmptyString.

(** The regular expression test of [escapeCsvField]: [s] holds a double
    quote, a comma or a line feed. *)
Fixpoint test (s : string) : bool :=
  match s with
  | EmptyString => false
  | String c rest =>
      Ascii.eqb c "034" || Ascii.eqb c "," || Ascii.eqb c "010" || test rest
  end.

(** The global replace of [escapeCsvField]: every double quote of [s] becomes
    two. *)
Fixpoint replace (s : string) : string :=
  match s with
  | EmptyString => EmptyString
  | String c rest =>
      if Ascii.eqb c "034" then String "034" (String "034" (replace rest))
      else String c (replace rest)
  end.

(** [v || ''] *)
Definition orEmpty (v : Value) : Value :=
  if truthyV v then v else Some (JStr EmptyString).

Section CsvExport.

Variable NumberToString : float -> string.
(** [Number.prototype.toFixed] *)
Variable toFixed : float -> nat -> string.

(** [String(field ?? '')] *)
Definition fieldString (field : Value) : string :=
  match field with
  | None | Some JNull => EmptyString
  | Some v => ToString NumberToString v
  end.

Definition escapeCsvField (field : Value) : string :=
  let s := fieldString field in
  if test s then dquote +:+ replace s +:+ dquote else s.

Definition headers : list Value :=
  map (fun h => Some (JStr h))
      ["Index"; "Confidence (%)"; "Class"; "Center X (rel)"; "Center Y (rel)";
       "Width (rel)"; "Height (rel)"; "Shape"; "Color"; "Transparency";
       "Analysis Note"].

Definition row (p : AnalyzedParticle.t) : list Value :=
  let box := AnalyzedParticle.box p in
  let analysis := AnalyzedParticle.analysis p in
  [ Some (JNum (JS.of_nat (AnalyzedParticle.index p)));
    Some (JStr (toFixed (BoundingBox.confidence box * 100)%float 1));
    Some (JStr (BoundingBox.class box));
    Some (JStr (toFixed (BoundingBox.x box) 5));
    Some (JStr (toFixed (BoundingBox.y box) 5));
    Some (JStr (toFixed (BoundingBox.width box) 5));
    Some (JStr (toFixed (BoundingBox.height box) 5));
    orEmpty (getV analysis "shape");
    orEmpty (getV analysis "color");
    orEmpty (getV analysis "transparency");
    (if truthyV (getV analysis "error") then getV analysis "error"
     else orEmpty (getV analysis "reason")) ].

Definition csvLine (fields : list Value) : string :=
  JS.join "," (map escapeCsvField fields).

(** [csvContent]; [None] when there is nothing to export. *)
Definition handleExportCsv (st : State) : option string :=
  let particles := particlesToDisplay st in
  if Nat.eqb (List.length particles) 0 then None
  else Some (JS.join newline (csvLine headers :: map (fun p => csvLine (row p)) particles)).

End CsvExport.

End Page.
(** ** Numbers on the wire ([JSON.stringify], then [JSON.parse]) *)

Module Wire.

(** What a number comes back as after [JSON.stringify] and [JSON.parse]: NaN
    and the infinities are written [null], the negative zero is written [0],
    and any other number is written so that it reads back as it was. *)
Definition number (f : float) : JSON :=
  if PrimFloat.is_nan f || PrimFloat.is_infinity f then JNull
  else if PrimFloat.is_zero f && PrimFloat.get_sign f then JNum 0
  else JNum f.

(** The number comes back as it was. *)
Definition exact (f : float) : bool :=
  negb (PrimFloat.is_nan f || PrimFloat.is_infinity f)
  && negb (PrimFloat.is_zero f && PrimFloat.get_sign f).

(** The box comes back as it was. *)
Definition exactBox (box : BoundingBox.t) : bool :=
  exact (BoundingBox.x box) && exact (BoundingBox.y box)
  && exact (BoundingBox.width box) && exact (BoundingBox.height box)
  && exact (BoundingBox.confidence box).

(** The analysed particles, which the page received from the route, hold the
    boxes that were sent. *)
Definition exactParticles (particles : list AnalyzedParticle.t) : Prop :=
  forall p, In p particles -> exactBox (AnalyzedParticle.box p) = true.

End Wire.

(** ** Where the conversion to a string returns *)

Module Converts.

(** [String(v)], a template literal and the conversion to a property key
    return for [v]: no object reached by the conversion has an entry of its
    own named [toString].  (The elements of an array are converted in turn,
    [null] apart.) *)
Fixpoint toStringReturns (v : JSON) : bool :=
  match v with
  | JArr items => forallb toStringReturns items
  | JObj props =>
      match assoc "toString" props with
      | Some _ => false
      | None => true
      end
  | _ => true
  end.

(** [String(field ?? '')] returns. *)
Definition stringOfReturns (field : Value) : bool :=
  match field with
  | Some v => toStringReturns v
  | None => true
  end.

(** [v || d], for a string [d], converts to a string. *)
Definition orReturns (v : Value) : bool :=
  match v with
  | Some j => if truthy j then toStringReturns j else true
  | None => true
  end.

(** The three keys [analysisStats] builds from a counted particle convert. *)
Definition labelsReturn (p : AnalyzedParticle.t) : bool :=
  let analysis := AnalyzedParticle.analysis p in
  orReturns (getV analysis "shape") && orReturns (getV analysis "color")
  && orReturns (getV analysis "transparency").

(** [escapeCsvField] returns for every field of the row of [p]. *)
Definition rowReturns (toFixed : float -> nat -> string) (p : AnalyzedParticle.t)
  : bool :=
  forallb stringOfReturns (Page.row toFixed p).

End Converts.


(** ** Colors of the overlay ([lib/displayUtils.ts]) *)

Module Display.

(** [v === s] for a string literal [s]. *)
Definition strictEqStr (v : Value) (s : string) : bool :=
  match v with
  | Some (JStr s') => String.eqb s' s
  | _ => false
  end.

Definition isConfidence (mode : Page.DisplayMode) : bool :=
  match mode with
  | Page.ModeConfidence => true
  | _ => false
  end.

Section Color.

Variable NumberToString : float -> string.
(** [String.prototype.toLowerCase] *)
Variable toLowerCase : string -> string.

(** The template of the function, filled with three channels and [alpha]. *)
Definition rgba (channels : string) (alpha : float) : string :=
  "rgba(" +:+ channels +:+ ", " +:+ NumberToString alpha +:+ ")".

(** The [switch] on the lower-cased shape, its cases tried in order with
    [===]; [None] is [undefined]. *)
Definition shapeColor (shape : option string) (asRgba : bool) (alpha : float) : string :=
  let case s := match shape with
                | Some shape' => String.eqb shape' s
                | None => false
                end in
  if case "fiber" then (if asRgba then rgba "0, 0, 255" alpha else "blue")
  else if case "fragment" then (if asRgba then rgba "0, 128, 0" alpha else "green")
  else if case "film" then (if asRgba then rgba "255, 165, 0" alpha else "orange")
  else if case "bead" || case "pellet" then
    (if asRgba then rgba "128, 0, 128" alpha else "purple")
  else if case "foam" then (if asRgba then rgba "255, 255, 0" alpha else "yellow")
  else (if asRgba then rgba "128, 128, 128" alpha else "gray").

(** [getColorForParticleType(particle, mode, asRgba)].  The call
    [shape?.toLowerCase()] is skipped for a null or absent shape and throws a
    TypeError for a shape that is not a string. *)
Definition getColorForParticleType (particle : AnalyzedParticle.t)
  (mode : Page.DisplayMode) (asRgba : bool) : Thrown string :=
  let defaultColor := "red" in
  let defaultRgba := "rgba(255, 0, 0, 0.7)" in
  let alpha := if asRgba then 0.7%float else 1%float in
  let analysis := AnalyzedParticle.analysis particle in
  if isConfidence mode
     || negb (truthyV analysis)
     || truthyV (getV analysis "error")
     || strictEqStr (getV analysis "shape") "Not Analyzed"
  then Return (if asRgba then defaultRgba else defaultColor)
  else
    match getV analysis "shape" with
    | None | Some JNull => Return (shapeColor None asRgba alpha)
    | Some (JStr shape) => Return (shapeColor (Some (toLowerCase shape)) asRgba alpha)
    | Some _ => Throw "TypeError: particle.analysis.shape?.toLowerCase is not a function"
    end.

End Color.

End Display.

(** ** The overlay ([AnnotatedImageView]) *)

Module Overlay.

(** [isHighlighted ? 4 : 2], with
    [isHighlighted = particle.index === highlightedParticleIndex]. *)
Definition isHighlighted (particle : AnalyzedParticle.t)
  (highlightedParticleIndex : option nat) : bool :=
  match highlightedParticleIndex with
  | Some h => Nat.eqb (AnalyzedParticle.index particle) h
  | None => false
  end.

Definition currentLineWidth (particle : AnalyzedParticle.t)
  (highlightedParticleIndex : option nat) : float :=
  if isHighlighted particle highlightedParticleIndex then 4%float else 2%float.

Section Label.

Variable NumberToString : float -> string.
(** [Number.prototype.toFixed] *)
Variable toFixed : float -> nat -> string.
(** [String.prototype.toLowerCase] *)
Variable toLowerCase : string -> string.

(** The template of [v || 'Unknown']. *)
Definition orUnknown (v : Value) : string :=
  match v with
  | Some j => if truthy j then ToString NumberToString j else "Unknown"
  | None => "Unknown"
  end.

(** [labelText] *)
Definition labelText (particle : AnalyzedParticle.t) (displayMode : Page.DisplayMode)
  : string :=
  let box := AnalyzedParticle.box particle in
  let analysis := AnalyzedParticle.analysis particle in
  let confidenceValue := toFixed (BoundingBox.confidence box * 100)%float 0 in
  if negb (truthyV analysis)
     || truthyV (getV analysis "error")
     || Display.strictEqStr (getV analysis "shape") "Not Analyzed"
  then BoundingBox.class box +:+ " (" +:+ confidenceValue +:+ "%)"
  else
    match displayMode with
    | Page.ModeConfidence => confidenceValue +:+ "%"
    | Page.ModeType => orUnknown (getV analysis "shape")
    | Page.ModeColor => orUnknown (getV analysis "color")
    | Page.ModeTransparency => orUnknown (getV analysis "transparency")
    end.

(** The template literal of the label returns. *)
Definition labelReturns (particle : AnalyzedParticle.t) (displayMode : Page.DisplayMode)
  : bool :=
  let analysis := AnalyzedParticle.analysis particle in
  if negb (truthyV analysis)
     || truthyV (getV analysis "error")
     || Display.strictEqStr (getV analysis "shape") "Not Analyzed"
  then true
  else
    match displayMode with
    | Page.ModeConfidence => true
    | Page.ModeType => Converts.orReturns (getV analysis "shape")
    | Page.ModeColor => Converts.orReturns (getV analysis "color")
    | Page.ModeTransparency => Converts.orReturns (getV analysis "transparency")
    end.

(** What the body of the [forEach] draws for one particle: the stroke of the
    box, its line width, the text of the label and the fill of its
    background.  (The fill of a highlighted box, which follows the second
    call of [getColorForParticleType], is left out.) *)
Record Drawn : Type := mkDrawn {
  strokeStyle : string;
  lineWidth : float;
  label : string;
  labelBackground : string
}.

(** The body of the [forEach] of [drawBoxes], with the calls that can throw
    in their order. *)
Definition drawBox (highlightedParticleIndex : option nat)
  (displayMode : Page.DisplayMode) (particle : AnalyzedParticle.t) : Thrown Drawn :=
  let getColor := Display.getColorForParticleType NumberToString toLowerCase in
  match getColor particle displayMode false with
  | Throw message => Throw message
  | Return strokeColor =>
      match (if isHighlighted particle highlightedParticleIndex
             then getColor particle displayMode true
             else Return strokeColor) with
      | Throw message => Throw message
      | Return _ =>
          if labelReturns particle displayMode then
            match getColor particle displayMode true with
            | Throw message => Throw message
            | Return background =>
                Return (mkDrawn strokeColor
                                (currentLineWidth particle highlightedParticleIndex)
                                (labelText particle displayMode) background)
            end
          else Throw "TypeError: Cannot convert object to primitive value"
      end
  end.

(** [drawBoxes] once the image is loaded: what was drawn, box after box, and
    the error that stopped the [forEach], if any. *)
Fixpoint drawBoxes (highlightedParticleIndex : option nat)
  (displayMode : Page.DisplayMode) (particles : list AnalyzedParticle.t)
  : list Drawn * option string :=
  match particles with
  | [] => ([], None)
  | particle :: rest =>
      match drawBox highlightedParticleIndex displayMode particle with
      | Throw message => ([], Some message)
      | Return drawn =>
          let '(others, stopped) :=
            drawBoxes highlightedParticleIndex displayMode rest in
          (drawn :: others, stopped)
      end
  end.

End Label.

End Overlay.

(** ** The results area ([AnalysisResults]) *)

Module Results.

(** A string state cell that is set to a string that is not empty. *)
Definition isSet (s : option string) : bool :=
  match Page.nonEmpty s with
  | Some _ => true
  | None => false
  end.

(** What the card shows. *)
Record Card : Type := mkCard {
  exportButtons : bool;
  loader : bool;
  errorBanner : bool;
  (** the results content: whether the image carries the overlay, and what
      [SummaryStats] returns *)
  content : option (bool * Page.SummaryView);
  particleTable : bool;
  noneDetectedMessage : bool
}.

Inductive View : Type :=
| Placeholder
| Shown (card : Card).

Section Render.

Variable NumberToString : float -> string.

(** [AnalysisResults] with the props the page gives it. *)
Definition AnalysisResults (st : Page.State) : View :=
  let capturedImage := Page.hasImage st in
  let isLoading := Page.isProcessing st in
  let particlesToDisplay := Page.particlesToDisplay st in
  let totalDetectedCount := List.length (Page.boundingBoxes st) in
  let someDisplayed := (0 <? List.length particlesToDisplay)%nat in
  let showResultsContent :=
    negb isLoading && capturedImage
    && ((0 <? totalDetectedCount)%nat || someDisplayed) in
  let showResultsArea := capturedImage || isLoading in
  let canExport := showResultsContent && someDisplayed in
  if negb showResultsArea then Placeholder
  else
    Shown
      (mkCard canExport isLoading
         (negb isLoading && isSet (Page.errorState st)
          && negb (isSet (Page.analysisErrorState st)))
         (if showResultsContent && capturedImage then
            Some (someDisplayed,
                  Page.SummaryStats (Page.analysisStats NumberToString st)
                                    totalDetectedCount isLoading)
          else None)
         (showResultsContent && capturedImage && someDisplayed)
         (negb isLoading && capturedImage && Nat.eqb totalDetectedCount 0
          && negb (isSet (Page.errorState st)))).

End Render.

End Results.

(** ** The table of particles ([ParticleTable]) *)

Module Table.

(** One row of the table body; a cell that is [None] shows the N/A span. *)
Record Row : Type := mkRow {
  key : nat;
  highlighted : bool;
  indexCell : nat;
  confidenceCell : string;
  shapeCell : Value;
  colorCell : Value;
  transparencyCell : Value
}.

Section Rows.

(** [Number.prototype.toFixed] *)
Variable toFixed : float -> nat -> string.

(** [p.analysis?.f && !p.analysis.error ? p.analysis.f : N/A] *)
Definition cell (p : AnalyzedParticle.t) (field : string) : Value :=
  let analysis := AnalyzedParticle.analysis p in
  if truthyV (getV analysis field) && negb (truthyV (getV analysis "error"))
  then getV analysis field
  else None.

Definition tableRow (highlightedIndex : option nat) (p : AnalyzedParticle.t) : Row :=
  mkRow (AnalyzedParticle.index p)
        (match highlightedIndex with
         | Some h => Nat.eqb h (AnalyzedParticle.index p)
         | None => false
         end)
        (AnalyzedParticle.index p)
        (toFixed (BoundingBox.confidence (AnalyzedParticle.box p) * 100)%float 1 +:+ "%")
        (cell p "shape") (cell p "color") (cell p "transparency").

(** [ParticleTable]; [None] when it returns null. *)
Definition ParticleTable (particles : list AnalyzedParticle.t)
  (highlightedIndex : option nat) : option (list Row) :=
  if Nat.eqb (List.length particles) 0 then None
  else Some (map (tableRow highlightedIndex) particles).

End Rows.

End Table.

(** * Properties *)

(** ** Statements *)

Module Statement.


(** The item carries a number under [index] and that number is [i]. *)
Definition numericIndexIs (i : nat) (item : JSON) : Prop :=
  exists f, get item "index" = Some (JNum f) /\ PrimFloat.eqb f (JS.of_nat i) = true.

(** The particle at position [i] of the merge carries the box at position [i],
    the index [i], and the analysis of the first parsed item whose numeric
    index is [i], or [sentinel] when there is none. *)
Definition mergedAt (sentinel : JSON) (parsed : list JSON) (i : nat)
  (b : Route.IndexedBox) (p : AnalyzedParticle.t) : Prop :=
  AnalyzedParticle.box p = Route.ib_box b
  /\ AnalyzedParticle.index p = i
  /\ ((exists before item after,
          parsed = before ++ item :: after
          /\ Forall (fun x => ~ numericIndexIs i x) before
          /\ numericIndexIs i item
          /\ AnalyzedParticle.analysis p = get item "analysis")
      \/ (Forall (fun x => ~ numericIndexIs i x) parsed
          /\ AnalyzedParticle.analysis p = Some sentinel)).

(** One particle per box, in the order of the boxes. *)
Definition mergeSpec (sentinel : JSON) (boxes : list Route.IndexedBox)
  (parsed : list JSON) : Prop :=
  List.length (Route.finalParticles boxes parsed) = List.length boxes
  /\ forall i b, boxes !! i = Some b ->
       exists p, Route.finalParticles boxes parsed !! i = Some p
                 /\ mergedAt sentinel parsed i b p.

(** The sentinel with the reason spelt without its final full stop. *)
Definition notAnalyzedNoStop : JSON :=
  JObj [("shape", JStr "Not Analyzed"); ("color", JStr "Not Analyzed");
        ("transparency", JStr "Not Analyzed");
        ("reason", JStr "Index not found in AI response")].

(** *** Detection geometry *)

Definition imageWidth (roboflowData : Value) : Value :=
  getV (getV roboflowData "image") "width".
Definition imageHeight (roboflowData : Value) : Value :=
  getV (getV roboflowData "image") "height".

Definition missingDimensions : string :=
  "Invalid detection data structure (missing image dimensions).".

(** Absent, null, or a zero. *)
Definition missingOrZero (v : Value) : Prop :=
  v = None \/ v = Some JNull
  \/ exists f, v = Some (JNum f) /\ PrimFloat.eqb f 0 = true.

(** Absent, null, or a number that is at most zero. *)
Definition missingOrNonPositive (v : Value) : Prop :=
  v = None \/ v = Some JNull
  \/ exists f, v = Some (JNum f) /\ PrimFloat.leb f 0 = true.

(** Every input whose width or height is missing or at most zero is
    rejected. *)
Definition rejectsNonPositive : Prop :=
  forall (NumberToString : float -> string) (StringToNumber : string -> float)
         (roboflowData : Value),
    missingOrNonPositive (imageWidth roboflowData)
    \/ missingOrNonPositive (imageHeight roboflowData) ->
    Geometry.processRoboflowResults NumberToString StringToNumber roboflowData
    = Throw missingDimensions.

Definition prediction (x y width height confidence : float) (class : string) : JSON :=
  JObj [("x", JNum x); ("y", JNum y); ("width", JNum width); ("height", JNum height);
        ("confidence", JNum confidence); ("class", JStr class)].

Definition detection (width height : float) (predictions : list JSON) : Value :=
  Some (JObj [("image", JObj [("width", JNum width); ("height", JNum height)]);
              ("predictions", JArr predictions)]).

(** Scenario A: one prediction in an image of 200 by 100 pixels. *)
Definition scenarioA : Value :=
  detection 200 100 [prediction 100 50 40 20 0.9 "particle"].

Definition scenarioA_box : BoundingBox.t :=
  BoundingBox.mk 0.5 0.5 0.2 0.2 0.9 "particle".

(** The same prediction reported with a negative image width. *)
Definition negativeWidth : Value :=
  detection (-200) 100 [prediction 100 50 40 20 0.9 "particle"].

Definition box0 : Route.IndexedBox := Route.mkIndexedBox scenarioA_box 0.

(** *** Extraction *)

(** The character [c] occurs in [s]. *)
Definition occurs (c : ascii) (s : string) : Prop :=
  In c (list_ascii_of_string s).


Definition quoted (s : string) : string :=
  String "034" EmptyString +:+ s +:+ String "034" EmptyString.

(** The array of scenario C, bare. *)
Definition scenarioC_array : string :=
  "[{" +:+ quoted "index" +:+ ":0," +:+ quoted "analysis" +:+ ":{"
  +:+ quoted "shape" +:+ ":" +:+ quoted "Fiber" +:+ ","
  +:+ quoted "color" +:+ ":" +:+ quoted "Blue" +:+ ","
  +:+ quoted "transparency" +:+ ":" +:+ quoted "Opaque" +:+ "}}]".

(** The prose and the fence around it. *)
Definition scenarioC_before : string := "Sure! ```json" +:+ String "010" EmptyString.
Definition scenarioC_after : string := String "010" EmptyString +:+ "```".

Definition scenarioC : string :=
  scenarioC_before +:+ scenarioC_array +:+ scenarioC_after.

Definition scenarioC_item : JSON :=
  JObj [("index", JNum 0);
        ("analysis", JObj [("shape", JStr "Fiber"); ("color", JStr "Blue");
                           ("transparency", JStr "Opaque")])].

(** *** Statistics *)

(** The labels, under [field], of the particles that contribute. *)
Definition labels (NumberToString : float -> string) (field : string)
  (particles : list AnalyzedParticle.t) : list string :=
  map (fun p => Page.label NumberToString (getV (AnalyzedParticle.analysis p) field))
      (List.filter Page.contributes particles).

(** How many times [k] occurs in [l]. *)
Definition occurrences (k : string) (l : list string) : nat :=
  List.length (List.filter (String.eqb k) l).

(** The cell of a key counted [n] times: absent when [n] is zero. *)
Definition cellOf (n : nat) : option Page.Cell :=
  match n with
  | O => None
  | S _ => Some (Page.Count n)
  end.

(** The analysis is an object (or any other truthy value), its [error] is
    absent or falsy, and its [shape] is not the sentinel. *)
Definition usable (p : AnalyzedParticle.t) : Prop :=
  exists a, AnalyzedParticle.analysis p = Some a
            /\ truthy a = true
            /\ truthyV (get a "error") = false
            /\ get a "shape" <> Some (JStr "Not Analyzed").

(** What the record [s] returned for [particles] holds: the two counts, the
    flag, the cell of every label that is not an inherited property, and the
    empty distributions when no particle contributes. *)
Definition statsOf (NumberToString : float -> string)
  (particles : list AnalyzedParticle.t) (s : Page.AnalysisStats) : Prop :=
  Page.count s = List.length particles
  /\ Page.analyzedCount s = List.length (List.filter Page.contributes particles)
  /\ (Page.hasStats s = true <-> 0 < Page.analyzedCount s)
  /\ (forall k, Page.inherited k = false ->
        Page.shapes s !! k = cellOf (occurrences k (labels NumberToString "shape" particles))
        /\ Page.colors s !! k = cellOf (occurrences k (labels NumberToString "color" particles))
        /\ Page.transparency s !! k
           = cellOf (occurrences k (labels NumberToString "transparency" particles)))
  /\ (Page.analyzedCount s = 0 ->
        Page.hasStats s = false /\ Page.shapes s = ∅ /\ Page.colors s = ∅
        /\ Page.transparency s = ∅).

(** A record is returned for every list of particles. *)
Definition statsAlwaysReturned : Prop :=
  forall (NumberToString : float -> string) (particles : list AnalyzedParticle.t),
    exists s, Page.computeStats NumberToString particles = Some s
              /\ statsOf NumberToString particles s.

(** A particle contributes exactly when its analysis is not null and has no
    [error] property, and its shape is not the sentinel. *)
Definition contributesIffNoErrorField : Prop :=
  forall p : AnalyzedParticle.t,
    Page.contributes p = true
    <-> (exists a, AnalyzedParticle.analysis p = Some a /\ a <> JNull
                   /\ get a "error" = None
                   /\ get a "shape" <> Some (JStr "Not Analyzed")).

(** A particle whose analysis carries an empty [error]. *)
Definition emptyErrorParticle : AnalyzedParticle.t :=
  AnalyzedParticle.mk scenarioA_box 0
    (Some (JObj [("shape", JStr "Fiber"); ("color", JStr "Blue");
                 ("transparency", JStr "Opaque"); ("error", JStr EmptyString)])).

(** *** Export *)

(** The field holds a comma, a double quote or a line feed. *)
Definition needsQuoting (s : string) : Prop :=
  occurs "," s \/ occurs "034" s \/ occurs "010" s.

(** [s] with each double quote written twice. *)
Definition doubled (s : string) : string :=
  string_of_list_ascii
    (flat_map (fun c => if Ascii.eqb c "034" then ["034"; "034"] else [c])%char
              (list_ascii_of_string s)).

(** Reading back the inside of a quoted field, up to its closing quote at
    the end of the text: two quotes stand for one. *)
Fixpoint readQuoted (s : string) : option string :=
  match s with
  | EmptyString => None
  | String c rest =>
      if Ascii.eqb c "034" then
        match rest with
        | EmptyString => Some EmptyString
        | String c' rest' =>
            if Ascii.eqb c' "034" then
              match readQuoted rest' with
              | Some r => Some (String "034" r)
              | None => None
              end
            else None
        end
      else
        match readQuoted rest with
        | Some r => Some (String c r)
        | None => None
        end
  end.

(** Reading back one field of a line. *)
Definition readField (s : string) : option string :=
  match s with
  | EmptyString => Some EmptyString
  | String c rest => if Ascii.eqb c "034" then readQuoted rest else Some s
  end.

(** *** The pipeline *)

(** Stand-ins for the platform's conversions in closed statements; the
    inputs of these statements never reach a conversion. *)
Definition noNumberToString : float -> string := fun _ => EmptyString.
Definition noStringToNumber : string -> float := fun _ => 0%float.

(** Two detections: the first below the default threshold of 0.5, the second
    (the box of scenario A) above it. *)
Definition lowBox : BoundingBox.t := BoundingBox.mk 0.1 0.2 0.05 0.1 0.3 "particle".

Definition lowAndHigh : Value :=
  detection 200 100 [prediction 20 20 10 10 0.3 "particle";
                     prediction 100 50 40 20 0.9 "particle"].

(** An image is captured and its detection returns [detectionData]. *)
Definition detected (image resized : string) (detectionData : Value) : list Page.Event :=
  [Page.Capture (Some image);
   Page.DetectionSettles 0 (Page.DetectionData resized detectionData)].

(** The analysis route answers the request made for [boxes], the model
    having replied with the text of scenario C. *)
Definition analysed (boxes : list BoundingBox.t) : Page.Event :=
  Page.AnalysisSettles 0
    (Page.routeReply JSONParser.parse true "data:image/png;base64,annotated" boxes
                     (Route.ResponseText scenarioC)).

(** Index and box of each displayed particle. *)
Definition displayed (sys : Page.System) : list (nat * BoundingBox.t) :=
  map (fun p => (AnalyzedParticle.index p, AnalyzedParticle.box p))
      (Page.particlesToDisplay (Page.page sys)).

(** The result of a call issued before another image was submitted is
    dropped when it arrives: it leaves the particles of the page as they
    are. *)
Definition staleResultDropped : Prop :=
  forall (NumberToString : float -> string) (StringToNumber : string -> float)
         (events : list Page.Event) (sys sys' : Page.System) (i : nat)
         (imageDataUrl : string) (boxes : list BoundingBox.t)
         (image2 : string) (outcome : Page.AnalysisOutcome),
    Page.run NumberToString StringToNumber events Page.start = Some sys ->
    Page.pending sys !! i = Some (Page.Analyzing imageDataUrl boxes) ->
    Page.step NumberToString StringToNumber (Page.AnalysisSettles i outcome)
              (Page.submit image2 sys) = Some sys' ->
    Page.analyzedParticles (Page.page sys')
    = Page.analyzedParticles (Page.page (Page.submit image2 sys)).

(** The analysis of the global fallback, with some message. *)
Definition parseErrorWith (message : string) : JSON :=
  JObj [("shape", JStr "Parse Error"); ("color", JStr "Parse Error");
        ("transparency", JStr "Parse Error"); ("error", JStr message)].

(** The ways the analysis of [boxes] fails: the call rejects (network), the
    reply is not JSON, or the route could not parse the reply of the model. *)
Definition analysisFailure (JSON_parse : string -> option JSON)
  (boxes : list BoundingBox.t) (outcome : Page.AnalysisOutcome) : Prop :=
  (exists message, outcome = Page.Rejects message)
  \/ (exists status, outcome = Page.NonJsonReply status)
  \/ (exists url responseText e,
        url <> EmptyString
        /\ Route.parseAnalysis JSON_parse responseText = inl e
        /\ outcome = Page.routeReply JSON_parse true url boxes
                                     (Route.ResponseText responseText)).

(** Every box sent to the analysis has the analysis of the global fallback. *)
Definition globalFallback (boxes : list BoundingBox.t) (st : Page.State) : Prop :=
  exists message,
    Page.analyzedParticles st
    = imap (fun index box => AnalyzedParticle.mk box index (Some (parseErrorWith message)))
           boxes.

(** Every failure of the analysis ends in the global fallback. *)
Definition everyFailureFallsBack : Prop :=
  forall (JSON_parse : string -> option JSON) (st : Page.State)
         (boxes : list BoundingBox.t) (outcome : Page.AnalysisOutcome),
    boxes <> [] ->
    analysisFailure JSON_parse boxes outcome ->
    globalFallback boxes (Page.startAnalysis_settle outcome st).

(** The boxes of the page, each with its position and a null analysis, that
    pass the threshold. *)
Definition detectionOnly (st : Page.State) : list AnalyzedParticle.t :=
  List.filter
    (fun p => Page.aboveThreshold (Page.confidenceThreshold st) (AnalyzedParticle.box p))
    (imap (fun index box => AnalyzedParticle.mk box index (Some JNull))
          (Page.boundingBoxes st)).
End Statement.

(** ** Statements about the rest of the code *)

Module Reading.

(** *** Reading an export back *)

(** A reader of comma-separated text: a double quote opens or closes a quoted
    stretch, inside which two double quotes stand for one; outside, a comma
    ends the field and a line feed ends the row. *)
Fixpoint readCsv (quoted : bool) (field : string) (row : list string) (s : string)
  : list (list string) :=
  match s with
  | EmptyString => [row ++ [field]]
  | String c rest =>
      if quoted then
        if Ascii.eqb c "034" then
          match rest with
          | EmptyString => [row ++ [field]]
          | String c' rest' =>
              if Ascii.eqb c' "034"
              then readCsv true (field +:+ String "034" EmptyString) row rest'
              else readCsv false field row rest
          end
        else readCsv true (field +:+ String c EmptyString) row rest
      else
        if Ascii.eqb c "," then readCsv false EmptyString (row ++ [field]) rest
        else if Ascii.eqb c "010" then (row ++ [field]) :: readCsv false EmptyString [] rest
        else if Ascii.eqb c "034" then readCsv true field row rest
        else readCsv false (field +:+ String c EmptyString) row rest
  end.

(** What may follow a field: nothing, a comma or a line feed. *)
Definition fieldEnd (rest : string) : Prop :=
  match rest with
  | EmptyString => True
  | String c _ => c = ","%char \/ c = "010"%char
  end.

(** *** Using the page through its controls *)

(** The predictions of a detection reply, none when it has no array. *)
Definition predictionsOf (roboflowData : Value) : list JSON :=
  match getV roboflowData "predictions" with
  | Some (JArr predictions) => predictions
  | _ => []
  end.

(** What the awaited calls of [startAnalysis], made for [boxes], can come to:
    a rejection, a reply that is not JSON, or the reply of the analysis
    route. *)
Definition served (JSON_parse : string -> option JSON) (boxes : list BoundingBox.t)
  (outcome : Page.AnalysisOutcome) : Prop :=
  (exists message, outcome = Page.Rejects message)
  \/ (exists status, outcome = Page.NonJsonReply status)
  \/ (exists apiKey url gemini,
        outcome = Page.routeReply JSON_parse apiKey url boxes gemini).

Section Use.

Variable NumberToString : float -> string.
Variable StringToNumber : string -> float.
Variable JSON_parse : string -> option JSON.

(** The events of a session with the webcam: a control is used only while it
    is enabled, and a pending call settles. *)
Definition enabled (ev : Page.Event) (sys : Page.System) : Prop :=
  let st := Page.page sys in
  match ev with
  | Page.Capture _ => Page.inputDisabled st = false
  | Page.FileLoaded _ => False
  | Page.FileReadError => False
  | Page.ClearImage => Page.clearDisabled st = false
  | Page.ConfidenceChange _ => Page.sliderDisabled st = false
  | Page.DisplayModeChange _ => True
  | Page.HoverParticle _ => True
  | Page.DetectionSettles _ _ => True
  | Page.AnalysisSettles i outcome =>
      exists imageDataUrl boxes,
        Page.pending sys !! i = Some (Page.Analyzing imageDataUrl boxes)
        /\ served JSON_parse boxes outcome
  end.

Inductive reachable : Page.System -> Prop :=
| reachable_start : reachable Page.start
| reachable_step (sys sys' : Page.System) (ev : Page.Event) :
    reachable sys ->
    enabled ev sys ->
    Page.step NumberToString StringToNumber ev sys = Some sys' ->
    reachable sys'.

End Use.

(** The particles come from [boxes]: each carries the box at its index. *)
Definition indexedBy (boxes : list BoundingBox.t) (particles : list AnalyzedParticle.t)
  : Prop :=
  forall p, In p particles ->
    boxes !! AnalyzedParticle.index p = Some (AnalyzedParticle.box p).

(** What holds of the page between two events of a session. *)
Definition oneCallAtATime (sys : Page.System) : Prop :=
  let st := Page.page sys in
  NoDup (map AnalyzedParticle.index (Page.analyzedParticles st))
  /\ match Page.pending sys with
     | [] =>
         Page.isProcessing st = false
         /\ exists boxes,
              (forall b, In b boxes -> In b (Page.boundingBoxes st))
              /\ indexedBy boxes (Page.analyzedParticles st)
     | [Page.Detecting _] =>
         Page.isDetecting st = true /\ Page.isAnalyzing st = false
         /\ Page.analyzedParticles st = []
     | [Page.Analyzing _ boxes] =>
         Page.isDetecting st = false /\ Page.isAnalyzing st = true
         /\ Page.analyzedParticles st = []
         /\ boxes <> []
         /\ (forall b, In b boxes -> In b (Page.boundingBoxes st))
     | _ => False
     end.

(** The threshold a pending detection holds is the one of the page, and the
    boxes of a pending analysis are the detections at or above it. *)
Definition thresholdHeld (sys : Page.System) : Prop :=
  let st := Page.page sys in
  match Page.pending sys with
  | [Page.Detecting threshold] => threshold = Page.confidenceThreshold st
  | [Page.Analyzing _ boxes] =>
      boxes = List.filter (Page.aboveThreshold (Page.confidenceThreshold st))
                          (Page.boundingBoxes st)
  | _ => True
  end.

(** *** A session on the image of scenario A *)

(** Stand-ins for [toFixed] and [toLowerCase] in closed statements. *)
Definition noToFixed : float -> nat -> string := fun _ _ => EmptyString.
Definition noToLowerCase : string -> string := fun s => s.

(** The image of scenario A was captured and its detection has returned; the
    analysis of its box is pending. *)
Definition detectedA : Page.System :=
  Page.mkSystem
    (Page.mkState 0.5 (Some "image") [Statement.scenarioA_box] [] false true
                  None None Page.ModeConfidence None)
    [Page.Analyzing "resized" [Statement.scenarioA_box]].

(** The particle of scenario A with the analysis of scenario C. *)
Definition particleA : AnalyzedParticle.t :=
  AnalyzedParticle.mk Statement.scenarioA_box 0
    (Some (JObj [("shape", JStr "Fiber"); ("color", JStr "Blue");
                 ("transparency", JStr "Opaque")])).

(** The analysis has returned with the reply of scenario C. *)
Definition analysedA : Page.System :=
  Page.mkSystem
    (Page.mkState 0.5 (Some "image") [Statement.scenarioA_box] [particleA]
                  false false None None Page.ModeConfidence None)
    [].

(** The statistics of [analysedA]. *)
Definition statsA : Page.AnalysisStats :=
  Page.mkStats {[ "Fiber" := Page.Count 1 ]} {[ "Blue" := Page.Count 1 ]}
               {[ "Opaque" := Page.Count 1 ]} 1 1 true.

(** The card of the results area for [analysedA]. *)
Definition analysedA_card : Results.Card :=
  Results.mkCard true false false
    (Some (true,
           Page.SummaryStats
             (Page.analysisStats Statement.noNumberToString (Page.page analysedA))
             1 false))
    true false.

(** The slider was then moved above the confidence of the particle. *)
Definition hiddenA : Page.State :=
  Page.mkState 0.95 (Some "image") [Statement.scenarioA_box] [particleA] false false
               None None Page.ModeConfidence None.

(** The file exported from [analysedA]. *)
Definition exportedA : string :=
  JS.join Page.newline
    (Page.csvLine Statement.noNumberToString Page.headers
     :: map (fun p => Page.csvLine Statement.noNumberToString (Page.row noToFixed p))
            (Page.particlesToDisplay (Page.page analysedA))).

(** *** One analysis, four views *)

(** The field of the analysis a display mode shows. *)
Definition fieldOf (mode : Page.DisplayMode) : option string :=
  match mode with
  | Page.ModeConfidence => None
  | Page.ModeType => Some "shape"
  | Page.ModeColor => Some "color"
  | Page.ModeTransparency => Some "transparency"
  end.

(** The distribution of the statistics that counts this field. *)
Definition distributionOf (mode : Page.DisplayMode) (s : Page.AnalysisStats)
  : gmap string Page.Cell :=
  match mode with
  | Page.ModeConfidence => ∅
  | Page.ModeType => Page.shapes s
  | Page.ModeColor => Page.colors s
  | Page.ModeTransparency => Page.transparency s
  end.

(** The column of the exported file that holds this field. *)
Definition columnOf (mode : Page.DisplayMode) : nat :=
  match mode with
  | Page.ModeConfidence => 1
  | Page.ModeType => 7
  | Page.ModeColor => 8
  | Page.ModeTransparency => 9
  end.

(** The shape is a string, [null], or absent: the values for which
    [shape?.toLowerCase()] returns. *)
Definition shapeIsText (p : AnalyzedParticle.t) : bool :=
  match getV (AnalyzedParticle.analysis p) "shape" with
  | None | Some JNull | Some (JStr _) => true
  | Some _ => false
  end.

(** The colors of the [switch] of [getColorForParticleType]. *)
Definition shapeColors : list string :=
  ["blue"; "green"; "orange"; "purple"; "yellow"; "gray"].

End Reading.


(** ** Reconciliation *)

Section Merge.

Import Route Statement.

Lemma indexMatches_spec (i : nat) (item : JSON) :
  indexMatches i item = true <-> numericIndexIs i item.
Proof.
  unfold indexMatches, numericIndexIs. split.
  - intros H. apply andb_prop in H as [H Heq]. apply andb_prop in H as [_ Hnum].
    destruct (get item "index") as [[ | | f | | | ] | ]; simpl in *; try discriminate.
    exists f. split; [reflexivity | exact Heq].
  - intros (f & Hget & Heq). rewrite Hget. simpl.
    destruct item; simpl in Hget; try discriminate. simpl. exact Heq.
Qed.

Lemma indexMatches_truthy (i : nat) (item : JSON) :
  indexMatches i item = true -> truthy item = true.
Proof.
  unfold indexMatches. intros H.
  apply andb_prop in H as [H _]. apply andb_prop in H as [H _]. exact H.
Qed.

(** [Array.prototype.find] returns the first element the predicate accepts. *)
Lemma find_first {A : Type} (P : A -> bool) (l : list A) :
  match List.find P l with
  | Some x => exists before after,
      l = before ++ x :: after /\ Forall (fun y => P y = false) before /\ P x = true
  | None => Forall (fun y => P y = false) l
  end.
Proof.
  induction l as [ | a l IH]; simpl.
  - constructor.
  - destruct (P a) eqn:Ha.
    + exists [], l. repeat split; [constructor | exact Ha].
    + destruct (List.find P l) as [x | ].
      * destruct IH as (before & after & -> & Hb & Hx).
        exists (a :: before), after. repeat split; [ | exact Hx].
        constructor; assumption.
      * constructor; assumption.
Qed.

Lemma mergeBox_spec (parsed : list JSON) (i : nat) (b : IndexedBox) :
  mergedAt notAnalyzed parsed i b (mergeBox parsed i b).
Proof.
  unfold mergedAt, mergeBox. simpl. split; [reflexivity | split; [reflexivity | ]].
  pose proof (find_first (indexMatches i) parsed) as Hfind.
  destruct (List.find (indexMatches i) parsed) as [item | ].
  - destruct Hfind as (before & after & Hl & Hb & Hx). left.
    exists before, item, after. rewrite (indexMatches_truthy _ _ Hx).
    repeat split; try assumption.
    + eapply Forall_impl; [exact Hb | ]. intros x Hfalse Hspec.
      apply indexMatches_spec in Hspec. congruence.
    + apply indexMatches_spec. exact Hx.
  - right. split; [ | reflexivity].
    eapply Forall_impl; [exact Hfind | ]. intros x Hfalse Hspec.
    apply indexMatches_spec in Hspec. congruence.
Qed.

(** C1 (as amended).  [finalParticles] returns one particle per original box,
    in the order of the boxes: the particle at position [i] carries the box at
    position [i], the index [i] and the analysis of the first parsed entry
    whose numeric index equals [i]; when there is no such entry it carries the
    sentinel whose reason is the sentence ending in a full stop,
    [Index not found in AI response.]  This holds for every parsed list. *)
Theorem C1_merge_one_particle_per_box :
  forall (boxes : list IndexedBox) (parsed : list JSON),
    mergeSpec notAnalyzed boxes parsed.
Proof.
  intros boxes parsed. unfold mergeSpec, finalParticles. split.
  - apply length_imap.
  - intros i b Hb. exists (mergeBox parsed i b). split.
    + rewrite list_lookup_imap, Hb. reflexivity.
    + apply mergeBox_spec.
Qed.

(** C1 as stated fails: with one box and an empty parsed list the reason of
    the attached sentinel is not the sentence without the full stop. *)
Lemma C1_sentinel_reason_differs : ~ mergeSpec notAnalyzedNoStop [box0] [].
Proof.
  intros [_ H]. destruct (H 0%nat box0 eq_refl) as (p & Hp & _ & _ & Han).
  vm_compute in Hp. injection Hp as <-.
  destruct Han as [(before & item & after & Hl & _) | [_ Han]].
  - destruct before; discriminate Hl.
  - vm_compute in Han. discriminate Han.
Qed.

End Merge.

(** ** Detection geometry *)

Section GeometryFacts.

Import Geometry Statement.

Variable NumberToString : float -> string.
Variable StringToNumber : string -> float.

Local Abbreviation normalize := (processRoboflowResults NumberToString StringToNumber).

(** A number below or above zero is neither zero nor NaN. *)
Lemma nonzero_truthy (f : float) :
  PrimFloat.ltb f 0 = true \/ PrimFloat.ltb 0 f = true -> truthy (JNum f) = true.
Proof.
  unfold truthy, isNaN.
  rewrite !FloatAxioms.ltb_spec, !FloatAxioms.eqb_spec.
  change (Prim2SF 0) with (S754_zero false).
  destruct (Prim2SF f) as [s | s | | s m e]; simpl.
  - intros [H | H]; discriminate H.
  - destruct s; intros _; reflexivity.
  - intros [H | H]; discriminate H.
  - intros _. unfold SFeqb, SFcompare.
    rewrite Z.compare_refl, Pos.compare_cont_refl.
    destruct s; reflexivity.
Qed.

Lemma missingOrZero_falsy (v : Value) : missingOrZero v -> truthyV v = false.
Proof.
  intros [-> | [-> | (f & -> & Hf)]]; try reflexivity.
  simpl. rewrite Hf. reflexivity.
Qed.

Lemma normalize_throws_iff (roboflowData : Value) :
  normalize roboflowData = Throw missingDimensions
  <-> truthyV (imageWidth roboflowData) = false
      \/ truthyV (imageHeight roboflowData) = false.
Proof.
  unfold processRoboflowResults, imageWidth, imageHeight, missingDimensions.
  destruct (truthyV (getV (getV roboflowData "image") "width")) eqn:Hw;
    destruct (truthyV (getV (getV roboflowData "image") "height")) eqn:Hh; simpl.
  - split.
    + destruct (getV roboflowData "predictions") as [[ | | | | | ] | ];
        destruct (getV (getV roboflowData "image") "width");
        destruct (getV (getV roboflowData "image") "height"); discriminate.
    + intros [H | H]; discriminate H.
  - split; auto.
  - split; auto.
  - split; auto.
Qed.

(** C6 (as amended).  [processRoboflowResults] throws its error about missing
    image dimensions exactly when the image width or the image height is
    falsy; in particular it throws whenever one of them is missing, null or
    zero.  A negative dimension is not rejected: with a negative width and a
    height that is a number other than zero the call returns boxes. *)
Theorem C6_normalize_rejects_missing_or_zero :
  forall roboflowData : Value,
    (normalize roboflowData = Throw missingDimensions
     <-> truthyV (imageWidth roboflowData) = false
         \/ truthyV (imageHeight roboflowData) = false)
    /\ (missingOrZero (imageWidth roboflowData)
        \/ missingOrZero (imageHeight roboflowData) ->
        normalize roboflowData = Throw missingDimensions)
    /\ (forall w h : float,
          imageWidth roboflowData = Some (JNum w) ->
          imageHeight roboflowData = Some (JNum h) ->
          PrimFloat.ltb w 0 = true ->
          PrimFloat.ltb h 0 = true \/ PrimFloat.ltb 0 h = true ->
          exists boxes, normalize roboflowData = Return boxes).
Proof.
  intros roboflowData. split; [apply normalize_throws_iff | split].
  - intros H. apply normalize_throws_iff.
    destruct H as [H | H]; [left | right]; apply missingOrZero_falsy, H.
  - intros w h Hw Hh Hneg Hh0.
    pose proof (nonzero_truthy w (or_introl Hneg)) as Tw.
    pose proof (nonzero_truthy h Hh0) as Th.
    unfold processRoboflowResults. fold (imageWidth roboflowData).
    fold (imageHeight roboflowData). rewrite Hw, Hh.
    unfold truthyV. rewrite Tw, Th. cbn [negb orb].
    destruct (getV roboflowData "predictions") as [[ | | | | items | ] | ];
      eexists; reflexivity.
Qed.

(** C5 (as amended).  The prediction of scenario A, at image size 200 by 100,
    normalizes to the box of centre (0.5, 0.5) and size (0.2, 0.2); at 400 by
    200 the rectangle of that box has its top-left corner at (160, 80), width
    80 and height 40. *)
Theorem C5_scenario_A :
  normalize scenarioA = Return [scenarioA_box]
  /\ boxRect scenarioA_box 400 200 = mkRect 160 80 80 40.
Proof.
  split; vm_compute; reflexivity.
Qed.

End GeometryFacts.


(** C5 as stated fails: the top-left corner of the rectangle is not (140, 70). *)
Lemma C5_top_left_is_not_140_70 :
  ~ (Geometry.boxRect Statement.scenarioA_box 400 200 = Geometry.mkRect 140 70 80 40).
Proof.
  intros H. apply (f_equal (fun r => PrimFloat.eqb (Geometry.topLeftX r) 160)) in H.
  vm_compute in H. discriminate H.
Qed.

(** C6 as stated fails: a negative image width is not rejected. *)
Lemma C6_negative_width_not_rejected : ~ Statement.rejectsNonPositive.
Proof.
  intros H.
  specialize (H (fun _ => EmptyString) (fun _ => 0%float) Statement.negativeWidth).
  assert (Hneg : Statement.missingOrNonPositive (Statement.imageWidth Statement.negativeWidth)).
  { right. right. exists (-200)%float. split; reflexivity. }
  specialize (H (or_introl Hneg)). vm_compute in H. discriminate H.
Qed.

(** ** Extraction of the array from the reply of the model *)

Section Extraction.

Import Route Statement.

Local Open Scope Z_scope.

Lemma occurs_cons (c a : ascii) (s : string) :
  occurs c (String a s) <-> a = c \/ occurs c s.
Proof. unfold occurs. simpl. tauto. Qed.

Lemma occurs_app (c : ascii) (s1 s2 : string) :
  occurs c (s1 +:+ s2) <-> occurs c s1 \/ occurs c s2.
Proof.
  unfold occurs. induction s1 as [ | a s1 IH]; simpl.
  - tauto.
  - rewrite IH. tauto.
Qed.

Lemma indexOf_range (c : ascii) (s : string) :
  (indexOf c s = -1 /\ ~ occurs c s)
  \/ (0 <= indexOf c s < Z.of_nat (String.length s) /\ occurs c s).
Proof.
  induction s as [ | a s IH]; simpl indexOf.
  - left. split; [reflexivity | intros []].
  - rewrite occurs_cons. destruct (Ascii.eqb_spec a c) as [-> | Hne].
    + right. simpl String.length. split; [lia | now left].
    + destruct IH as [[-> Hno] | [Hr Hocc]].
      * left. simpl. split; [reflexivity | tauto].
      * right. destruct (Z.eqb_spec (indexOf c s) (-1)); [lia | ].
        simpl String.length. split; [lia | now right].
Qed.

Lemma lastIndexOf_range (c : ascii) (s : string) :
  (lastIndexOf c s = -1 /\ ~ occurs c s)
  \/ (0 <= lastIndexOf c s < Z.of_nat (String.length s) /\ occurs c s).
Proof.
  induction s as [ | a s IH]; simpl lastIndexOf.
  - left. split; [reflexivity | intros []].
  - rewrite occurs_cons. simpl String.length.
    destruct IH as [[-> Hno] | [Hr Hocc]].
    + simpl. destruct (Ascii.eqb_spec a c) as [-> | Hne].
      * right. split; [lia | now left].
      * left. split; [reflexivity | tauto].
    + right. destruct (Z.eqb_spec (lastIndexOf c s) (-1)); [lia | ].
      split; [lia | now right].
Qed.

Lemma indexOf_app (c : ascii) (p t : string) :
  ~ occurs c p -> occurs c t ->
  indexOf c (p +:+ t) = Z.of_nat (String.length p) + indexOf c t.
Proof.
  intros Hp Ht. induction p as [ | a p IH]; simpl.
  - reflexivity.
  - rewrite occurs_cons in Hp. destruct (Ascii.eqb_spec a c) as [-> | Hne]; [tauto | ].
    rewrite IH by tauto.
    destruct (indexOf_range c t) as [[_ Hno] | [Hr _]]; [tauto | ].
    destruct (Z.eqb_spec (Z.of_nat (String.length p) + indexOf c t) (-1)); lia.
Qed.

Lemma indexOf_app_l (c : ascii) (t s : string) :
  occurs c t -> indexOf c (t +:+ s) = indexOf c t.
Proof.
  intros Ht. induction t as [ | a t IH]; simpl.
  - destruct Ht.
  - rewrite occurs_cons in Ht. destruct (Ascii.eqb_spec a c) as [-> | Hne]; [reflexivity | ].
    rewrite IH by tauto. reflexivity.
Qed.

Lemma lastIndexOf_app (c : ascii) (p t : string) :
  occurs c t ->
  lastIndexOf c (p +:+ t) = Z.of_nat (String.length p) + lastIndexOf c t.
Proof.
  intros Ht. induction p as [ | a p IH]; simpl.
  - reflexivity.
  - rewrite IH.
    destruct (lastIndexOf_range c t) as [[_ Hno] | [Hr _]]; [tauto | ].
    destruct (Z.eqb_spec (Z.of_nat (String.length p) + lastIndexOf c t) (-1)); lia.
Qed.

Lemma lastIndexOf_app_l (c : ascii) (t s : string) :
  ~ occurs c s -> lastIndexOf c (t +:+ s) = lastIndexOf c t.
Proof.
  intros Hs. induction t as [ | a t IH]; simpl.
  - destruct (lastIndexOf_range c s) as [[H _] | [_ H]]; tauto.
  - rewrite IH. reflexivity.
Qed.

Lemma drop_chars_app (p x : string) (n : nat) :
  drop_chars (String.length p + n) (p +:+ x) = drop_chars n x.
Proof. induction p as [ | a p IH]; simpl; [reflexivity | exact IH]. Qed.

Lemma take_drop_app (t s : string) (a n : nat) :
  (a + n <= String.length t)%nat ->
  take_chars n (drop_chars a (t +:+ s)) = take_chars n (drop_chars a t).
Proof.
  revert a n. induction t as [ | c t IH]; intros a n Hlen; simpl in Hlen.
  - assert (a = 0%nat) by lia. assert (n = 0%nat) by lia. subst.
    simpl. destruct s; reflexivity.
  - destruct a as [ | a]; simpl.
    + destruct n as [ | n]; simpl; [reflexivity | ].
      f_equal. apply (IH 0%nat n). simpl. lia.
    + apply IH. lia.
Qed.

(** The brackets found in a wrapped text are those of the text itself. *)
Lemma extract_wrapped (p t s : string) :
  ~ occurs "[" p -> ~ occurs "]" s -> occurs "[" t -> occurs "]" t ->
  extract (p +:+ t +:+ s) = extract t.
Proof.
  intros Hp Hs Hopen Hclose. unfold extract.
  rewrite indexOf_app by (try rewrite occurs_app; tauto).
  rewrite indexOf_app_l by assumption.
  rewrite lastIndexOf_app by (rewrite occurs_app; tauto).
  rewrite lastIndexOf_app_l by assumption.
  destruct (indexOf_range "[" t) as [[_ Hno] | [Ha _]]; [tauto | ].
  destruct (lastIndexOf_range "]" t) as [[_ Hno] | [Hb _]]; [tauto | ].
  set (a := indexOf "[" t) in *. set (b := lastIndexOf "]" t) in *.
  set (n := Z.of_nat (String.length p)).
  assert (Hn : 0 <= n) by (unfold n; lia).
  replace (negb (n + a =? -1)) with true by (symmetry; apply negb_true_iff; lia).
  replace (negb (n + b =? -1)) with true by (symmetry; apply negb_true_iff; lia).
  replace (negb (a =? -1)) with true by (symmetry; apply negb_true_iff; lia).
  replace (negb (b =? -1)) with true by (symmetry; apply negb_true_iff; lia).
  replace (n + a <? n + b) with (a <? b) by (destruct (Z.ltb_spec a b), (Z.ltb_spec (n + a) (n + b)); lia).
  cbn [andb]. destruct (Z.ltb_spec a b) as [Hlt | Hge]; [ | reflexivity].
  f_equal. unfold substring.
  replace (n + b + 1 - (n + a)) with (b + 1 - a) by lia.
  replace (Z.to_nat (n + a)) with (String.length p + Z.to_nat a)%nat by (unfold n; lia).
  rewrite drop_chars_app. apply take_drop_app. lia.
Qed.

End Extraction.

(** ** The parser reads its input from left to right *)

Section ParserFacts.

Import JSONParser.

Local Open Scope char_scope.

Lemma skip_ws_suffix (s : list ascii) : skip_ws s `suffix_of` s.
Proof.
  induction s as [ | c s IH]; simpl; [reflexivity | ].
  destruct (is_ws c); [ | reflexivity]. apply suffix_cons_r, IH.
Qed.

Lemma after_suffix (c : ascii) (s r : list ascii) :
  after c s = Some r -> (c :: r) `suffix_of` s.
Proof.
  unfold after. pose proof (skip_ws_suffix s) as H.
  destruct (skip_ws s) as [ | c' rest]; [discriminate | ].
  destruct (Ascii.eqb_spec c' c) as [-> | ]; [ | discriminate].
  intros [= ->]. exact H.
Qed.

Lemma after_rest (c : ascii) (s r : list ascii) :
  after c s = Some r -> r `suffix_of` s.
Proof.
  intros H. apply after_suffix in H.
  etransitivity; [ | exact H]. apply suffix_cons_r. reflexivity.
Qed.

Lemma strip_suffix (lit s r : list ascii) : strip lit s = Some r -> r `suffix_of` s.
Proof.
  revert s. induction lit as [ | l lit IH]; intros s; simpl.
  - intros [= ->]. reflexivity.
  - destruct s as [ | c s]; [discriminate | ].
    destruct (Ascii.eqb l c); [ | discriminate].
    intros H. apply suffix_cons_r, IH, H.
Qed.

Lemma digits_suffix (s : list ascii) :
  forall acc n, (digits acc n s).2 `suffix_of` s.
Proof.
  induction s as [ | c s IH]; intros acc n; simpl; [reflexivity | ].
  destruct (digit c); [ | reflexivity]. apply suffix_cons_r, IH.
Qed.

Lemma sign_suffix (b : bool) (s : list ascii) : (sign b s).2 `suffix_of` s.
Proof.
  destruct s as [ | c s]; simpl; [reflexivity | ].
  destruct (Ascii.eqb c "-"); simpl; [apply suffix_cons_r; reflexivity | ].
  destruct (b && Ascii.eqb c "+"); simpl; [apply suffix_cons_r | ]; reflexivity.
Qed.

Lemma int_part_suffix (s r : list ascii) (i : Z) :
  int_part s = Some (i, r) -> r `suffix_of` s.
Proof.
  destruct s as [ | c s]; simpl; [discriminate | ].
  destruct (Ascii.eqb c "0").
  - intros [= _ <-]. apply suffix_cons_r. reflexivity.
  - destruct (digit c) as [d | ]; [ | discriminate].
    pose proof (digits_suffix s (10 * 0 + d) (0 + 1)) as H.
    destruct (digits (10 * 0 + d) (0 + 1) s) as [[i' n'] r'].
    intros [= _ <-]. apply suffix_cons_r, H.
Qed.

Lemma frac_part_suffix (i : Z) (s r : list ascii) (m n : Z) :
  frac_part i s = Some (m, n, r) -> r `suffix_of` s.
Proof.
  destruct s as [ | c s]; simpl; [intros [= _ _ <-]; reflexivity | ].
  destruct (Ascii.eqb c ".").
  - pose proof (digits_suffix s i 0) as H.
    destruct (digits i 0 s) as [[m' n'] r'].
    destruct (n' =? 0)%Z; [discriminate | ].
    intros [= _ _ <-]. apply suffix_cons_r, H.
  - intros [= _ _ <-]. reflexivity.
Qed.

Lemma exp_part_suffix (s r : list ascii) (x : Z) :
  exp_part s = Some (x, r) -> r `suffix_of` s.
Proof.
  destruct s as [ | c s]; simpl; [intros [= _ <-]; reflexivity | ].
  destruct (Ascii.eqb c "e" || Ascii.eqb c "E").
  - pose proof (sign_suffix true s) as H1.
    destruct (sign true s) as [eneg rest1].
    pose proof (digits_suffix rest1 0 0) as H2.
    destruct (digits 0 0 rest1) as [[x' n'] rest2].
    destruct (n' =? 0)%Z; [discriminate | ].
    intros [= _ <-]. apply suffix_cons_r. etransitivity; [exact H2 | exact H1].
  - intros [= _ <-]. reflexivity.
Qed.

Lemma parse_number_suffix (s r : list ascii) (f : float) :
  parse_number s = Some (f, r) -> r `suffix_of` s.
Proof.
  unfold parse_number. pose proof (sign_suffix false s) as H1.
  destruct (sign false s) as [neg s1].
  destruct (int_part s1) as [[i s2] | ] eqn:H2; [ | discriminate].
  destruct (frac_part i s2) as [[[m n] s3] | ] eqn:H3; [ | discriminate].
  destruct (exp_part s3) as [[x s4] | ] eqn:H4; [ | discriminate].
  intros [= _ <-].
  apply int_part_suffix in H2. apply frac_part_suffix in H3.
  apply exp_part_suffix in H4.
  etransitivity; [exact H4 | ]. etransitivity; [exact H3 | ].
  etransitivity; [exact H2 | exact H1].
Qed.

Lemma prepend_suffix (cs cs' : list ascii) (o : option (list ascii * list ascii))
  (r s : list ascii) :
  (forall cs0 r0, o = Some (cs0, r0) -> r0 `suffix_of` s) ->
  prepend cs o = Some (cs', r) -> r `suffix_of` s.
Proof.
  intros H. destruct o as [[cs0 r0] | ]; simpl; [ | discriminate].
  intros [= _ <-]. eapply H. reflexivity.
Qed.

Lemma parse_chars_suffix (n : nat) :
  forall s cs r, (List.length s <= n)%nat ->
    parse_chars s = Some (cs, r) -> r `suffix_of` s.
Proof.
  induction n as [ | n IH]; intros s cs r Hlen.
  - destruct s; [discriminate | simpl in Hlen; lia].
  - destruct s as [ | c rest]; [discriminate | ]. simpl in Hlen. simpl.
    destruct (Ascii.eqb c dquote).
    { intros [= _ <-]. apply suffix_cons_r. reflexivity. }
    destruct (Ascii.eqb c backslash).
    + destruct rest as [ | e rest1]; [discriminate | ]. simpl in Hlen.
      destruct (Ascii.eqb e "u").
      * destruct rest1 as [ | h1 [ | h2 [ | h3 [ | h4 rest2]]]]; try discriminate.
        simpl in Hlen. destruct (hex4 h1 h2 h3 h4); [ | discriminate].
        intros H. do 6 apply suffix_cons_r.
        eapply prepend_suffix; [ | exact H].
        intros cs0 r0. apply IH. lia.
      * destruct (escape e); [ | discriminate].
        intros H. do 2 apply suffix_cons_r.
        eapply prepend_suffix; [ | exact H].
        intros cs0 r0. apply IH. lia.
    + destruct (nat_of_ascii c <? 32)%nat; [discriminate | ].
      intros H. apply suffix_cons_r.
      eapply prepend_suffix; [ | exact H].
      intros cs0 r0. apply IH. lia.
Qed.

Lemma parse_string_suffix (s r : list ascii) (str : string) :
  parse_string s = Some (str, r) -> r `suffix_of` s.
Proof.
  unfold parse_string. destruct (parse_chars s) as [[cs r'] | ] eqn:H; [ | discriminate].
  intros [= _ <-]. eapply parse_chars_suffix; [ | exact H]. reflexivity.
Qed.

Lemma literal_suffix (lit : list ascii) (v v' : JSON) (s r : list ascii) :
  literal lit v s = Some (v', r) -> r `suffix_of` s.
Proof.
  unfold literal. destruct (strip lit s) eqn:H; [ | discriminate].
  intros [= _ <-]. eapply strip_suffix, H.
Qed.

(** Whatever the three parsers leave unread is a suffix of what they were
    given. *)
Lemma parsers_suffix (fuel : nat) :
  (forall s v r, parse_value fuel s = Some (v, r) -> r `suffix_of` s)
  /\ (forall s vs r, parse_elements fuel s = Some (vs, r) -> r `suffix_of` s)
  /\ (forall acc s ps r, parse_members fuel acc s = Some (ps, r) -> r `suffix_of` s).
Proof.
  induction fuel as [ | fuel (IHv & IHe & IHm)].
  - repeat split; intros; discriminate.
  - split; [ | split].
    + intros s v r. simpl. pose proof (skip_ws_suffix s) as Hs.
      destruct (skip_ws s) as [ | c rest]; [discriminate | ].
      assert (Hrest : rest `suffix_of` s).
      { etransitivity; [ | exact Hs]. apply suffix_cons_r. reflexivity. }
      destruct (Ascii.eqb c "[").
      { destruct (after "]" rest) as [rest' | ] eqn:Ha.
        - intros [= _ <-]. etransitivity; [eapply after_rest, Ha | exact Hrest].
        - destruct (parse_elements fuel rest) as [[items rest'] | ] eqn:He; [ | discriminate].
          intros [= _ <-]. etransitivity; [eapply IHe, He | exact Hrest]. }
      destruct (Ascii.eqb c "{").
      { destruct (after "}" rest) as [rest' | ] eqn:Ha.
        - intros [= _ <-]. etransitivity; [eapply after_rest, Ha | exact Hrest].
        - destruct (parse_members fuel [] rest) as [[props rest'] | ] eqn:He; [ | discriminate].
          intros [= _ <-]. etransitivity; [eapply IHm, He | exact Hrest]. }
      destruct (Ascii.eqb c dquote).
      { destruct (parse_string rest) as [[str rest'] | ] eqn:Hp; [ | discriminate].
        intros [= _ <-]. etransitivity; [eapply parse_string_suffix, Hp | exact Hrest]. }
      destruct (Ascii.eqb c "n").
      { intros H. etransitivity; [eapply literal_suffix, H | exact Hrest]. }
      destruct (Ascii.eqb c "t").
      { intros H. etransitivity; [eapply literal_suffix, H | exact Hrest]. }
      destruct (Ascii.eqb c "f").
      { intros H. etransitivity; [eapply literal_suffix, H | exact Hrest]. }
      destruct (parse_number (c :: rest)) as [[f rest'] | ] eqn:Hn; [ | discriminate].
      intros [= _ <-]. etransitivity; [eapply parse_number_suffix, Hn | exact Hs].
    + intros s vs r. simpl.
      destruct (parse_value fuel s) as [[v rest] | ] eqn:Hv; [ | discriminate].
      apply IHv in Hv.
      destruct (after "]" rest) as [rest' | ] eqn:Ha.
      { intros [= _ <-]. etransitivity; [eapply after_rest, Ha | exact Hv]. }
      destruct (after "," rest) as [rest' | ] eqn:Hc; [ | discriminate].
      destruct (parse_elements fuel rest') as [[vs' rest''] | ] eqn:He; [ | discriminate].
      intros [= _ <-]. etransitivity; [eapply IHe, He | ].
      etransitivity; [eapply after_rest, Hc | exact Hv].
    + intros acc s ps r. simpl.
      destruct (after dquote s) as [rest | ] eqn:Hq; [ | discriminate].
      destruct (parse_string rest) as [[key rest1] | ] eqn:Hk; [ | discriminate].
      destruct (after ":" rest1) as [rest2 | ] eqn:Hc; [ | discriminate].
      destruct (parse_value fuel rest2) as [[v rest3] | ] eqn:Hv; [ | discriminate].
      assert (H3 : rest3 `suffix_of` s).
      { etransitivity; [eapply IHv, Hv | ].
        etransitivity; [eapply after_rest, Hc | ].
        etransitivity; [eapply parse_string_suffix, Hk | eapply after_rest, Hq]. }
      destruct (after "}" rest3) as [rest4 | ] eqn:Ha.
      { intros [= _ <-]. etransitivity; [eapply after_rest, Ha | exact H3]. }
      destruct (after "," rest3) as [rest4 | ] eqn:Hcomma; [ | discriminate].
      intros H. etransitivity; [eapply IHm, H | ].
      etransitivity; [eapply after_rest, Hcomma | exact H3].
Qed.

Lemma suffix_In {A : Type} (x : A) (l1 l2 : list A) :
  l1 `suffix_of` l2 -> In x l1 -> In x l2.
Proof. intros [k ->] H. apply in_or_app. right. exact H. Qed.

(** A list of elements ends with a closing bracket. *)
Lemma parse_elements_closes (fuel : nat) :
  forall s vs r, parse_elements fuel s = Some (vs, r) -> In "]" s.
Proof.
  induction fuel as [ | fuel IH]; intros s vs r; simpl; [discriminate | ].
  destruct (parse_value fuel s) as [[v rest] | ] eqn:Hv; [ | discriminate].
  apply (proj1 (parsers_suffix fuel)) in Hv.
  destruct (after "]" rest) as [rest' | ] eqn:Ha.
  { intros _. apply after_suffix in Ha.
    eapply suffix_In; [exact Hv | ]. eapply suffix_In; [exact Ha | ]. now left. }
  destruct (after "," rest) as [rest' | ] eqn:Hc; [ | discriminate].
  destruct (parse_elements fuel rest') as [[vs' rest''] | ] eqn:He; [ | discriminate].
  intros _. apply IH in He.
  eapply suffix_In; [exact Hv | ]. eapply suffix_In; [eapply after_rest, Hc | exact He].
Qed.

(** A text that parses to an array holds both brackets. *)
Lemma parse_array_brackets (text : string) (items : list JSON) :
  parse text = Some (JArr items) ->
  Statement.occurs "[" text /\ Statement.occurs "]" text.
Proof.
  unfold parse, Statement.occurs.
  set (s := list_ascii_of_string text).
  set (fuel := (2 * List.length s)%nat).
  destruct (parse_value (S fuel) s) as [[v rest] | ] eqn:Hv; [ | discriminate].
  destruct (skip_ws rest); [ | discriminate]. intros [= ->].
  simpl in Hv. pose proof (skip_ws_suffix s) as Hs.
  destruct (skip_ws s) as [ | c rest0]; [discriminate | ].
  assert (Hrest : rest0 `suffix_of` s).
  { etransitivity; [ | exact Hs]. apply suffix_cons_r. reflexivity. }
  destruct (Ascii.eqb_spec c "[") as [-> | Hne].
  - split; [eapply suffix_In; [exact Hs | now left] | ].
    destruct (after "]" rest0) as [rest' | ] eqn:Ha.
    + apply after_suffix in Ha.
      eapply suffix_In; [exact Hrest | ]. eapply suffix_In; [exact Ha | now left].
    + destruct (parse_elements fuel rest0) as [[vs rest'] | ] eqn:He; [ | discriminate].
      eapply suffix_In; [exact Hrest | ]. eapply parse_elements_closes, He.
  - exfalso.
    destruct (Ascii.eqb c "{").
    { destruct (after "}" rest0); [discriminate | ].
      destruct (parse_members fuel [] rest0) as [[? ?] | ]; discriminate. }
    destruct (Ascii.eqb c dquote).
    { destruct (parse_string rest0) as [[? ?] | ]; discriminate. }
    unfold literal in Hv.
    destruct (Ascii.eqb c "n"). { destruct (strip _ rest0); discriminate. }
    destruct (Ascii.eqb c "t"). { destruct (strip _ rest0); discriminate. }
    destruct (Ascii.eqb c "f"). { destruct (strip _ rest0); discriminate. }
    destruct (parse_number (c :: rest0)) as [[? ?] | ]; discriminate.
Qed.

End ParserFacts.

(** ** Parsing the reply of the model *)

Section ParseFacts.

Import Route Statement.

Lemma parseAnalysis_wrapped (JSON_parse : string -> option JSON) (p t s : string) :
  ~ occurs "[" p -> ~ occurs "]" s -> occurs "[" t -> occurs "]" t ->
  parseAnalysis JSON_parse (p +:+ t +:+ s) = parseAnalysis JSON_parse t.
Proof.
  intros Hp Hs Hopen Hclose. unfold parseAnalysis.
  rewrite extract_wrapped by assumption. reflexivity.
Qed.

(** C7.  Whatever [JSON.parse] is, a text that holds an opening and a closing
    bracket parses to the same result bare and wrapped in a prefix without
    opening bracket and a suffix without closing bracket; every text that
    [JSON.parse] reads as an array is such a text.  The fenced reply of
    scenario C parses to the one-element array whose entry has index 0. *)
Theorem C7_wrapped_array_parses_alike :
  (forall (JSON_parse : string -> option JSON) (p t s : string),
      ~ occurs "[" p -> ~ occurs "]" s -> occurs "[" t -> occurs "]" t ->
      parseAnalysis JSON_parse (p +:+ t +:+ s) = parseAnalysis JSON_parse t)
  /\ (forall (t p s : string) (items : list JSON),
        JSONParser.parse t = Some (JArr items) ->
        ~ occurs "[" p -> ~ occurs "]" s ->
        parseAnalysis JSONParser.parse (p +:+ t +:+ s)
        = parseAnalysis JSONParser.parse t)
  /\ parseAnalysis JSONParser.parse scenarioC = inr [scenarioC_item]
  /\ parseAnalysis JSONParser.parse scenarioC_array = inr [scenarioC_item]
  /\ get scenarioC_item "index" = Some (JNum 0).
Proof.
  split; [exact parseAnalysis_wrapped | split].
  - intros t p s items Hparse Hp Hs.
    destruct (parse_array_brackets t items Hparse) as [Hopen Hclose].
    apply parseAnalysis_wrapped; assumption.
  - repeat split; vm_compute; reflexivity.
Qed.

(** The wrapping of scenario C meets the hypotheses of C7. *)
Lemma C7_scenario_C_witness :
  parseAnalysis JSONParser.parse scenarioC
  = parseAnalysis JSONParser.parse scenarioC_array.
Proof.
  apply (proj1 C7_wrapped_array_parses_alike JSONParser.parse
               scenarioC_before scenarioC_array scenarioC_after);
    unfold occurs; vm_compute; intuition discriminate.
Defined.

End ParseFacts.

(** ** Statistics *)

Section StatsFacts.

Import Page Statement.

Variable NumberToString : float -> string.

Local Abbreviation label := (Page.label NumberToString).
Local Abbreviation tally := (Page.tally NumberToString).
Local Abbreviation computeStats := (Page.computeStats NumberToString).

Lemma contributes_usable (p : AnalyzedParticle.t) :
  contributes p = true <-> usable p.
Proof.
  unfold contributes, usable. destruct (AnalyzedParticle.analysis p) as [a | ]; simpl.
  - rewrite !andb_true_iff, negb_true_iff. split.
    + intros [[Ht He] Hs]. exists a. repeat split; try assumption.
      intros Heq. rewrite Heq in Hs. discriminate Hs.
    + intros (a' & [= <-] & Ht & He & Hs). repeat split; try assumption.
      unfold strictNeStr. destruct (get a "shape") as [[ | | | s | | ] | ]; try reflexivity.
      destruct (String.eqb_spec s "Not Analyzed") as [-> | ]; [ | reflexivity].
      contradiction Hs. reflexivity.
  - split; [discriminate | ]. intros (a & Ha & _). discriminate Ha.
Qed.

Lemma lookup_bump_ne (k k' : string) (o : gmap string Cell) :
  k <> k' -> bump k' o !! k = o !! k.
Proof.
  intros Hne. unfold bump.
  destruct (o !! k') as [[n | ] | ].
  - apply lookup_insert_ne. congruence.
  - apply lookup_insert_ne. congruence.
  - destruct (inherited k'); [destruct (String.eqb k' "__proto__") | ];
      try reflexivity; apply lookup_insert_ne; congruence.
Qed.

Lemma lookup_bump_eq (k : string) (o : gmap string Cell) (n : nat) :
  inherited k = false -> o !! k = cellOf n -> bump k o !! k = cellOf (S n).
Proof.
  intros Hk Hn. unfold bump. rewrite Hn, Hk. destruct n as [ | n]; simpl.
  - apply lookup_insert_eq.
  - rewrite lookup_insert_eq. do 2 f_equal. lia.
Qed.

(** A key that is not inherited holds the number of times it was bumped. *)
Lemma lookup_fold_bump (k : string) (l : list string) :
  inherited k = false ->
  forall (o : gmap string Cell) (n : nat),
    o !! k = cellOf n ->
    fold_left (fun o' k' => bump k' o') l o !! k = cellOf (n + occurrences k l).
Proof.
  intros Hk. unfold occurrences. induction l as [ | k' l IH]; intros o n Ho; simpl.
  - rewrite Nat.add_0_r. exact Ho.
  - destruct (String.eqb_spec k k') as [<- | Hne]; simpl.
    + rewrite (IH _ (S n)) by (apply lookup_bump_eq; assumption).
      f_equal. lia.
    + apply IH. rewrite lookup_bump_ne by assumption. exact Ho.
Qed.

(** The [forEach] of [analysisStats] bumps, in each of the three records, the
    labels of the contributing particles, and counts these particles. *)
Lemma fold_tally (particles : list AnalyzedParticle.t) :
  forall shapes colors transparency n,
    fold_left tally particles (shapes, colors, transparency, n)
    = (fold_left (fun o k => bump k o) (labels NumberToString "shape" particles) shapes,
       fold_left (fun o k => bump k o) (labels NumberToString "color" particles) colors,
       fold_left (fun o k => bump k o) (labels NumberToString "transparency" particles)
                 transparency,
       n + List.length (List.filter contributes particles)).
Proof.
  unfold labels. induction particles as [ | p particles IH]; intros shapes colors transparency n.
  - simpl. rewrite Nat.add_0_r. reflexivity.
  - cbn [fold_left List.filter]. unfold Page.tally at 2.
    destruct (contributes p); cbn [map fold_left List.length].
    + rewrite IH. f_equal. lia.
    + apply IH.
Qed.

Lemma computeStats_nonempty (particles : list AnalyzedParticle.t) :
  particles <> [] ->
  exists s, computeStats particles = Some s /\ statsOf NumberToString particles s.
Proof.
  intros Hne. unfold Page.computeStats.
  destruct particles as [ | p particles]; [contradiction | ].
  remember (p :: particles) as ps eqn:Hps.
  replace (List.length ps =? 0)%nat with false by (subst ps; reflexivity).
  rewrite fold_tally. eexists. split; [reflexivity | ].
  unfold statsOf. simpl. repeat split.
  - intros H. apply Nat.ltb_lt in H. exact H.
  - intros H. apply Nat.ltb_lt. exact H.
  - apply (lookup_fold_bump k _ H ∅ 0). apply lookup_empty.
  - apply (lookup_fold_bump k _ H ∅ 0). apply lookup_empty.
  - apply (lookup_fold_bump k _ H ∅ 0). apply lookup_empty.
  - rewrite H. reflexivity.
  - unfold labels. apply length_zero_iff_nil in H. rewrite H. reflexivity.
  - unfold labels. apply length_zero_iff_nil in H. rewrite H. reflexivity.
  - unfold labels. apply length_zero_iff_nil in H. rewrite H. reflexivity.
Qed.

(** C8 (as amended).  For a list that is not empty, and whose counted
    particles carry labels that convert to property keys, [computeStats]
    returns a record: [count] is the length of the list, [analyzedCount] the
    number of contributing particles, [hasStats] holds exactly when
    [analyzedCount] is positive, each label that is not a property inherited
    by every object is mapped to the number of contributing particles that
    carry it, and with no contributing particle [hasStats] is false and the
    three distributions are empty.  A particle contributes exactly when its
    analysis is truthy (an object, not null), its [error] is absent or falsy
    (the empty string), and its shape is not the sentinel.  For the empty
    list the result is null.  (A label that is an object with an entry of its
    own named [toString] does not convert: the code throws a TypeError for
    it, and nothing is stated of such a list.) *)
Theorem C8_computeStats :
  forall particles : list AnalyzedParticle.t,
    (forall p, contributes p = true <-> usable p)
    /\ (particles = [] -> computeStats particles = None)
    /\ (particles <> [] ->
        (forall p, In p particles -> contributes p = true ->
                   Converts.labelsReturn p = true) ->
        exists s, computeStats particles = Some s
                  /\ statsOf NumberToString particles s).
Proof.
  intros particles. split; [exact contributes_usable | split].
  - intros ->. reflexivity.
  - intros Hne _. apply computeStats_nonempty, Hne.
Qed.

(** C10.  When no particle is displayed the statistics are null, and only
    then: a record of statistics always counts at least one particle, so the
    branch of [SummaryStats] for a record with a zero count is never taken. *)
Theorem C10_stats_null_when_nothing_displayed :
  forall st : State,
    particlesToDisplay st = [] ->
    analysisStats NumberToString st = None
    /\ (forall st' s, analysisStats NumberToString st' = Some s ->
          0 < count s /\ particlesToDisplay st' <> [])
    /\ (forall totalDetectedCount processing,
          SummaryStats (analysisStats NumberToString st) totalDetectedCount processing
          = if negb processing && Nat.eqb totalDetectedCount 0
            then NoMicroplasticsDetected else RenderNothing).
Proof.
  intros st Hempty. unfold analysisStats. rewrite Hempty. split; [reflexivity | split].
  - intros st' s. unfold Page.computeStats.
    destruct (particlesToDisplay st') as [ | p ps]; [discriminate | ].
    remember (p :: ps) as l eqn:Hl.
    replace (List.length l =? 0)%nat with false by (subst l; reflexivity).
    destruct (fold_left _ l _) as [[[sh co] tr] n].
    intros [= <-]. simpl. subst l. split; [simpl; lia | discriminate].
  - intros totalDetectedCount processing. reflexivity.
Qed.

End StatsFacts.

(** With the initial state nothing is displayed. *)
Lemma C10_initial_state_witness :
  Page.analysisStats (fun _ => EmptyString) Page.initial = None.
Proof.
  apply (C10_stats_null_when_nothing_displayed (fun _ => EmptyString) Page.initial).
  reflexivity.
Defined.

(** C8 as stated fails: for the empty list no record is returned, and a
    particle whose analysis carries an empty [error] contributes. *)
Lemma C8_empty_list_has_no_record :
  ~ Statement.statsAlwaysReturned /\ ~ Statement.contributesIffNoErrorField.
Proof.
  split.
  - intros H. destruct (H (fun _ => EmptyString) []) as (s & Hs & _). discriminate Hs.
  - intros H. destruct (proj1 (H Statement.emptyErrorParticle) eq_refl)
      as (a & Ha & _ & He & _).
    injection Ha as <-. discriminate He.
Qed.

(** The statistics of the particle of scenario A with the analysis of
    scenario C. *)
Lemma C8_scenario_witness :
  exists s, Page.computeStats Statement.noNumberToString [Reading.particleA] = Some s
            /\ Statement.statsOf Statement.noNumberToString [Reading.particleA] s.
Proof.
  apply (proj2 (proj2 (C8_computeStats Statement.noNumberToString [Reading.particleA]))).
  - discriminate.
  - intros p [<- | []] _. reflexivity.
Defined.

(** ** Export *)

Section ExportFacts.

Import Page Statement.

Variable NumberToString : float -> string.
Variable toFixed : float -> nat -> string.

Local Abbreviation escapeCsvField := (Page.escapeCsvField NumberToString).
Local Abbreviation fieldString := (Page.fieldString NumberToString).

Lemma test_needsQuoting (s : string) : test s = true <-> needsQuoting s.
Proof.
  unfold needsQuoting, occurs. induction s as [ | c s IH]; simpl.
  - split; [discriminate | tauto].
  - rewrite !orb_true_iff, IH.
    destruct (Ascii.eqb_spec c "034"), (Ascii.eqb_spec c ","), (Ascii.eqb_spec c "010");
      intuition congruence.
Qed.

Lemma replace_doubled (s : string) : replace s = doubled s.
Proof.
  unfold doubled. induction s as [ | c s IH]; simpl; [reflexivity | ].
  destruct (Ascii.eqb c "034"); simpl; rewrite IH; reflexivity.
Qed.

Lemma readQuoted_quote (s : string) :
  readQuoted (String "034" (String "034" s))
  = match readQuoted s with
    | Some r => Some (String "034" r)
    | None => None
    end.
Proof. reflexivity. Qed.

Lemma readQuoted_char (c : ascii) (s : string) :
  Ascii.eqb c "034" = false ->
  readQuoted (String c s)
  = match readQuoted s with
    | Some r => Some (String c r)
    | None => None
    end.
Proof. intros H. cbn [readQuoted]. rewrite H. reflexivity. Qed.

Lemma append_String (c : ascii) (s t : string) :
  String c s +:+ t = String c (s +:+ t).
Proof. reflexivity. Qed.

Lemma readQuoted_replace (s : string) : readQuoted (replace s +:+ dquote) = Some s.
Proof.
  induction s as [ | c s IH]; [reflexivity | ].
  cbn [replace]. destruct (Ascii.eqb c "034") eqn:Hc.
  - apply Ascii.eqb_eq in Hc. subst c.
    rewrite !append_String, readQuoted_quote, IH. reflexivity.
  - rewrite append_String, (readQuoted_char c _ Hc), IH. reflexivity.
Qed.

Lemma readField_escape (field : Value) :
  readField (escapeCsvField field) = Some (fieldString field).
Proof.
  unfold Page.escapeCsvField. fold (fieldString field).
  destruct (test (fieldString field)) eqn:Ht.
  - change (dquote +:+ replace (fieldString field) +:+ dquote)
      with (String "034" (replace (fieldString field) +:+ dquote)).
    cbn [readField]. change (Ascii.eqb "034" "034") with true. cbn iota.
    apply readQuoted_replace.
  - destruct (fieldString field) as [ | c s]; [reflexivity | ].
    cbn [readField]. simpl in Ht. apply orb_false_elim in Ht as [Ht _].
    apply orb_false_elim in Ht as [Ht _]. apply orb_false_elim in Ht as [Ht _].
    rewrite Ht. reflexivity.
Qed.

(** C9.  The string value of a field is the field itself for a string, the
    empty string for [null] and [undefined], the platform's text for a
    number, and for any other value what its conversion to a string gives.  A field whose conversion returns and whose string value holds a
    comma, a double quote or a line feed is written between double quotes
    with each of its double quotes doubled; any other such field is written
    as it is; in both cases the value can be read back from what is written.
    Whenever particles are displayed, hold the numbers that were sent, and
    have fields that convert, the export is produced, and each of its lines
    is the comma-separated list of the fields of a row written this way: the
    headers first, then one row per displayed particle; with no particle
    displayed nothing is exported. *)
Theorem C9_escapeCsvField :
  (forall s, fieldString (Some (JStr s)) = s)
  /\ fieldString None = EmptyString
  /\ fieldString (Some JNull) = EmptyString
  /\ (forall f, fieldString (Some (JNum f)) = NumberToString f)
  /\ (forall v, v <> JNull -> fieldString (Some v) = ToString NumberToString v)
  /\ (forall s,
        (needsQuoting s ->
         escapeCsvField (Some (JStr s)) = dquote +:+ doubled s +:+ dquote)
        /\ (~ needsQuoting s -> escapeCsvField (Some (JStr s)) = s))
  /\ (forall field,
        Converts.stringOfReturns field = true ->
        (needsQuoting (fieldString field) ->
         escapeCsvField field = dquote +:+ doubled (fieldString field) +:+ dquote)
        /\ (~ needsQuoting (fieldString field) ->
            escapeCsvField field = fieldString field)
        /\ readField (escapeCsvField field) = Some (fieldString field))
  /\ (forall st,
        particlesToDisplay st <> [] ->
        Wire.exactParticles (analyzedParticles st) ->
        (forall p, In p (particlesToDisplay st) -> Converts.rowReturns toFixed p = true) ->
        handleExportCsv NumberToString toFixed st
        = Some (JS.join newline
                  (map (fun fields => JS.join "," (map escapeCsvField fields))
                       (headers :: map (row toFixed) (particlesToDisplay st)))))
  /\ (forall st,
        particlesToDisplay st = [] ->
        handleExportCsv NumberToString toFixed st = None).
Proof.
  assert (Hquote : forall field,
             needsQuoting (fieldString field) ->
             escapeCsvField field = dquote +:+ doubled (fieldString field) +:+ dquote).
  { intros field H. apply test_needsQuoting in H. unfold Page.escapeCsvField.
    rewrite H, replace_doubled. reflexivity. }
  assert (Hplain : forall field,
             ~ needsQuoting (fieldString field) ->
             escapeCsvField field = fieldString field).
  { intros field H. unfold Page.escapeCsvField.
    destruct (test (Page.fieldString NumberToString field)) eqn:Ht; [ | reflexivity].
    apply test_needsQuoting in Ht. contradiction. }
  split; [reflexivity | ]. split; [reflexivity | ]. split; [reflexivity | ].
  split; [reflexivity | ].
  split; [intros [ | b | f | s | l | o] H; try reflexivity; contradiction | ].
  split; [ | split; [ | split]].
  - intros s. split.
    + apply (Hquote (Some (JStr s))).
    + apply (Hplain (Some (JStr s))).
  - intros field _. split; [apply Hquote | split; [apply Hplain | apply readField_escape]].
  - intros st Hsome _ _. unfold handleExportCsv.
    destruct (particlesToDisplay st) as [ | p ps] eqn:Hps; [contradiction | ].
    cbn [List.length Nat.eqb map]. unfold csvLine. rewrite map_map. reflexivity.
  - intros st Hnone. unfold handleExportCsv. rewrite Hnone. reflexivity.
Qed.

End ExportFacts.

(** The export of the analysed page of scenario A, and a field that needs
    its quotes. *)
Lemma C9_scenario_witness :
  Page.escapeCsvField Statement.noNumberToString (Some (JStr "Fiber, blue"))
  = Page.dquote +:+ Statement.doubled "Fiber, blue" +:+ Page.dquote
  /\ Page.handleExportCsv Statement.noNumberToString Reading.noToFixed
       (Page.page Reading.analysedA)
     = Some (JS.join Page.newline
               (map (fun fields =>
                       JS.join "," (map (Page.escapeCsvField Statement.noNumberToString)
                                        fields))
                    (Page.headers
                     :: map (Page.row Reading.noToFixed)
                            (Page.particlesToDisplay (Page.page Reading.analysedA))))).
Proof.
  pose proof (C9_escapeCsvField Statement.noNumberToString Reading.noToFixed)
    as (_ & _ & _ & _ & _ & Hstring & _ & Hexport & _).
  split.
  - apply (proj1 (Hstring "Fiber, blue")). left. unfold Statement.occurs.
    cbn. tauto.
  - apply Hexport.
    + discriminate.
    + intros p [<- | []]. reflexivity.
    + intros p [<- | []]. reflexivity.
Defined.

(** ** The pipeline *)

Section PipelineFacts.

Import Page Statement.

Lemma imap_imap {A B C : Type} (f : nat -> B -> C) (g : nat -> A -> B) (l : list A) :
  imap f (imap g l) = imap (fun i x => f i (g i x)) l.
Proof.
  apply list_eq. intros i. rewrite !list_lookup_imap.
  destruct (l !! i); reflexivity.
Qed.

Lemma parseErrorParticles_boxes (boxes : list BoundingBox.t) :
  Route.parseErrorParticles (boxesWithIndices boxes)
  = imap (fun index box =>
            AnalyzedParticle.mk box index (Some Route.parseErrorAnalysis)) boxes.
Proof. unfold Route.parseErrorParticles, boxesWithIndices. apply imap_imap. Qed.

Lemma boxesWithIndices_length (boxes : list BoundingBox.t) :
  List.length (boxesWithIndices boxes) = List.length boxes.
Proof. apply length_imap. Qed.

(** The reply of the route when the text of the model cannot be parsed. *)
Lemma routeReply_parse_failure (JSON_parse : string -> option JSON)
  (url responseText : string) (boxes : list BoundingBox.t) (e : Route.ParseError) :
  url <> EmptyString -> boxes <> [] ->
  Route.parseAnalysis JSON_parse responseText = inl e ->
  routeReply JSON_parse true url boxes (Route.ResponseText responseText)
  = Reply (Route.mkResponse 200
             (Some "AI analysis completed, but response parsing failed.")
             (Some (imap (fun index box =>
                            AnalyzedParticle.mk box index (Some Route.parseErrorAnalysis))
                         boxes))).
Proof.
  intros Hurl Hboxes Hparse. unfold routeReply, Route.POST. cbn [Route.GEMINI_API_KEY negb
    Route.imageBase64 Route.boundingBoxes Route.gemini].
  destruct (String.eqb_spec url EmptyString) as [-> | _]; [contradiction | ].
  rewrite boxesWithIndices_length.
  destruct boxes as [ | b boxes]; [contradiction | ]. cbn [List.length Nat.eqb].
  rewrite Hparse, parseErrorParticles_boxes. reflexivity.
Qed.

Lemma particlesToDisplay_no_analysis (st : State) :
  analyzedParticles st = [] -> particlesToDisplay st = detectionOnly st.
Proof.
  intros H. unfold particlesToDisplay, detectionOnly. rewrite H. cbn [List.length Nat.ltb Nat.leb].
  destruct (boundingBoxes st); reflexivity.
Qed.

(** C4 (as amended).  No failure of the analysis aborts the pipeline: the
    analysis is over and the detected boxes stay.  When the route cannot
    parse the reply of the model, every box sent receives the analysis whose
    shape, color and transparency are [Parse Error] and whose error is
    [Could not parse AI analysis response.]: the page keeps one particle per
    box sent, in order, with the position of the box as index and this
    analysis, and with the box itself when its numbers are ones the request
    and the reply carry unchanged.  When the call rejects, the reply
    is not JSON or its status is not ok, no analyzed particle is kept: the
    page shows the detected boxes above the threshold, each with its position
    and a null analysis. *)
Theorem C4_analysis_failures :
  forall (JSON_parse : string -> option JSON) (st : State)
         (boxes : list BoundingBox.t),
    boxes <> [] ->
    (forall url responseText e,
        url <> EmptyString ->
        Route.parseAnalysis JSON_parse responseText = inl e ->
        let st' := startAnalysis_settle
                     (routeReply JSON_parse true url boxes
                                 (Route.ResponseText responseText)) st in
        map (fun p => (AnalyzedParticle.index p, AnalyzedParticle.analysis p))
            (analyzedParticles st')
        = imap (fun index _ => (index, Some Route.parseErrorAnalysis)) boxes
        /\ (forallb Wire.exactBox boxes = true ->
            analyzedParticles st'
            = imap (fun index box =>
                      AnalyzedParticle.mk box index (Some Route.parseErrorAnalysis)) boxes)
        /\ Route.parseErrorAnalysis = parseErrorWith "Could not parse AI analysis response."
        /\ analysisErrorState st'
           = Some "AI analysis completed, but response parsing failed."
        /\ isAnalyzing st' = false
        /\ boundingBoxes st' = boundingBoxes st
        /\ capturedImage st' = capturedImage st)
    /\ (forall outcome,
          (exists message, outcome = Rejects message)
          \/ (exists status, outcome = NonJsonReply status)
          \/ (exists response, outcome = Reply response
                               /\ ok (Route.status response) = false) ->
          let st' := startAnalysis_settle outcome st in
          analyzedParticles st' = []
          /\ (exists message, analysisErrorState st' = Some ("Analysis Error: " +:+ message))
          /\ isAnalyzing st' = false
          /\ boundingBoxes st' = boundingBoxes st
          /\ capturedImage st' = capturedImage st
          /\ particlesToDisplay st' = detectionOnly st').
Proof.
  intros JSON_parse st boxes Hboxes. split.
  - intros url responseText e Hurl Hparse st'. subst st'.
    rewrite (routeReply_parse_failure _ _ _ _ e Hurl Hboxes Hparse).
    split; [ | repeat split].
    cbn [startAnalysis_settle Route.status Route.particles ok Nat.leb andb negb
         setAnalysis analyzedParticles].
    apply list_eq. intros i. rewrite list_lookup_fmap, !list_lookup_imap.
    destruct (boxes !! i); reflexivity.
  - intros outcome Hfail st'.
    assert (Hst : exists message, st' = analysisFailed message st).
    { subst st'. destruct Hfail as [[m ->] | [[s ->] | (r & -> & Hok)]].
      - eexists. reflexivity.
      - eexists. reflexivity.
      - eexists. unfold startAnalysis_settle. rewrite Hok. reflexivity. }
    destruct Hst as [message ->]. repeat split.
    + exists message. reflexivity.
    + apply particlesToDisplay_no_analysis. reflexivity.
Qed.

(** C2 (as amended).  The result of an analysis call that is still pending
    when a second image is submitted is stored when it arrives: the call
    stays pending across the submission, and when its reply is ok and holds
    particles these become the analyzed particles of the page, whose image is
    the second one.  Nothing compares the result with the current image;
    what the page has instead is that its capture, upload and clear controls
    (and the slider) are disabled while a detection or an analysis is in
    progress. *)
Theorem C2_pending_result_is_stored :
  forall (NumberToString : float -> string) (StringToNumber : string -> float)
         (sys : System) (i : nat) (imageDataUrl : string)
         (boxes : list BoundingBox.t) (image2 : string)
         (response : Route.Response) (particles : list AnalyzedParticle.t),
    pending sys !! i = Some (Analyzing imageDataUrl boxes) ->
    ok (Route.status response) = true ->
    Route.particles response = Some particles ->
    (exists sys',
        step NumberToString StringToNumber (AnalysisSettles i (Reply response))
             (submit image2 sys) = Some sys'
        /\ analyzedParticles (page sys') = particles
        /\ capturedImage (page sys') = Some image2
        /\ boundingBoxes (page sys') = boundingBoxes (page (submit image2 sys)))
    /\ (forall st, isProcessing st = true ->
          inputDisabled st = true /\ clearDisabled st = true /\ sliderDisabled st = true).
Proof.
  intros NumberToString StringToNumber sys i imageDataUrl boxes image2 response
         particles Hpending Hok Hparticles.
  split.
  - exists (mkSystem (startAnalysis_settle (Reply response) (page (submit image2 sys)))
                     (delete i (pending (submit image2 sys)))).
    split; [ | split; [ | split]].
    + unfold step. cbn [pending submit].
      rewrite lookup_app_l by (eapply lookup_lt_Some, Hpending).
      rewrite Hpending. reflexivity.
    + cbn [page]. unfold startAnalysis_settle. rewrite Hok, Hparticles. reflexivity.
    + cbn [page]. unfold startAnalysis_settle. rewrite Hok, Hparticles. reflexivity.
    + cbn [page]. unfold startAnalysis_settle. rewrite Hok, Hparticles. reflexivity.
  - intros st Hp. unfold inputDisabled, clearDisabled, sliderDisabled.
    rewrite Hp. repeat split.
Qed.

End PipelineFacts.

(** After the detection of scenario A its analysis is pending; a second image
    is submitted and the reply for the first one is stored. *)
Lemma C2_scenario_D_witness :
  exists sys',
    Page.step Statement.noNumberToString Statement.noStringToNumber
      (Page.AnalysisSettles 0
         (Page.Reply (Route.mkResponse 200 None
                        (Some [AnalyzedParticle.mk Statement.scenarioA_box 0
                                 (Some Route.notAnalyzed)]))))
      (Page.submit "image2"
         (Page.mkSystem Page.initial [Page.Analyzing "resized" [Statement.scenarioA_box]]))
    = Some sys'
    /\ Page.analyzedParticles (Page.page sys')
       = [AnalyzedParticle.mk Statement.scenarioA_box 0 (Some Route.notAnalyzed)]
    /\ Page.capturedImage (Page.page sys') = Some "image2"
    /\ Page.boundingBoxes (Page.page sys')
       = Page.boundingBoxes
           (Page.page (Page.submit "image2"
              (Page.mkSystem Page.initial
                 [Page.Analyzing "resized" [Statement.scenarioA_box]]))).
Proof.
  apply (proj1 (C2_pending_result_is_stored
                  Statement.noNumberToString Statement.noStringToNumber
                  (Page.mkSystem Page.initial [Page.Analyzing "resized" [Statement.scenarioA_box]])
                  0 "resized" [Statement.scenarioA_box] "image2"
                  (Route.mkResponse 200 None
                     (Some [AnalyzedParticle.mk Statement.scenarioA_box 0
                              (Some Route.notAnalyzed)]))
                  [AnalyzedParticle.mk Statement.scenarioA_box 0 (Some Route.notAnalyzed)]
                  eq_refl eq_refl eq_refl)).
Defined.

(** C2 as stated fails: the analysis of the first image is pending when the
    second image is submitted, and its reply changes the particles of the
    page. *)
Lemma C2_stale_result_is_merged : ~ Statement.staleResultDropped.
Proof.
  intros H.
  pose (events := Statement.detected "image1" "resized1" Statement.scenarioA).
  pose (outcome :=
          Page.routeReply JSONParser.parse true "data:image/png;base64,annotated"
            [Statement.scenarioA_box] (Route.ResponseText Statement.scenarioC)).
  destruct (Page.run Statement.noNumberToString Statement.noStringToNumber
              events Page.start) as [sys | ] eqn:Hrun;
    [ | vm_compute in Hrun; discriminate Hrun].
  assert (Hpending : Page.pending sys !! 0%nat
                     = Some (Page.Analyzing "resized1" [Statement.scenarioA_box])).
  { vm_compute in Hrun. injection Hrun as <-. reflexivity. }
  destruct (Page.step Statement.noNumberToString Statement.noStringToNumber
              (Page.AnalysisSettles 0 outcome) (Page.submit "image2" sys))
    as [sys' | ] eqn:Hstep.
  - pose proof (H _ _ events sys sys' 0%nat "resized1" [Statement.scenarioA_box]
                  "image2" outcome Hrun Hpending Hstep) as Hsame.
    vm_compute in Hrun. injection Hrun as <-.
    vm_compute in Hstep. injection Hstep as <-.
    vm_compute in Hsame. discriminate Hsame.
  - vm_compute in Hrun. injection Hrun as <-.
    vm_compute in Hstep. discriminate Hstep.
Qed.

(** C4 as stated fails: when the call rejects, no box receives the analysis
    of the global fallback. *)
Lemma C4_rejected_call_leaves_no_analysis : ~ Statement.everyFailureFallsBack.
Proof.
  intros H.
  destruct (H JSONParser.parse Page.initial [Statement.scenarioA_box]
              (Page.Rejects "Failed to fetch"))
    as [message Hfallback].
  - discriminate.
  - left. exists "Failed to fetch". reflexivity.
  - vm_compute in Hfallback. discriminate Hfallback.
Qed.

Section IndexFacts.

Import Page.

(** Before any analysis is stored, the index of a displayed particle is the
    position of its box among all the detected boxes. *)
Lemma detection_index_is_position (st : State) (p : AnalyzedParticle.t) :
  analyzedParticles st = [] ->
  In p (particlesToDisplay st) ->
  boundingBoxes st !! AnalyzedParticle.index p = Some (AnalyzedParticle.box p).
Proof.
  intros Hnone Hin. rewrite particlesToDisplay_no_analysis in Hin by exact Hnone.
  unfold Statement.detectionOnly in Hin. apply filter_In in Hin as [Hin _].
  apply list_elem_of_In, elem_of_lookup_imap in Hin as (i & box & -> & Hbox).
  exact Hbox.
Qed.

(** In the reply of the route, the index of a particle is the position of
    its box among the boxes sent, those above the threshold. *)
Lemma analysis_index_is_position (boxesToAnalyze : list BoundingBox.t)
  (parsedAnalysis : list JSON) (i : nat) (p : AnalyzedParticle.t) :
  Route.finalParticles (boxesWithIndices boxesToAnalyze) parsedAnalysis !! i = Some p ->
  AnalyzedParticle.index p = i
  /\ boxesToAnalyze !! i = Some (AnalyzedParticle.box p).
Proof.
  unfold Route.finalParticles, boxesWithIndices.
  rewrite imap_imap, list_lookup_imap.
  destruct (boxesToAnalyze !! i) as [box | ]; [ | discriminate].
  intros [= <-]. split; reflexivity.
Qed.

End IndexFacts.

(** C3 at the failing input: of two detections only the second passes the
    threshold.  While its analysis is pending it is displayed under index 1,
    its position among the detections; the analysis was requested for the
    boxes above the threshold, and once its reply is stored the same box is
    displayed under index 0. *)
Lemma C3_index_changes_when_analysis_arrives :
  let run := Page.run Statement.noNumberToString Statement.noStringToNumber in
  let events := Statement.detected "image" "resized" Statement.lowAndHigh in
  (Page.boundingBoxes ∘ Page.page <$> run events Page.start)
  = Some [Statement.lowBox; Statement.scenarioA_box]
  /\ (Page.pending <$> run events Page.start)
     = Some [Page.Analyzing "resized" [Statement.scenarioA_box]]
  /\ (Statement.displayed <$> run events Page.start)
     = Some [(1, Statement.scenarioA_box)]
  /\ (Statement.displayed
        <$> run (events ++ [Statement.analysed [Statement.scenarioA_box]]) Page.start)
     = Some [(0, Statement.scenarioA_box)].
Proof.
  repeat split; vm_compute; reflexivity.
Qed.

(** The reply of the model holds no array: the route answers with the global
    fallback for the box of scenario A. *)
Lemma C4_no_array_witness :
  Page.analyzedParticles
    (Page.startAnalysis_settle
       (Page.routeReply JSONParser.parse true "data:image/png;base64,annotated"
          [Statement.scenarioA_box] (Route.ResponseText "I could not see any particle."))
       Page.initial)
  = [AnalyzedParticle.mk Statement.scenarioA_box 0 (Some Route.parseErrorAnalysis)].
Proof.
  refine (proj1 (proj2 (proj1 (C4_analysis_failures JSONParser.parse Page.initial
                                 [Statement.scenarioA_box] _)
                          "data:image/png;base64,annotated" "I could not see any particle."
                          Route.NoArrayFound _ _)) _).
  - discriminate.
  - discriminate.
  - reflexivity.
  - reflexivity.
Defined.

(** * Further properties *)

(** ** Normalization keeps the valid predictions, in order *)

Section NormalizeFacts.

Import Geometry Reading.

Variable NumberToString : float -> string.
Variable StringToNumber : string -> float.

Local Abbreviation normalize := (processRoboflowResults NumberToString StringToNumber).
Local Abbreviation push := (pushPrediction NumberToString StringToNumber).

(** Confidence and class of a box, as the values a prediction holds. *)
Local Abbreviation kept :=
  (fun b : BoundingBox.t =>
     (Some (JNum (BoundingBox.confidence b)), Some (JStr (BoundingBox.class b)))).
Local Abbreviation given :=
  (fun pred : JSON => (get pred "confidence", get pred "class")).

Lemma pushPrediction_valid (w h : JSON) (boxes : list BoundingBox.t) (pred : JSON) :
  validPrediction pred = true ->
  exists b, push w h boxes pred = boxes ++ [b] /\ kept b = given pred.
Proof.
  intros Hvalid. unfold pushPrediction. rewrite Hvalid.
  unfold validPrediction in Hvalid.
  repeat (apply andb_prop in Hvalid as [Hvalid ?]).
  destruct (get pred "x") as [[ | | px | | | ] | ]; try discriminate.
  destruct (get pred "y") as [[ | | py | | | ] | ]; try discriminate.
  destruct (get pred "width") as [[ | | pw | | | ] | ]; try discriminate.
  destruct (get pred "height") as [[ | | ph | | | ] | ]; try discriminate.
  destruct (get pred "confidence") as [[ | | pc | | | ] | ]; try discriminate.
  destruct (get pred "class") as [[ | | | pclass | | ] | ]; try discriminate.
  eexists. split; reflexivity.
Qed.

Lemma pushPrediction_invalid (w h : JSON) (boxes : list BoundingBox.t) (pred : JSON) :
  validPrediction pred = false -> push w h boxes pred = boxes.
Proof. intros H. unfold pushPrediction. rewrite H. reflexivity. Qed.

Lemma fold_pushPrediction (w h : JSON) (predictions : list JSON) :
  forall boxes,
    map kept (fold_left (push w h) predictions boxes)
    = map kept boxes ++ map given (List.filter validPrediction predictions).
Proof.
  induction predictions as [ | pred predictions IH]; intros boxes; simpl.
  - rewrite app_nil_r. reflexivity.
  - destruct (validPrediction pred) eqn:Hvalid.
    + destruct (pushPrediction_valid w h boxes pred Hvalid) as (b & -> & Hb).
      rewrite IH, map_app. simpl. rewrite Hb, <- app_assoc. reflexivity.
    + rewrite pushPrediction_invalid by exact Hvalid. apply IH.
Qed.

(** X1.  When [processRoboflowResults] returns, its boxes are those of the
    valid predictions, in the order of the predictions, each with the
    confidence and the class of its prediction; an invalid prediction is
    skipped without affecting the others, and a reply without an array of
    predictions gives no box. *)
Theorem normalize_keeps_valid_predictions :
  forall (roboflowData : Value) (boxes : list BoundingBox.t),
    normalize roboflowData = Return boxes ->
    map kept boxes
    = map given (List.filter validPrediction (predictionsOf roboflowData))
    /\ List.length boxes
       = List.length (List.filter validPrediction (predictionsOf roboflowData))
    /\ List.length boxes <= List.length (predictionsOf roboflowData).
Proof.
  intros roboflowData boxes Hreturn.
  assert (Hkept : map kept boxes
                  = map given (List.filter validPrediction (predictionsOf roboflowData))).
  { unfold processRoboflowResults in Hreturn. unfold predictionsOf.
    destruct (truthyV (getV (getV roboflowData "image") "width")) eqn:Hw;
      [ | discriminate].
    destruct (truthyV (getV (getV roboflowData "image") "height")) eqn:Hh;
      [ | discriminate].
    cbn [negb orb] in Hreturn.
    destruct (getV (getV roboflowData "image") "width") as [w | ]; [ | discriminate].
    destruct (getV (getV roboflowData "image") "height") as [h | ]; [ | discriminate].
    destruct (getV roboflowData "predictions") as [[ | | | | predictions | ] | ];
      try (injection Hreturn as <-; reflexivity).
    injection Hreturn as <-. apply (fold_pushPrediction w h predictions []). }
  split; [exact Hkept | ].
  assert (Hlen : List.length boxes
                 = List.length (List.filter validPrediction (predictionsOf roboflowData))).
  { rewrite <- (length_map kept boxes), Hkept. apply length_map. }
  split; [exact Hlen | ].
  rewrite Hlen. apply filter_length_le.
Qed.

End NormalizeFacts.

(** Scenario A returns, so X1 applies to it. *)
Lemma normalize_keeps_valid_predictions_witness :
  List.length [Statement.scenarioA_box]
  = List.length (List.filter Geometry.validPrediction
                             (Reading.predictionsOf Statement.scenarioA)).
Proof.
  apply (normalize_keeps_valid_predictions Statement.noNumberToString
           Statement.noStringToNumber Statement.scenarioA [Statement.scenarioA_box]).
  vm_compute. reflexivity.
Defined.

(** ** What the extraction returns *)

Section ExtractionFacts.

Import Route Statement.

Local Open Scope Z_scope.

Lemma append_assoc3 (a b c : string) : (a +:+ b) +:+ c = a +:+ (b +:+ c).
Proof.
  induction a as [ | x a IH]; [reflexivity | ].
  rewrite !append_String, IH. reflexivity.
Qed.

(** A text splits at the first occurrence of a character. *)
Lemma indexOf_split (c : ascii) (s : string) :
  occurs c s ->
  exists before after,
    s = before +:+ String c after
    /\ ~ occurs c before
    /\ indexOf c s = Z.of_nat (String.length before).
Proof.
  induction s as [ | a s IH]; intros Hocc.
  - destruct Hocc.
  - simpl indexOf. destruct (Ascii.eqb_spec a c) as [-> | Hne].
    + exists EmptyString, s. repeat split. intros [].
    + apply occurs_cons in Hocc as [Heq | Hocc]; [contradiction | ].
      destruct (IH Hocc) as (before & after & -> & Hno & Hidx).
      exists (String a before), after. split; [reflexivity | split].
      * rewrite occurs_cons. tauto.
      * rewrite Hidx. simpl String.length.
        destruct (Z.eqb_spec (Z.of_nat (String.length before)) (-1)); lia.
Qed.

(** A text splits at the last occurrence of a character. *)
Lemma lastIndexOf_split (c : ascii) (s : string) :
  occurs c s ->
  exists before after,
    s = before +:+ String c after
    /\ ~ occurs c after
    /\ lastIndexOf c s = Z.of_nat (String.length before).
Proof.
  induction s as [ | a s IH]; intros Hocc.
  - destruct Hocc.
  - simpl lastIndexOf.
    destruct (lastIndexOf_range c s) as [[Hnone Hno] | [Hrange Hin]].
    + rewrite Hnone. simpl.
      apply occurs_cons in Hocc as [-> | Hocc]; [ | contradiction].
      rewrite Ascii.eqb_refl. exists EmptyString, s. repeat split. exact Hno.
    + destruct (IH Hin) as (before & after & -> & Hno & Hidx).
      exists (String a before), after. split; [reflexivity | split; [exact Hno | ]].
      destruct (Z.eqb_spec (lastIndexOf c (before +:+ String c after)) (-1)); [lia | ].
      rewrite Hidx. simpl String.length. lia.
Qed.

Lemma take_chars_app (u v : string) :
  take_chars (String.length u) (u +:+ v) = u.
Proof.
  induction u as [ | a u IH]; [destruct v; reflexivity | ].
  rewrite append_String. cbn [String.length take_chars]. rewrite IH. reflexivity.
Qed.

Lemma length_append (u v : string) :
  String.length (u +:+ v) = (String.length u + String.length v)%nat.
Proof.
  induction u as [ | a u IH]; [reflexivity | ].
  rewrite append_String. cbn [String.length]. rewrite IH. reflexivity.
Qed.

(** The extraction, when it succeeds, returns the stretch of the text from
    its first opening bracket to its last closing bracket. *)
Lemma extract_stretch (text e : string) :
  extract text = Some e ->
  exists before inner after,
    text = before +:+ e +:+ after
    /\ e = String "[" (inner +:+ String "]" EmptyString)
    /\ ~ occurs "[" before
    /\ ~ occurs "]" after.
Proof.
  unfold extract.
  destruct (indexOf_range "[" text) as [[-> _] | [Ha Hopen]]; [discriminate | ].
  destruct (lastIndexOf_range "]" text) as [[Hb _] | [Hb Hclose]].
  { rewrite Hb. rewrite andb_false_r. discriminate. }
  destruct (indexOf_split "[" text Hopen) as (before & rest & Htext & Hnb & Hidx).
  destruct (Z.ltb_spec (indexOf "[" text) (lastIndexOf "]" text)) as [Hlt | Hge];
    [ | rewrite andb_false_r; discriminate].
  replace (negb (indexOf "[" text =? -1)) with true by (symmetry; apply negb_true_iff; lia).
  replace (negb (lastIndexOf "]" text =? -1)) with true by (symmetry; apply negb_true_iff; lia).
  cbn [andb]. intros [= <-].
  assert (Hrest : occurs "]" rest).
  { destruct (lastIndexOf_range "]" rest) as [[Hnone Hno] | [_ Hin]]; [ | exact Hin].
    exfalso. rewrite Htext in Hlt.
    change (String "[" rest) with (String "[" EmptyString +:+ rest) in Hlt.
    rewrite <- append_assoc3 in Hlt.
    rewrite (lastIndexOf_app_l "]" _ rest Hno) in Hlt.
    destruct (lastIndexOf_range "]" (before +:+ String "[" EmptyString))
      as [[Hl _] | [Hl _]].
    - rewrite Hl in Hlt.
      destruct (indexOf_range "[" ((before +:+ String "[" EmptyString) +:+ rest))
        as [[Hi _] | [Hi _]]; lia.
    - rewrite append_assoc3 in Hlt. change (String "[" EmptyString +:+ rest)
        with (String "[" rest) in Hlt. rewrite <- Htext, Hidx in Hlt.
      rewrite length_append in Hl. simpl String.length in Hl.
      assert (Hlast : lastIndexOf "]" (before +:+ String "[" EmptyString)
                      <> Z.of_nat (String.length before)).
      { clear. induction before as [ | a before IH]; simpl; [discriminate | ].
        destruct (lastIndexOf_range "]" (before +:+ String "[" EmptyString))
          as [[Hl _] | [Hl _]].
        - rewrite Hl. simpl. destruct (Ascii.eqb a "]"); lia.
        - destruct (Z.eqb_spec (lastIndexOf "]" (before +:+ String "[" EmptyString)) (-1));
            lia. }
      lia. }
  destruct (lastIndexOf_split "]" rest Hrest) as (inner & after & Hr & Hna & Hlast).
  exists before, inner, after.
  assert (Hb' : lastIndexOf "]" text
                = Z.of_nat (String.length before) + 1 + Z.of_nat (String.length inner)).
  { rewrite Htext.
    change (String "[" rest) with (String "[" EmptyString +:+ rest).
    rewrite <- append_assoc3, lastIndexOf_app by exact Hrest.
    rewrite length_append, Hlast. simpl String.length. lia. }
  assert (He : substring (indexOf "[" text) (lastIndexOf "]" text + 1) text
               = String "[" (inner +:+ String "]" EmptyString)).
  { unfold substring. rewrite Hidx, Hb'.
    replace (Z.to_nat (Z.of_nat (String.length before)))
      with (String.length before + 0)%nat by lia.
    rewrite Htext at 1. rewrite drop_chars_app. cbn [drop_chars].
    replace (Z.to_nat (Z.of_nat (String.length before) + 1
                       + Z.of_nat (String.length inner) + 1
                       - Z.of_nat (String.length before)))
      with (String.length (String "[" (inner +:+ String "]" EmptyString)))
      by (simpl String.length; rewrite length_append; simpl String.length; lia).
    rewrite Hr.
    replace (String "[" (inner +:+ String "]" after))
      with (String "[" (inner +:+ String "]" EmptyString) +:+ after)
      by (rewrite append_String, append_assoc3; reflexivity).
    apply take_chars_app. }
  rewrite He. repeat split; try assumption.
  rewrite Htext, Hr. f_equal. rewrite append_String, append_assoc3. reflexivity.
Qed.

(** X2.  The extraction fails exactly when the text has no opening bracket,
    no closing bracket, or its last closing bracket before its first opening
    one.  When it succeeds it returns a stretch of the text that starts with
    the first opening bracket of the text and ends with its last closing
    bracket, and extracting from the result gives the result back. *)
Theorem extract_first_to_last_bracket :
  forall text : string,
    (extract text = None
     <-> ~ occurs "[" text \/ ~ occurs "]" text
         \/ lastIndexOf "]" text < indexOf "[" text)
    /\ (forall e, extract text = Some e ->
          (exists before inner after,
              text = before +:+ e +:+ after
              /\ e = String "[" (inner +:+ String "]" EmptyString)
              /\ ~ occurs "[" before
              /\ ~ occurs "]" after)
          /\ extract e = Some e).
Proof.
  intros text. split.
  - unfold extract.
    destruct (indexOf_range "[" text) as [[Ha Hno] | [Ha Hopen]];
      destruct (lastIndexOf_range "]" text) as [[Hb Hnc] | [Hb Hclose]].
    + rewrite Ha. simpl. tauto.
    + rewrite Ha. simpl. tauto.
    + rewrite Hb. rewrite andb_false_r. simpl. tauto.
    + replace (negb (indexOf "[" text =? -1)) with true
        by (symmetry; apply negb_true_iff; lia).
      replace (negb (lastIndexOf "]" text =? -1)) with true
        by (symmetry; apply negb_true_iff; lia).
      cbn [andb]. destruct (Z.ltb_spec (indexOf "[" text) (lastIndexOf "]" text)).
      * split; [discriminate | ]. intros [H' | [H' | H']]; [tauto | tauto | lia].
      * split; [intros _ | reflexivity]. right. right.
        assert (indexOf "[" text <> lastIndexOf "]" text); [ | lia].
        intros Heq. destruct (indexOf_split "[" text Hopen) as (u & v & Ht & _ & Hi).
        destruct (lastIndexOf_split "]" text Hclose) as (u' & v' & Ht' & _ & Hl).
        assert (Hlen : String.length u = String.length u') by lia.
        rewrite Ht' in Ht. clear - Ht Hlen.
        revert u Hlen Ht. induction u' as [ | a u' IH]; intros [ | b u] Hlen Ht;
          simpl in *; try discriminate.
        injection Ht as _ Ht. apply (IH u); [lia | exact Ht].
  - intros e He. destruct (extract_stretch text e He)
      as (before & inner & after & Htext & Hshape & Hnb & Hna).
    split; [exists before, inner, after; tauto | ].
    assert (Hopen : occurs "[" e) by (rewrite Hshape; apply occurs_cons; now left).
    assert (Hclose : occurs "]" e).
    { rewrite Hshape. apply occurs_cons. right. apply occurs_app. right.
      apply occurs_cons. now left. }
    rewrite <- (extract_wrapped before e after Hnb Hna Hopen Hclose), <- Htext.
    exact He.
Qed.

End ExtractionFacts.

(** ** How parsing fails, and what the route replies *)

Section RouteFacts.

Import Route Statement.

(** The numbers [Wire.exact] accepts are those that come back as they
    were. *)
Lemma exact_iff_number (f : float) :
  Wire.exact f = true <-> Wire.number f = JNum f.
Proof.
  unfold Wire.exact, Wire.number.
  destruct (PrimFloat.is_nan f || PrimFloat.is_infinity f); cbn [negb andb].
  - split; discriminate.
  - destruct (PrimFloat.is_zero f && PrimFloat.get_sign f) eqn:Hzero; cbn [negb].
    + split; [discriminate | ]. intros [= <-]. discriminate Hzero.
    + split; reflexivity.
Qed.

(** A text that starts with an opening bracket is read as an array or not at
    all. *)
Lemma parse_bracket_is_array (rest : string) (v : JSON) :
  JSONParser.parse (String "[" rest) = Some v -> exists items, v = JArr items.
Proof.
  unfold JSONParser.parse. cbn [list_ascii_of_string].
  set (s := list_ascii_of_string rest).
  set (fuel := (2 * List.length ("["%char :: s))%nat).
  cbn [JSONParser.parse_value].
  change (JSONParser.skip_ws ("["%char :: s)) with ("["%char :: s).
  cbn [Ascii.eqb Bool.eqb].
  destruct (JSONParser.after "]" s) as [rest' | ].
  - destruct (JSONParser.skip_ws rest'); [ | discriminate].
    intros [= <-]. eexists. reflexivity.
  - destruct (JSONParser.parse_elements fuel s) as [[items rest'] | ]; [ | discriminate].
    destruct (JSONParser.skip_ws rest'); [ | discriminate].
    intros [= <-]. eexists. reflexivity.
Qed.

(** X3.  The parsing block fails in two ways only.  Whatever [JSON.parse] is,
    the extracted text is never empty, so the check for an empty extraction
    never fires; and since the extracted text starts with an opening bracket,
    [JSON.parse] reads it as an array or throws, so the check for a value
    that is not an array never fires either.  What remains is a text without
    a pair of brackets, or a syntax error. *)
Theorem parseAnalysis_failures :
  forall (responseText : string),
    (forall JSON_parse, parseAnalysis JSON_parse responseText <> inl EmptyExtraction)
    /\ parseAnalysis JSONParser.parse responseText <> inl UnexpectedShape
    /\ (forall JSON_parse,
          parseAnalysis JSON_parse responseText = inl NoArrayFound
          <-> extract responseText = None)
    /\ (forall e, parseAnalysis JSONParser.parse responseText = inl e ->
          (e = NoArrayFound /\ extract responseText = None)
          \/ (e = MalformedJson
              /\ exists parseInput, extract responseText = Some parseInput
                                    /\ JSONParser.parse parseInput = None)).
Proof.
  intros responseText.
  assert (Hshape : forall e, extract responseText = Some e ->
                     exists inner, e = String "[" (inner +:+ String "]" EmptyString)).
  { intros e He.
    destruct (extract_stretch responseText e He) as (_ & inner & _ & _ & -> & _).
    exists inner. reflexivity. }
  assert (Hparse : forall e v, extract responseText = Some e ->
                     JSONParser.parse e = Some v -> exists items, v = JArr items).
  { intros e v He Hv. destruct (Hshape e He) as [inner ->].
    eapply parse_bracket_is_array, Hv. }
  unfold parseAnalysis. destruct (extract responseText) as [e | ] eqn:He.
  - destruct (Hshape e eq_refl) as [inner Hinner].
    assert (Hne : String.eqb e EmptyString = false) by (rewrite Hinner; reflexivity).
    rewrite Hne. repeat split.
    + intros JSON_parse. destruct (JSON_parse e) as [[ | | | | | ] | ]; discriminate.
    + destruct (JSONParser.parse e) as [v | ] eqn:Hv; [ | discriminate].
      destruct (Hparse e v eq_refl Hv) as [items ->]. discriminate.
    + destruct (JSON_parse e) as [[ | | | | | ] | ]; discriminate.
    + discriminate.
    + intros e'. destruct (JSONParser.parse e) as [v | ] eqn:Hv.
      * destruct (Hparse e v eq_refl Hv) as [items ->]. discriminate.
      * intros [= <-]. right. split; [reflexivity | ]. exists e.
        split; [reflexivity | exact Hv].
  - repeat split; try discriminate.
    intros e' [= <-]. left. split; reflexivity.
Qed.

(** X4.  Whatever the model does, a reply of the route that carries particles
    carries none (status 500, the model call failed) or exactly one per box
    of the request, in the order of the request, each with its position as
    index and, when the numbers of the box are ones a reply carries
    unchanged, with the box at that position (status 200).  The status is 200
    exactly when the request is complete and the model returned a text, and
    any other reply carries an error message. *)
Theorem POST_one_particle_per_box :
  forall (JSON_parse : string -> option JSON) (request : Request),
    let response := POST JSON_parse request in
    (forall ps, particles response = Some ps ->
        (status response = 500 /\ ps = [])
        \/ (status response = 200
            /\ List.length ps = List.length (boundingBoxes request)
            /\ forall i b, boundingBoxes request !! i = Some b ->
                 exists p, ps !! i = Some p
                           /\ AnalyzedParticle.index p = i
                           /\ (Wire.exactBox (ib_box b) = true ->
                               AnalyzedParticle.box p = ib_box b)))
    /\ (status response = 200
        <-> GEMINI_API_KEY request = true
            /\ imageBase64 request <> EmptyString
            /\ boundingBoxes request <> []
            /\ exists responseText, gemini request = ResponseText responseText)
    /\ (status response <> 200 ->
        exists message, error response = Some message /\ message <> EmptyString).
Proof.
  intros JSON_parse request. unfold POST.
  destruct (GEMINI_API_KEY request).
  2:{ cbn. repeat split; try discriminate.
      - intros (H & _). discriminate H.
      - eexists. split; [reflexivity | discriminate]. }
  cbn [negb]. destruct (String.eqb_spec (imageBase64 request) EmptyString) as [Himg | Himg].
  { cbn. repeat split; try discriminate.
    - intros (_ & H & _). contradiction.
    - eexists. split; [reflexivity | discriminate]. }
  destruct (boundingBoxes request) as [ | b0 boxes] eqn:Hboxes.
  { cbn. repeat split; try discriminate.
    - intros (_ & _ & H & _). contradiction.
    - eexists. split; [reflexivity | discriminate]. }
  cbn [List.length Nat.eqb].
  destruct (gemini request) as [ | message | | responseText].
  - cbn. repeat split; try discriminate.
    + intros (_ & _ & _ & t & H). discriminate H.
    + eexists. split; [reflexivity | discriminate].
  - cbn. repeat split; try discriminate.
    + intros ps [= <-]. left. split; reflexivity.
    + intros (_ & _ & _ & t & H). discriminate H.
    + eexists. split; [reflexivity | discriminate].
  - cbn. repeat split; try discriminate.
    + intros ps [= <-]. left. split; reflexivity.
    + intros (_ & _ & _ & t & H). discriminate H.
    + eexists. split; [reflexivity | discriminate].
  - assert (Hone : forall (f : nat -> IndexedBox -> AnalyzedParticle.t),
               (forall i b, AnalyzedParticle.box (f i b) = ib_box b
                            /\ AnalyzedParticle.index (f i b) = i) ->
               List.length (imap f (b0 :: boxes)) = List.length (b0 :: boxes)
               /\ forall i b, (b0 :: boxes) !! i = Some b ->
                    exists p, imap f (b0 :: boxes) !! i = Some p
                              /\ AnalyzedParticle.index p = i
                              /\ (Wire.exactBox (ib_box b) = true ->
                                  AnalyzedParticle.box p = ib_box b)).
    { intros f Hf. split; [apply length_imap | ].
      intros i b Hb. exists (f i b). rewrite list_lookup_imap, Hb.
      split; [reflexivity | ]. split; [apply Hf | intros _; apply Hf]. }
    destruct (parseAnalysis JSON_parse responseText) as [e | parsed]; cbn.
    + split; [ | split; [split | ]].
      * intros ps [= <-]. right. split; [reflexivity | ].
        apply Hone. intros i b. split; reflexivity.
      * intros _. split; [reflexivity | split; [exact Himg | split; [discriminate | ]]].
        eexists. reflexivity.
      * reflexivity.
      * intros H. contradiction H. reflexivity.
    + split; [ | split; [split | ]].
      * intros ps [= <-]. right. split; [reflexivity | ].
        apply Hone. intros i b. split; reflexivity.
      * intros _. split; [reflexivity | split; [exact Himg | split; [discriminate | ]]].
        eexists. reflexivity.
      * reflexivity.
      * intros H. contradiction H. reflexivity.
Qed.

(** X5.  The number [createAnnotatedImage] draws in a box is the index under
    which the route merges the analysis of that box.  For the box at position
    [i] of the list given to [startAnalysis], when its numbers are ones the
    request carries unchanged: the image carries the rectangle of the box
    with the label [i], the request carries the box with index [i], and the
    particle the route builds at position [i] has this box, index [i], and
    the analysis of the first entry of the model whose numeric index is [i]
    (the sentinel when there is none). *)
Theorem annotation_label_is_merge_index :
  forall (boxesToAnalyze : list BoundingBox.t) (imgWidth imgHeight : float)
         (parsedAnalysis : list JSON) (i : nat) (box : BoundingBox.t),
    boxesToAnalyze !! i = Some box ->
    Wire.exactBox box = true ->
    Geometry.createAnnotatedImage boxesToAnalyze imgWidth imgHeight !! i
    = Some (Geometry.boxRect box imgWidth imgHeight, i)
    /\ Page.boxesWithIndices boxesToAnalyze !! i = Some (mkIndexedBox box i)
    /\ exists p,
         finalParticles (Page.boxesWithIndices boxesToAnalyze) parsedAnalysis !! i = Some p
         /\ mergedAt notAnalyzed parsedAnalysis i (mkIndexedBox box i) p.
Proof.
  intros boxesToAnalyze imgWidth imgHeight parsedAnalysis i box Hbox _.
  unfold Geometry.createAnnotatedImage, Page.boxesWithIndices, finalParticles.
  rewrite !list_lookup_imap, Hbox. repeat split.
  exists (mergeBox parsedAnalysis i (mkIndexedBox box i)). split.
  - reflexivity.
  - apply mergeBox_spec.
Qed.

End RouteFacts.

(** Two boxes are analysed and the model describes the first only: the second
    is drawn with the label 1 and merged under the index 1, with the
    sentinel. *)
Lemma annotation_label_is_merge_index_witness :
  Geometry.createAnnotatedImage [Statement.lowBox; Statement.scenarioA_box] 400 200
    !! 1%nat
  = Some (Geometry.boxRect Statement.scenarioA_box 400 200, 1%nat)
  /\ Page.boxesWithIndices [Statement.lowBox; Statement.scenarioA_box] !! 1%nat
     = Some (Route.mkIndexedBox Statement.scenarioA_box 1)
  /\ exists p,
       Route.finalParticles
         (Page.boxesWithIndices [Statement.lowBox; Statement.scenarioA_box])
         [Statement.scenarioC_item] !! 1%nat = Some p
       /\ Statement.mergedAt Route.notAnalyzed [Statement.scenarioC_item] 1
            (Route.mkIndexedBox Statement.scenarioA_box 1) p.
Proof.
  apply (annotation_label_is_merge_index
           [Statement.lowBox; Statement.scenarioA_box] 400 200
           [Statement.scenarioC_item] 1%nat Statement.scenarioA_box).
  - reflexivity.
  - reflexivity.
Defined.

(** ** Display modes, the results area and the export button *)

Section ViewFacts.

Import Page Statement.

Variable NumberToString : float -> string.

Local Abbreviation analysisStats := (Page.analysisStats NumberToString).
Local Abbreviation availableDisplayModes := (Page.availableDisplayModes NumberToString).

Lemma filter_nonempty {A : Type} (P : A -> bool) (l : list A) :
  0 < List.length (List.filter P l) <-> exists x, In x l /\ P x = true.
Proof.
  split.
  - destruct (List.filter P l) as [ | x l'] eqn:Hf; simpl; [lia | ].
    intros _. exists x. apply filter_In. rewrite Hf. now left.
  - intros (x & Hx). apply filter_In in Hx.
    destruct (List.filter P l); [destruct Hx | simpl; lia].
Qed.

Lemma analysisStats_spec (st : State) :
  match analysisStats st with
  | None => particlesToDisplay st = []
  | Some s => particlesToDisplay st <> []
              /\ statsOf NumberToString (particlesToDisplay st) s
  end.
Proof.
  unfold Page.analysisStats.
  destruct (particlesToDisplay st) as [ | p ps] eqn:Hp; [reflexivity | ].
  destruct (computeStats_nonempty NumberToString (p :: ps)) as (s & -> & Hs);
    [discriminate | ].
  split; [discriminate | exact Hs].
Qed.

(** X6.  When the labels of the displayed particles that the statistics count
    convert to property keys (so that the statistics are computed), the
    confidence mode is available and comes first, and the type, color and
    transparency modes are available, all three together, exactly when at
    least one displayed particle has a usable analysis. *)
Theorem availableDisplayModes_iff_usable_displayed :
  forall st : State,
    (forall p, In p (particlesToDisplay st) -> contributes p = true ->
               Converts.labelsReturn p = true) ->
    (availableDisplayModes st = [ModeConfidence]
     \/ availableDisplayModes st
        = [ModeConfidence; ModeType; ModeColor; ModeTransparency])
    /\ (forall mode, mode <> ModeConfidence ->
          (In mode (availableDisplayModes st)
           <-> exists p, In p (particlesToDisplay st) /\ usable p)).
Proof.
  intros st _. unfold Page.availableDisplayModes.
  pose proof (analysisStats_spec st) as Hspec.
  destruct (analysisStats st) as [s | ].
  - destruct Hspec as (_ & _ & Hcount & Hhas & _).
    assert (Hiff : hasStats s = true
                   <-> exists p, In p (particlesToDisplay st) /\ usable p).
    { rewrite Hhas, Hcount, filter_nonempty.
      split; intros (p & Hin & Hp); exists p; split; try assumption;
        apply contributes_usable; assumption. }
    destruct (hasStats s).
    + split; [now right | ]. intros mode Hmode. split.
      * intros _. apply Hiff. reflexivity.
      * intros _. destruct mode; [contradiction | simpl; tauto ..].
    + split; [now left | ]. intros mode Hmode. split.
      * intros [<- | []]. contradiction.
      * intros H. apply Hiff in H. discriminate H.
  - split; [now left | ]. intros mode Hmode. split.
    + intros [<- | []]. contradiction.
    + intros (p & Hin & _). rewrite Hspec in Hin. destruct Hin.
Qed.

(** X7.  Inside the results area [SummaryStats] only ever returns the
    breakdown, for statistics that count at least one displayed particle, or
    nothing: its two messages (nothing detected, nothing above the threshold)
    are never returned, because the area renders it only when something was
    detected or displayed and the statistics are null whenever nothing is
    displayed.  So when particles were detected and none passes the
    threshold, the area shows the bare image, no table, no export buttons and
    neither message of the summary. *)
Theorem results_summary_is_breakdown_or_nothing :
  forall (st : State) (card : Results.Card),
    Results.AnalysisResults NumberToString st = Results.Shown card ->
    (forall overlay summary,
        Results.content card = Some (overlay, summary) ->
        (summary = RenderNothing /\ particlesToDisplay st = [] /\ overlay = false)
        \/ (exists s, summary = Breakdown s /\ analysisStats st = Some s
                      /\ 0 < count s /\ analyzedCount s <= count s
                      /\ (hasStats s = true -> 0 < analyzedCount s)
                      /\ overlay = true))
    /\ (isProcessing st = false -> hasImage st = true ->
        boundingBoxes st <> [] -> particlesToDisplay st = [] ->
        card = Results.mkCard false false
                 (Results.isSet (errorState st)
                  && negb (Results.isSet (analysisErrorState st)))
                 (Some (false, RenderNothing)) false false).
Proof.
  intros st card. unfold Results.AnalysisResults.
  pose proof (analysisStats_spec st) as Hspec.
  destruct (negb (hasImage st || isProcessing st)); [discriminate | ].
  intros [= <-]. cbn [Results.content]. split.
  - intros overlay summary.
    destruct (negb (isProcessing st) && hasImage st
              && ((0 <? List.length (boundingBoxes st))%nat
                  || (0 <? List.length (particlesToDisplay st))%nat)
              && hasImage st) eqn:Hshow; [ | discriminate].
    intros [= <- <-].
    apply andb_prop in Hshow as [Hshow _]. apply andb_prop in Hshow as [Hshow Hsome].
    apply andb_prop in Hshow as [Hload _]. apply negb_true_iff in Hload.
    destruct (analysisStats st) as [s | ].
    + right. destruct Hspec as (Hne & Hcount & Hanalyzed & Hhas & _).
      assert (Hpos : 0 < count s).
      { rewrite Hcount. destruct (particlesToDisplay st); [contradiction | simpl; lia]. }
      exists s. unfold SummaryStats.
      replace (count s =? 0)%nat with false by (symmetry; apply Nat.eqb_neq; lia).
      rewrite andb_false_r. cbn [andb].
      replace (0 <? count s)%nat with true by (symmetry; apply Nat.ltb_lt; lia).
      repeat split; try assumption.
      * rewrite Hanalyzed, Hcount. apply filter_length_le.
      * apply Hhas.
      * rewrite <- Hcount. apply Nat.ltb_lt. exact Hpos.
    + left. rewrite Hspec in Hsome |- *.
      change (0 <? List.length (@nil AnalyzedParticle.t))%nat with false in Hsome |- *.
      rewrite orb_false_r in Hsome. apply Nat.ltb_lt in Hsome.
      unfold SummaryStats. rewrite Hload. cbn [negb andb].
      replace (List.length (boundingBoxes st) =? 0)%nat with false
        by (symmetry; apply Nat.eqb_neq; lia).
      repeat split.
  - intros Hload Himg Hboxes Hnone.
    unfold Page.analysisStats. rewrite Hload, Himg, Hnone.
    destruct (boundingBoxes st) as [ | b bs]; [contradiction | ].
    cbn. reflexivity.
Qed.

Variable toFixed : float -> nat -> string.

(** X8.  Whenever the results area shows its export buttons,
    [handleExportCsv] does not stop at its alert: the page is not processing,
    an image is set and at least one particle is displayed.  When moreover
    the analysed particles hold the numbers that were sent (none came back
    with [null] for a coordinate) and the fields of the displayed particles
    convert to strings, it produces the file, with one line of headers and
    one line per displayed particle before any field is quoted. *)
Theorem export_button_exports :
  forall (st : State) (card : Results.Card),
    Results.AnalysisResults NumberToString st = Results.Shown card ->
    Results.exportButtons card = true ->
    Wire.exactParticles (analyzedParticles st) ->
    (forall p, In p (particlesToDisplay st) -> Converts.rowReturns toFixed p = true) ->
    isProcessing st = false /\ hasImage st = true
    /\ particlesToDisplay st <> []
    /\ handleExportCsv NumberToString toFixed st
       = Some (JS.join newline
                 (csvLine NumberToString headers
                  :: map (fun p => csvLine NumberToString (row toFixed p))
                         (particlesToDisplay st))).
Proof.
  intros st card. unfold Results.AnalysisResults.
  destruct (negb (hasImage st || isProcessing st)); [discriminate | ].
  intros [= <-]. cbn [Results.exportButtons]. intros Hexport _ _.
  apply andb_prop in Hexport as [Hshow Hsome].
  apply andb_prop in Hshow as [Hshow _]. apply andb_prop in Hshow as [Hload Himg].
  apply negb_true_iff in Hload. apply Nat.ltb_lt in Hsome.
  repeat split; try assumption.
  - intros Hnil. rewrite Hnil in Hsome. simpl in Hsome. lia.
  - unfold handleExportCsv.
    replace (List.length (particlesToDisplay st) =? 0)%nat with false
      by (symmetry; apply Nat.eqb_neq; lia).
    reflexivity.
Qed.

End ViewFacts.

Lemma results_summary_is_breakdown_or_nothing_witness :
  Results.AnalysisResults Statement.noNumberToString Reading.hiddenA
  = Results.Shown (Results.mkCard false false false
                     (Some (false, Page.RenderNothing)) false false)
  /\ Results.mkCard false false false (Some (false, Page.RenderNothing)) false false
     = Results.mkCard false false
         (Results.isSet (Page.errorState Reading.hiddenA)
          && negb (Results.isSet (Page.analysisErrorState Reading.hiddenA)))
         (Some (false, Page.RenderNothing)) false false.
Proof.
  split; [reflexivity | ].
  apply (proj2 (results_summary_is_breakdown_or_nothing
                  Statement.noNumberToString Reading.hiddenA
                  (Results.mkCard false false false
                     (Some (false, Page.RenderNothing)) false false)
                  eq_refl)).
  - reflexivity.
  - reflexivity.
  - discriminate.
  - reflexivity.
Defined.

Lemma export_button_exports_witness :
  Page.isProcessing (Page.page Reading.analysedA) = false
  /\ Page.hasImage (Page.page Reading.analysedA) = true
  /\ Page.particlesToDisplay (Page.page Reading.analysedA) <> []
  /\ Page.handleExportCsv Statement.noNumberToString Reading.noToFixed
       (Page.page Reading.analysedA)
     = Some (JS.join Page.newline
               (Page.csvLine Statement.noNumberToString Page.headers
                :: map (fun p => Page.csvLine Statement.noNumberToString
                                   (Page.row Reading.noToFixed p))
                       (Page.particlesToDisplay (Page.page Reading.analysedA)))).
Proof.
  apply (export_button_exports Statement.noNumberToString Reading.noToFixed
           (Page.page Reading.analysedA) Reading.analysedA_card).
  - reflexivity.
  - reflexivity.
  - intros p [<- | []]. reflexivity.
  - intros p [<- | []]. reflexivity.
Defined.

(** On the analysed page of scenario A the four modes are available. *)
Lemma availableDisplayModes_iff_usable_displayed_witness :
  (Page.availableDisplayModes Statement.noNumberToString (Page.page Reading.analysedA)
   = [Page.ModeConfidence]
   \/ Page.availableDisplayModes Statement.noNumberToString (Page.page Reading.analysedA)
      = [Page.ModeConfidence; Page.ModeType; Page.ModeColor; Page.ModeTransparency])
  /\ (forall mode, mode <> Page.ModeConfidence ->
        (In mode (Page.availableDisplayModes Statement.noNumberToString
                    (Page.page Reading.analysedA))
         <-> exists p, In p (Page.particlesToDisplay (Page.page Reading.analysedA))
                       /\ Statement.usable p)).
Proof.
  apply (availableDisplayModes_iff_usable_displayed Statement.noNumberToString
           (Page.page Reading.analysedA)).
  intros p [<- | []] _. reflexivity.
Defined.

(** ** The export reads back *)

Section CsvFacts.

Import Page Statement Reading.

Variable NumberToString : float -> string.
Variable toFixed : float -> nat -> string.

Local Abbreviation escapeCsvField := (Page.escapeCsvField NumberToString).
Local Abbreviation fieldString := (Page.fieldString NumberToString).
Local Abbreviation csvLine := (Page.csvLine NumberToString).

Lemma append_nil_r (s : string) : s +:+ EmptyString = s.
Proof.
  induction s as [ | c s IH]; [reflexivity | ].
  rewrite append_String, IH. reflexivity.
Qed.

Lemma last_cons_default {A : Type} (l : list A) :
  forall x d : A, List.last (x :: l) d = List.last l x.
Proof.
  induction l as [ | y l IH]; intros x d; [reflexivity | ].
  change (List.last (x :: y :: l) d) with (List.last (y :: l) d).
  rewrite (IH y d), (IH y x). reflexivity.
Qed.

Lemma join_cons (sep a b : string) (l : list string) :
  JS.join sep (a :: b :: l) = a +:+ sep +:+ JS.join sep (b :: l).
Proof. reflexivity. Qed.

Lemma append_char (c : ascii) (s : string) :
  String c EmptyString +:+ s = String c s.
Proof. reflexivity. Qed.

Lemma append_snoc (field : string) (c : ascii) (u : string) :
  (field +:+ String c EmptyString) +:+ u = field +:+ String c u.
Proof. rewrite append_assoc3. reflexivity. Qed.

(** A stretch without comma, quote or line feed is read into the field. *)
Lemma readCsv_plain (u : string) :
  test u = false ->
  forall field row rest,
    readCsv false field row (u +:+ rest) = readCsv false (field +:+ u) row rest.
Proof.
  induction u as [ | c u IH]; intros Htest field row rest.
  - rewrite append_nil_r. reflexivity.
  - simpl in Htest.
    apply orb_false_elim in Htest as [Htest Hu].
    apply orb_false_elim in Htest as [Htest Hnl].
    apply orb_false_elim in Htest as [Hq Hcomma].
    rewrite append_String. cbn [readCsv]. rewrite Hcomma, Hnl, Hq.
    rewrite IH by exact Hu. rewrite append_snoc. reflexivity.
Qed.

(** The inside of a quoted field, its quotes doubled, is read back up to the
    closing quote. *)
Lemma readCsv_quoted (s : string) :
  forall field row rest,
    fieldEnd rest ->
    readCsv true field row (replace s +:+ dquote +:+ rest)
    = readCsv false (field +:+ s) row rest.
Proof.
  induction s as [ | c s IH]; intros field row rest Hrest.
  - rewrite append_nil_r. cbn [replace]. change (EmptyString +:+ dquote +:+ rest)
      with (String "034" rest).
    cbn [readCsv]. rewrite Ascii.eqb_refl.
    destruct rest as [ | c' rest']; [reflexivity | ].
    destruct Hrest as [-> | ->]; reflexivity.
  - cbn [replace]. destruct (Ascii.eqb c "034") eqn:Hc.
    + apply Ascii.eqb_eq in Hc. subst c. rewrite !append_String.
      cbn [readCsv]. rewrite Ascii.eqb_refl.
      rewrite IH by exact Hrest. rewrite append_snoc. reflexivity.
    + rewrite append_String. cbn [readCsv]. rewrite Hc.
      rewrite IH by exact Hrest. rewrite append_snoc. reflexivity.
Qed.

(** A written field is read back as its value. *)
Lemma readCsv_field (f : Value) (row : list string) (rest : string) :
  fieldEnd rest ->
  readCsv false EmptyString row (escapeCsvField f +:+ rest)
  = readCsv false (fieldString f) row rest.
Proof.
  intros Hrest. unfold Page.escapeCsvField.
  destruct (test (Page.fieldString NumberToString f)) eqn:Htest.
  - rewrite append_assoc3.
    change (dquote +:+ (replace (fieldString f) +:+ dquote) +:+ rest)
      with (String "034" ((replace (fieldString f) +:+ dquote) +:+ rest)).
    cbn [readCsv]. change (Ascii.eqb "034" ",") with false.
    change (Ascii.eqb "034" "010") with false. rewrite Ascii.eqb_refl. cbn iota.
    rewrite append_assoc3. apply (readCsv_quoted _ EmptyString row rest Hrest).
  - apply (readCsv_plain _ Htest EmptyString row rest).
Qed.

(** A written line is read back as the values of its fields. *)
Lemma readCsv_line (f : Value) (fields : list Value) :
  forall (row : list string) (rest : string),
    fieldEnd rest ->
    readCsv false EmptyString row (csvLine (f :: fields) +:+ rest)
    = readCsv false (fieldString (List.last fields f))
              (row ++ map fieldString (List.removelast (f :: fields))) rest.
Proof.
  revert f. induction fields as [ | g fields IH]; intros f row rest Hrest.
  - unfold Page.csvLine. cbn [map JS.join List.last List.removelast].
    rewrite app_nil_r. apply readCsv_field. exact Hrest.
  - unfold Page.csvLine at 1. cbn [map]. rewrite join_cons.
    change (JS.join "," (escapeCsvField g :: map escapeCsvField fields))
      with (csvLine (g :: fields)).
    rewrite !append_assoc3.
    rewrite readCsv_field by (rewrite append_char; left; reflexivity).
    rewrite append_char. cbn [readCsv]. rewrite Ascii.eqb_refl.
    rewrite (IH g (row ++ [fieldString f]) rest Hrest).
    rewrite (last_cons_default fields g f).
    change (List.removelast (f :: g :: fields)) with (f :: List.removelast (g :: fields)).
    cbn [map]. rewrite <- app_assoc. reflexivity.
Qed.

Lemma removelast_last {A : Type} (x : A) (l : list A) :
  List.removelast (x :: l) ++ [List.last l x] = x :: l.
Proof.
  revert x. induction l as [ | y l IH]; intros x; [reflexivity | ].
  change (List.removelast (x :: y :: l)) with (x :: List.removelast (y :: l)).
  rewrite last_cons_default. cbn [app]. f_equal. apply IH.
Qed.

Lemma map_removelast_last {A B : Type} (h : A -> B) (x : A) (l : list A) :
  map h (List.removelast (x :: l)) ++ [h (List.last l x)] = map h (x :: l).
Proof.
  transitivity (map h (List.removelast (x :: l) ++ [List.last l x])).
  - rewrite map_app. reflexivity.
  - rewrite removelast_last. reflexivity.
Qed.

(** The lines of a file are read back as its rows. *)
Lemma readCsv_lines (line : list Value) (lines : list (list Value)) :
  line <> [] -> Forall (fun l => l <> []) lines ->
  readCsv false EmptyString [] (JS.join newline (map csvLine (line :: lines)))
  = map (map fieldString) (line :: lines).
Proof.
  revert line. induction lines as [ | next lines IH]; intros line Hline Hlines;
    destruct line as [ | f fields]; try contradiction.
  - cbn [map JS.join]. rewrite <- (append_nil_r (csvLine (f :: fields))).
    rewrite readCsv_line by exact I. cbn [readCsv app].
    rewrite map_removelast_last. reflexivity.
  - inversion Hlines as [ | ? ? Hnext Hrest]; subst.
    cbn [map]. rewrite join_cons.
    change (JS.join newline (csvLine next :: map csvLine lines))
      with (JS.join newline (map csvLine (next :: lines))).
    unfold newline at 1.
    rewrite readCsv_line by (rewrite append_char; right; reflexivity).
    rewrite append_char. cbn [readCsv].
    change (Ascii.eqb "010" ",") with false. rewrite Ascii.eqb_refl. cbn iota.
    rewrite (IH next Hnext Hrest). cbn [app].
    rewrite map_removelast_last. reflexivity.
Qed.

(** X9.  The exported file reads back: a reader of comma-separated text
    recovers from it the row of headers followed by one row per displayed
    particle, in order, each with its eleven fields holding the string values
    that were written, whatever commas, quotes or line feeds they contain. *)
Theorem export_reads_back :
  forall (st : State) (csv : string),
    handleExportCsv NumberToString toFixed st = Some csv ->
    readCsv false EmptyString [] csv
    = map (map fieldString) (headers :: map (row toFixed) (particlesToDisplay st))
    /\ List.length (readCsv false EmptyString [] csv)
       = S (List.length (particlesToDisplay st))
    /\ Forall (fun r => List.length r = 11) (readCsv false EmptyString [] csv).
Proof.
  intros st csv. unfold handleExportCsv. cbv zeta.
  destruct (List.length (particlesToDisplay st) =? 0)%nat; [discriminate | ].
  match goal with
  | |- Some ?c = Some _ -> _ => set (content := c)
  end.
  intros [= <-].
  assert (Hread : readCsv false EmptyString [] content
                  = map (map fieldString)
                        (headers :: map (row toFixed) (particlesToDisplay st))).
  { subst content. rewrite <- (map_map (row toFixed) csvLine).
    apply (readCsv_lines headers (map (row toFixed) (particlesToDisplay st))).
    - discriminate.
    - apply Forall_map, Forall_forall. intros p _. discriminate. }
  rewrite Hread. split; [reflexivity | split].
  - cbn [map List.length]. rewrite !length_map. reflexivity.
  - constructor; [reflexivity | ].
    apply Forall_map, Forall_map, Forall_forall. intros p _. reflexivity.
Qed.

End CsvFacts.

Lemma export_reads_back_witness :
  Reading.readCsv false EmptyString [] Reading.exportedA
  = map (map (Page.fieldString Statement.noNumberToString))
        (Page.headers
         :: map (Page.row Reading.noToFixed)
                (Page.particlesToDisplay (Page.page Reading.analysedA)))
  /\ List.length (Reading.readCsv false EmptyString [] Reading.exportedA)
     = S (List.length (Page.particlesToDisplay (Page.page Reading.analysedA)))
  /\ Forall (fun r => List.length r = 11)
            (Reading.readCsv false EmptyString [] Reading.exportedA).
Proof.
  apply (export_reads_back Statement.noNumberToString Reading.noToFixed
           (Page.page Reading.analysedA) Reading.exportedA).
  reflexivity.
Defined.

(** ** One call at a time *)

Section SessionFacts.

Import Page Statement Reading.

Variable NumberToString : float -> string.
Variable StringToNumber : string -> float.
Variable JSON_parse : string -> option JSON.

Local Abbreviation step := (Page.step NumberToString StringToNumber).
Local Abbreviation reachable := (Reading.reachable NumberToString StringToNumber JSON_parse).

Lemma imap_indices {A : Type} (f : nat -> A -> AnalyzedParticle.t) (l : list A) :
  forall k, (forall i b, AnalyzedParticle.index (f i b) = k + i) ->
    map AnalyzedParticle.index (imap f l) = seq k (List.length l).
Proof.
  revert f. induction l as [ | b l IH]; intros f k Hf; [reflexivity | ].
  rewrite imap_cons. cbn [map List.length seq]. rewrite Hf, Nat.add_0_r. f_equal.
  apply (IH (f ∘ S) (S k)). intros i b'. unfold compose. rewrite Hf. lia.
Qed.

(** The particles of an ok reply of the route, for the boxes of the page. *)
Lemma routeReply_particles (apiKey : bool) (url : string)
  (boxes : list BoundingBox.t) (gemini : Route.Gemini) (ps : list AnalyzedParticle.t) :
  let response := Route.POST JSON_parse
                    (Route.mkRequest apiKey url (boxesWithIndices boxes) gemini) in
  ok (Route.status response) = true ->
  Route.particles response = Some ps ->
  exists f, ps = imap f (boxesWithIndices boxes)
            /\ forall i b, AnalyzedParticle.index (f i b) = i
                           /\ AnalyzedParticle.box (f i b) = Route.ib_box b.
Proof.
  unfold Route.POST. cbn [Route.GEMINI_API_KEY Route.imageBase64 Route.boundingBoxes
                          Route.gemini].
  destruct apiKey; [ | discriminate].
  cbn [negb]. destruct (String.eqb url EmptyString); [discriminate | ].
  destruct (List.length (boxesWithIndices boxes) =? 0)%nat; [discriminate | ].
  destruct gemini as [ | message | | responseText]; try discriminate.
  destruct (Route.parseAnalysis JSON_parse responseText) as [e | parsed];
    cbn; intros _ [= <-].
  - eexists. split; [reflexivity | ]. intros i b. split; reflexivity.
  - exists (Route.mergeBox parsed). split; [reflexivity | ].
    intros i b. split; reflexivity.
Qed.

(** What the settling of an analysis leaves on the page. *)
Lemma settle_served (boxes : list BoundingBox.t) (outcome : AnalysisOutcome)
  (st : State) :
  served JSON_parse boxes outcome ->
  let st' := startAnalysis_settle outcome st in
  isAnalyzing st' = false
  /\ isDetecting st' = isDetecting st
  /\ boundingBoxes st' = boundingBoxes st
  /\ NoDup (map AnalyzedParticle.index (analyzedParticles st'))
  /\ indexedBy boxes (analyzedParticles st').
Proof.
  intros Hserved.
  pose (P := fun st' : State =>
    isAnalyzing st' = false
    /\ isDetecting st' = isDetecting st
    /\ boundingBoxes st' = boundingBoxes st
    /\ NoDup (map AnalyzedParticle.index (analyzedParticles st'))
    /\ indexedBy boxes (analyzedParticles st')).
  change (P (startAnalysis_settle outcome st)).
  assert (Hfailed : forall message, P (analysisFailed message st)).
  { intros message. repeat split; [constructor | intros p []]. }
  destruct Hserved as [[m ->] | [[s ->] | (apiKey & url & gemini & ->)]];
    [apply Hfailed | apply Hfailed | ].
  unfold routeReply, startAnalysis_settle.
  set (response := Route.POST JSON_parse _).
  destruct (ok (Route.status response)) eqn:Hok; cbn [negb]; [ | apply Hfailed].
  destruct (Route.particles response) as [ps | ] eqn:Hps; [ | apply Hfailed].
    destruct (routeReply_particles apiKey url boxes gemini ps Hok Hps)
    as (f & -> & Hf).
  unfold P. cbn [setAnalysis isAnalyzing isDetecting boundingBoxes analyzedParticles].
  repeat split.
  - rewrite (imap_indices f _ 0) by (intros i b; apply Hf). apply NoDup_seq.
  - intros p Hin. apply list_elem_of_In, list_elem_of_lookup in Hin as [i Hi].
      unfold boxesWithIndices in Hi. rewrite !list_lookup_imap in Hi.
      destruct (boxes !! i) as [b | ] eqn:Hb; [ | discriminate].
      injection Hi as <-. destruct (Hf i (Route.mkIndexedBox b i)) as [-> ->].
      exact Hb.
Qed.

Lemma filter_subset {A : Type} (P : A -> bool) (l : list A) :
  forall x, In x (List.filter P l) -> In x l.
Proof. intros x H. apply filter_In in H. tauto. Qed.

(** The state between two events of a session. *)
Lemma reachable_oneCallAtATime (sys : System) :
  reachable sys -> oneCallAtATime sys.
Proof.
  induction 1 as [ | sys sys' ev Hreach IH Henabled Hstep].
  - split; [constructor | ]. split; [reflexivity | ].
    exists []. split; intros ? [].
  - destruct IH as [Hnodup IH]. destruct sys as [st pending]. cbn [page Page.pending] in *.
    destruct ev as [imageSrc | result | | | value | mode | index | i outcome | i outcome];
      cbn [enabled page Page.pending] in Henabled; try contradiction.
    + (* Capture *)
      assert (Hidle : pending = [] /\ isProcessing st = false).
      { unfold inputDisabled in Henabled. apply orb_false_elim in Henabled as [Hp _].
        split; [ | exact Hp].
        unfold isProcessing in Hp. apply orb_false_elim in Hp as [Hd Ha].
        destruct pending as [ | [thr | img boxes] [ | ? ?]]; try contradiction;
          try reflexivity.
        - destruct IH as (Hd' & _). congruence.
        - destruct IH as (_ & Ha' & _). congruence. }
      destruct Hidle as [-> Hidle]. cbn [Page.step] in Hstep.
      destruct (nonEmpty imageSrc) as [image | ].
      * injection Hstep as <-. split; [constructor | ]. cbn. repeat split.
      * injection Hstep as <-. split; [exact Hnodup | ]. exact IH.
    + (* ClearImage *)
      assert (Hidle : pending = []).
      { unfold clearDisabled, isProcessing in Henabled.
        apply orb_false_elim in Henabled as [Hd Ha].
        destruct pending as [ | [thr | img boxes] [ | ? ?]]; try contradiction;
          try reflexivity.
        - destruct IH as (Hd' & _). congruence.
        - destruct IH as (_ & Ha' & _). congruence. }
      subst pending. injection Hstep as <-. split; [constructor | ].
      destruct IH as (Hp & _). cbn. split; [exact Hp | ].
      exists []. split; intros ? [].
    + (* ConfidenceChange *)
      injection Hstep as <-. split; [exact Hnodup | ].
      destruct pending as [ | [thr | img boxes] [ | ? ?]]; exact IH.
    + (* DisplayModeChange *)
      injection Hstep as <-. split; [exact Hnodup | ].
      destruct pending as [ | [thr | img boxes] [ | ? ?]]; exact IH.
    + (* HoverParticle *)
      injection Hstep as <-. split; [exact Hnodup | ].
      destruct pending as [ | [thr | img boxes] [ | ? ?]]; exact IH.
    + (* DetectionSettles *)
      cbn [Page.step page Page.pending] in Hstep.
      destruct pending as [ | [thr | img boxes] [ | ? ?]]; try contradiction;
        destruct i as [ | [ | i]]; cbn [lookup list_lookup] in Hstep;
        try discriminate Hstep.
      destruct IH as (Hd & Ha & Hnone).
      destruct outcome as [message | status body | resized detectionData];
        cbn [startDetection_settle] in Hstep.
      * injection Hstep as <-. split; [exact Hnodup | ]. cbn.
        split; [reflexivity | ]. exists []. rewrite Hnone. split; intros ? [].
      * injection Hstep as <-. split; [exact Hnodup | ]. cbn.
        split; [reflexivity | ]. exists []. rewrite Hnone. split; intros ? [].
      * destruct (Geometry.processRoboflowResults _ _ detectionData)
          as [detectedBoxes | message].
        -- destruct (0 <? List.length (List.filter (aboveThreshold thr) detectedBoxes))%nat
             eqn:Hsome; injection Hstep as <-.
           ++ split; [exact Hnodup | ]. cbn. repeat split; try assumption.
              ** intros Hnil. rewrite Hnil in Hsome. discriminate Hsome.
              ** apply filter_subset.
           ++ split; [exact Hnodup | ]. cbn. unfold isProcessing. cbn. rewrite Ha.
              split; [reflexivity | ]. exists []. rewrite Hnone. split; intros ? [].
        -- injection Hstep as <-. split; [exact Hnodup | ]. cbn.
           split; [reflexivity | ]. exists []. rewrite Hnone. split; intros ? [].
    + (* AnalysisSettles *)
      destruct Henabled as (img & boxes & Hpending & Hserved).
      cbn [Page.step page Page.pending] in Hstep. rewrite Hpending in Hstep.
      injection Hstep as <-.
      destruct pending as [ | [thr | img' boxes'] [ | ? ?]]; try contradiction;
        destruct i as [ | [ | i]]; cbn [lookup list_lookup] in Hpending;
        try discriminate Hpending.
      injection Hpending as -> ->.
      destruct IH as (Hd & Ha & Hnone & Hne & Hsub).
      destruct (settle_served boxes outcome st Hserved) as (Ha' & Hd' & Hb' & Hnd & Hidx).
      split; [exact Hnd | ]. cbn [page Page.pending delete list_delete].
      split.
      * unfold isProcessing. rewrite Ha', Hd', Hd. reflexivity.
      * exists boxes. split; [ | exact Hidx]. rewrite Hb'. exact Hsub.
Qed.

Lemma NoDup_map_filter {A B : Type} (f : A -> B) (P : A -> bool) (l : list A) :
  NoDup (map f l) -> NoDup (map f (List.filter P l)).
Proof.
  induction l as [ | x l IH]; cbn [map List.filter]; intros Hnd; [constructor | ].
  apply NoDup_cons_1_1 in Hnd as Hx.
  apply NoDup_cons_1_2 in Hnd as Hl.
  destruct (P x); [ | apply IH, Hl].
  cbn [map]. apply NoDup_cons_2; [ | apply IH, Hl].
  intros Hin. apply Hx. apply list_elem_of_In in Hin. apply list_elem_of_In.
  apply in_map_iff in Hin as (y & Hy & Hin). apply in_map_iff. exists y.
  split; [exact Hy | ]. apply filter_In in Hin. tauto.
Qed.

Lemma at_most_one_index (P : AnalyzedParticle.t -> bool) (h : nat)
  (l : list AnalyzedParticle.t) :
  (forall p, P p = true -> AnalyzedParticle.index p = h) ->
  NoDup (map AnalyzedParticle.index l) ->
  List.length (List.filter P l) <= 1.
Proof.
  intros HP. induction l as [ | x l IH]; cbn [map List.filter]; intros Hnd; [cbn; lia | ].
  apply NoDup_cons_1_1 in Hnd as Hx. apply NoDup_cons_1_2 in Hnd as Hl.
  destruct (P x) eqn:Hpx; [ | apply IH, Hl].
  cbn [List.length].
  destruct (List.filter P l) as [ | y rest] eqn:Hfilter; [cbn; lia | ].
  exfalso. apply Hx.
  assert (Hy : In y (List.filter P l)) by (rewrite Hfilter; left; reflexivity).
  apply filter_In in Hy as [Hy Hh].
  apply list_elem_of_In, in_map_iff. exists y.
  split; [rewrite (HP x Hpx), (HP y Hh); reflexivity | exact Hy].
Qed.

Lemma filter_map_length {A B : Type} (f : A -> B) (P : B -> bool) (l : list A) :
  List.length (List.filter P (map f l))
  = List.length (List.filter (fun x => P (f x)) l).
Proof.
  induction l as [ | x l IH]; [reflexivity | ].
  cbn [map List.filter]. destruct (P (f x)); cbn [List.length]; rewrite IH; reflexivity.
Qed.

(** X10.  In a session that takes its images from the webcam and uses each
    control only while it is enabled, at most one call is pending at any time;
    the page reports processing exactly while one is; no analysed particle is
    kept while a call is pending; and an analysis is only ever requested for a
    list of boxes that is not empty and whose boxes are all among the
    detections of the page. *)
Theorem session_one_call_at_a_time (sys : System) :
  reachable sys ->
  List.length (pending sys) <= 1
  /\ (isProcessing (page sys) = true <-> pending sys <> [])
  /\ (pending sys <> [] -> analyzedParticles (page sys) = [])
  /\ (forall imageDataUrl boxes,
        In (Analyzing imageDataUrl boxes) (pending sys) ->
        boxes <> [] /\ forall b, In b boxes -> In b (boundingBoxes (page sys))).
Proof.
  intros Hreach. destruct (reachable_oneCallAtATime sys Hreach) as [_ Hone].
  destruct sys as [st tasks]. cbn [page pending] in *.
  destruct tasks as [ | [thr | img boxes] [ | ? ?]]; try contradiction.
  - destruct Hone as [Hidle _].
    split; [cbn; lia | ]. split; [split; congruence | ].
    split; [congruence | ]. intros ? ? [].
  - destruct Hone as (Hd & Ha & Hnone). unfold isProcessing. rewrite Hd.
    split; [cbn; lia | ]. split; [split; [discriminate | reflexivity] | ].
    split; [intros _; exact Hnone | ]. intros ? ? [H | []]. discriminate H.
  - destruct Hone as (Hd & Ha & Hnone & Hne & Hsub). unfold isProcessing.
    rewrite Hd, Ha.
    split; [cbn; lia | ]. split; [split; [discriminate | reflexivity] | ].
    split; [intros _; exact Hnone | ]. intros ? ? [H | []].
    injection H as <- <-. split; assumption.
Qed.

(** X11.  In such a session, when the analysed particles hold the numbers
    that were sent (none came back with [null] or [0] for a number the request
    could not carry), the displayed particles have pairwise distinct indices
    and the box of each of them is one of the detections of the page.  So the
    rows of the table of particles have distinct keys, and hovering
    highlights at most one box of the overlay and at most one row of the
    table. *)
Theorem session_displayed_particles (sys : System) :
  reachable sys ->
  Wire.exactParticles (analyzedParticles (page sys)) ->
  let displayed := particlesToDisplay (page sys) in
  NoDup (map AnalyzedParticle.index displayed)
  /\ (forall p, In p displayed ->
        In (AnalyzedParticle.box p) (boundingBoxes (page sys)))
  /\ (forall h,
        List.length (List.filter (fun p => Overlay.isHighlighted p (Some h)) displayed)
        <= 1)
  /\ (forall toFixed h rows,
        Table.ParticleTable toFixed displayed h = Some rows ->
        NoDup (map Table.key rows)
        /\ List.length (List.filter Table.highlighted rows) <= 1).
Proof.
  intros Hreach _ displayed.
  destruct (reachable_oneCallAtATime sys Hreach) as [Hnodup Hone].
  destruct sys as [st tasks]. cbn [page pending] in *.
  assert (Hboxes : forall p, In p (analyzedParticles st) ->
                     In (AnalyzedParticle.box p) (boundingBoxes st)).
  { destruct tasks as [ | [thr | img boxes] [ | ? ?]]; try contradiction.
    - destruct Hone as (_ & boxes & Hsub & Hidx). intros p Hp. apply Hsub.
      apply list_elem_of_In. eapply list_elem_of_lookup_2. apply Hidx, Hp.
    - destruct Hone as (_ & _ & ->). intros p [].
    - destruct Hone as (_ & _ & -> & _). intros p []. }
  assert (Hdistinct : NoDup (map AnalyzedParticle.index displayed)).
  { subst displayed. unfold particlesToDisplay. cbv zeta.
    apply NoDup_map_filter.
    destruct (0 <? List.length (analyzedParticles st))%nat; [exact Hnodup | ].
    destruct (0 <? List.length (boundingBoxes st))%nat; [ | constructor].
    rewrite (imap_indices _ _ 0) by reflexivity. apply NoDup_seq. }
  split; [exact Hdistinct | ]. split; [ | split].
  - intros p Hp. subst displayed. unfold particlesToDisplay in Hp. cbv zeta in Hp.
    apply filter_In in Hp as [Hp _].
    destruct (0 <? List.length (analyzedParticles st))%nat; [apply Hboxes, Hp | ].
    destruct (0 <? List.length (boundingBoxes st))%nat; [ | destruct Hp].
    apply list_elem_of_In, list_elem_of_lookup in Hp as [i Hi].
    rewrite list_lookup_imap in Hi.
    destruct (boundingBoxes st !! i) as [b | ] eqn:Hb; [ | discriminate].
    injection Hi as <-. cbn. apply list_elem_of_In.
    eapply list_elem_of_lookup_2, Hb.
  - intros h. apply (at_most_one_index _ h); [ | exact Hdistinct].
    intros p Hp. apply Nat.eqb_eq. exact Hp.
  - intros toFixed h rows. unfold Table.ParticleTable.
    destruct (List.length displayed =? 0)%nat; [discriminate | ].
    intros [= <-]. split.
    + rewrite map_map. exact Hdistinct.
    + rewrite filter_map_length. cbn [Table.highlighted Table.tableRow].
      destruct h as [h | ].
      * apply (at_most_one_index _ h); [ | exact Hdistinct].
        intros p Hp. symmetry. apply Nat.eqb_eq. exact Hp.
      * clear. induction displayed as [ | x l IH]; [cbn; lia | exact IH].
Qed.

End SessionFacts.

Lemma detectedA_reachable :
  Reading.reachable Statement.noNumberToString Statement.noStringToNumber
                    JSONParser.parse Reading.detectedA.
Proof.
  eapply Reading.reachable_step
    with (ev := Page.DetectionSettles 0 (Page.DetectionData "resized" Statement.scenarioA)).
  - eapply Reading.reachable_step with (ev := Page.Capture (Some "image")).
    + apply Reading.reachable_start.
    + reflexivity.
    + reflexivity.
  - exact I.
  - vm_compute. reflexivity.
Qed.

Lemma analysedA_reachable :
  Reading.reachable Statement.noNumberToString Statement.noStringToNumber
                    JSONParser.parse Reading.analysedA.
Proof.
  eapply Reading.reachable_step
    with (ev := Statement.analysed [Statement.scenarioA_box]).
  - apply detectedA_reachable.
  - exists "resized", [Statement.scenarioA_box]. split; [reflexivity | ].
    right. right.
    exists true, "data:image/png;base64,annotated", (Route.ResponseText Statement.scenarioC).
    reflexivity.
  - vm_compute. reflexivity.
Qed.

Lemma session_one_call_at_a_time_witness :
  List.length (Page.pending Reading.detectedA) <= 1
  /\ (Page.isProcessing (Page.page Reading.detectedA) = true
      <-> Page.pending Reading.detectedA <> [])
  /\ (Page.pending Reading.detectedA <> []
      -> Page.analyzedParticles (Page.page Reading.detectedA) = [])
  /\ (forall imageDataUrl boxes,
        In (Page.Analyzing imageDataUrl boxes) (Page.pending Reading.detectedA) ->
        boxes <> []
        /\ forall b, In b boxes -> In b (Page.boundingBoxes (Page.page Reading.detectedA))).
Proof.
  exact (session_one_call_at_a_time
           Statement.noNumberToString Statement.noStringToNumber JSONParser.parse
           Reading.detectedA detectedA_reachable).
Defined.

Lemma session_displayed_particles_witness :
  NoDup (map AnalyzedParticle.index (Page.particlesToDisplay (Page.page Reading.analysedA)))
  /\ (forall p, In p (Page.particlesToDisplay (Page.page Reading.analysedA)) ->
        In (AnalyzedParticle.box p) (Page.boundingBoxes (Page.page Reading.analysedA)))
  /\ (forall h,
        List.length
          (List.filter (fun p => Overlay.isHighlighted p (Some h))
                       (Page.particlesToDisplay (Page.page Reading.analysedA)))
        <= 1)
  /\ (forall toFixed h rows,
        Table.ParticleTable toFixed
          (Page.particlesToDisplay (Page.page Reading.analysedA)) h = Some rows ->
        NoDup (map Table.key rows)
        /\ List.length (List.filter Table.highlighted rows) <= 1).
Proof.
  apply (session_displayed_particles
           Statement.noNumberToString Statement.noStringToNumber JSONParser.parse
           Reading.analysedA analysedA_reachable).
  intros p [<- | []]. reflexivity.
Defined.

(** ** One analysis, four views *)

Section OverlayFacts.

Import Page Statement Reading.

Variable NumberToString : float -> string.
Variable toFixed : float -> nat -> string.
Variable toLowerCase : string -> string.

Local Abbreviation labelText := (Overlay.labelText NumberToString toFixed).
Local Abbreviation drawBox := (Overlay.drawBox NumberToString toFixed toLowerCase).
Local Abbreviation drawBoxes := (Overlay.drawBoxes NumberToString toFixed toLowerCase).
Local Abbreviation getColorForParticleType :=
  (Display.getColorForParticleType NumberToString toLowerCase).

(** The test of the overlay and of the colors is the negation of the test of
    the statistics. *)
Lemma fallback_iff (p : AnalyzedParticle.t) :
  let analysis := AnalyzedParticle.analysis p in
  negb (truthyV analysis) || truthyV (getV analysis "error")
  || Display.strictEqStr (getV analysis "shape") "Not Analyzed"
  = negb (contributes p).
Proof.
  unfold contributes, strictNeStr, Display.strictEqStr. cbv zeta.
  destruct (truthyV (AnalyzedParticle.analysis p)); [ | reflexivity].
  destruct (truthyV (getV (AnalyzedParticle.analysis p) "error")); [reflexivity | ].
  destruct (getV (AnalyzedParticle.analysis p) "shape") as [[ | | | s | | ] | ];
    try reflexivity.
  cbn. rewrite negb_involutive. reflexivity.
Qed.

Lemma occurrences_pos (k : string) (l : list string) :
  In k l -> exists n, occurrences k l = S n.
Proof.
  unfold occurrences. induction l as [ | k' l IH]; intros Hin; [destruct Hin | ].
  cbn [List.filter]. destruct (String.eqb_spec k k') as [-> | Hne].
  - eexists. reflexivity.
  - destruct Hin as [-> | Hin]; [contradiction | apply IH, Hin].
Qed.

Lemma drawBoxes_complete (h : option nat) (mode : DisplayMode)
  (particles : list AnalyzedParticle.t) (drawn : list Overlay.Drawn) :
  drawBoxes h mode particles = (drawn, None)
  <-> Forall2 (fun p d => drawBox h mode p = Return d) particles drawn.
Proof.
  revert drawn. induction particles as [ | p ps IH]; intros drawn; cbn [Overlay.drawBoxes].
  - split.
    + intros [= <-]. constructor.
    + intros H. inversion H. reflexivity.
  - destruct (drawBox h mode p) as [d | message] eqn:Hd.
    + destruct (drawBoxes h mode ps) as [others stopped] eqn:Hrest. split.
      * intros [= <- ->]. constructor; [exact Hd | ]. apply IH. reflexivity.
      * intros H. inversion H as [ | p' d' ps' ds' Hp Hps]; subst.
        rewrite Hd in Hp. injection Hp as <-.
        apply IH in Hps. injection Hps as <- <-. reflexivity.
    + split; [discriminate | ]. intros H. inversion H as [ | p' d' ps' ds' Hp Hps]; subst.
      rewrite Hd in Hp. discriminate Hp.
Qed.

(** The body of the [forEach] for a particle the statistics count, in the
    mode of a field that converts. *)
Lemma drawBox_counted (h : option nat) (mode : DisplayMode) (field : string)
  (p : AnalyzedParticle.t) :
  contributes p = true ->
  fieldOf mode = Some field ->
  Converts.orReturns (getV (AnalyzedParticle.analysis p) field) = true ->
  (shapeIsText p = true ->
   exists d, drawBox h mode p = Return d
             /\ Overlay.label d
                = label NumberToString (getV (AnalyzedParticle.analysis p) field))
  /\ (shapeIsText p = false -> exists message, drawBox h mode p = Throw message).
Proof.
  intros Hp Hfield Hconv.
  assert (Hfallback := fallback_iff p). cbv zeta in Hfallback.
  rewrite Hp in Hfallback. cbn [negb] in Hfallback.
  assert (Hmode : Display.isConfidence mode = false)
    by (destruct mode; [discriminate Hfield | reflexivity ..]).
  assert (Hcolor : forall asRgba,
             Display.getColorForParticleType NumberToString toLowerCase p mode asRgba
             = match getV (AnalyzedParticle.analysis p) "shape" with
               | None | Some JNull =>
                   Return (Display.shapeColor NumberToString None asRgba
                             (if asRgba then 0.7%float else 1%float))
               | Some (JStr shape) =>
                   Return (Display.shapeColor NumberToString (Some (toLowerCase shape))
                             asRgba (if asRgba then 0.7%float else 1%float))
               | Some _ =>
                   Throw "TypeError: particle.analysis.shape?.toLowerCase is not a function"
               end).
  { intros asRgba. unfold Display.getColorForParticleType. cbv zeta.
    rewrite <- !orb_assoc, (orb_assoc (negb _)), Hfallback, Hmode. reflexivity. }
  assert (Hlabel : Overlay.labelReturns p mode = true
                   /\ labelText p mode
                      = label NumberToString (getV (AnalyzedParticle.analysis p) field)).
  { unfold Overlay.labelReturns, Overlay.labelText. cbv zeta. rewrite Hfallback.
    destruct mode; try discriminate Hfield; injection Hfield as <-;
      (split; [exact Hconv | reflexivity]). }
  destruct Hlabel as [Hreturns Htext].
  unfold Overlay.drawBox, shapeIsText. cbv zeta. rewrite !Hcolor, Hreturns.
  split.
  - intros Hshape.
    destruct (getV (AnalyzedParticle.analysis p) "shape") as [[ | | | shape | | ] | ];
      try discriminate Hshape;
      destruct (Overlay.isHighlighted p h); eexists; (split; [reflexivity | exact Htext]).
  - intros Hshape.
    destruct (getV (AnalyzedParticle.analysis p) "shape") as [[ | | | shape | | ] | ];
      try discriminate Hshape; eexists; reflexivity.
Qed.

Lemma drawBox_uncounted (h : option nat) (mode : DisplayMode) (p : AnalyzedParticle.t) :
  contributes p = false -> exists d, drawBox h mode p = Return d.
Proof.
  intros Hp.
  assert (Hfallback := fallback_iff p). cbv zeta in Hfallback.
  rewrite Hp in Hfallback. cbn [negb] in Hfallback.
  unfold Overlay.drawBox, Overlay.labelReturns, Display.getColorForParticleType. cbv zeta.
  rewrite <- !orb_assoc, (orb_assoc (negb _)), !Hfallback, !orb_true_r.
  destruct (Overlay.isHighlighted p h); eexists; reflexivity.
Qed.

(** X12.  One analysis, one text.  In the mode of a field (type, color or
    transparency), when the labels of the counted particles convert to
    strings, [drawBoxes] draws every box exactly when the shape of every
    counted particle is a string, [null] or absent (for another shape the
    color call throws and the loop stops).  When it does, the label it draws
    for a counted particle is the key under which the statistics count that
    particle, so the breakdown has a row for it with a count of at least one
    (for a label that is not a property every object inherits): the field
    itself when it is a string that is not empty, which the table shows and
    the row of the export holds too, and Unknown for a falsy field, for which
    the table shows N/A and the row of the export holds the empty string. *)
Theorem analysis_shows_the_same_text :
  forall (particles : list AnalyzedParticle.t) (s : AnalysisStats)
         (mode : DisplayMode) (field : string) (h : option nat),
    fieldOf mode = Some field ->
    (forall q, In q particles -> contributes q = true ->
               Converts.labelsReturn q = true) ->
    computeStats NumberToString particles = Some s ->
    ((exists drawn, drawBoxes h mode particles = (drawn, None))
     <-> forall q, In q particles -> contributes q = true -> shapeIsText q = true)
    /\ (forall drawn,
          drawBoxes h mode particles = (drawn, None) ->
          List.length drawn = List.length particles
          /\ forall i p,
               particles !! i = Some p -> contributes p = true ->
               let v := getV (AnalyzedParticle.analysis p) field in
               let exported := nth (columnOf mode) (row toFixed p) None in
               exists d,
                 drawn !! i = Some d
                 /\ (forall str, v = Some (JStr str) -> str <> EmptyString ->
                       Overlay.label d = str
                       /\ Table.cell p field = Some (JStr str)
                       /\ fieldString NumberToString exported = str)
                 /\ (truthyV v = false ->
                     Overlay.label d = "Unknown"
                     /\ Table.cell p field = None
                     /\ fieldString NumberToString exported = EmptyString)
                 /\ (inherited (Overlay.label d) = false ->
                     exists n, distributionOf mode s !! Overlay.label d
                               = Some (Count (S n)))).
Proof.
  intros particles s mode field h Hfield Hconv Hs.
  assert (Hfieldconv : forall q, In q particles -> contributes q = true ->
             Converts.orReturns (getV (AnalyzedParticle.analysis q) field) = true).
  { intros q Hq Hc. specialize (Hconv q Hq Hc). unfold Converts.labelsReturn in Hconv.
    cbv zeta in Hconv. apply andb_prop in Hconv as [Hconv Ht].
    apply andb_prop in Hconv as [Hsh Hco].
    destruct mode; try discriminate Hfield; injection Hfield as <-; assumption. }
  split.
  - split.
    + intros [drawn Hdrawn] q Hq Hc.
      apply drawBoxes_complete in Hdrawn.
      pose proof Hq as Hin.
      apply list_elem_of_In, list_elem_of_lookup in Hq as [i Hi].
      destruct (Forall2_lookup_l _ _ _ _ _ Hdrawn Hi) as (d & _ & Hd).
      destruct (shapeIsText q) eqn:Hshape; [reflexivity | ].
      destruct (proj2 (drawBox_counted h mode field q Hc Hfield (Hfieldconv q Hin Hc))
                      Hshape) as [message Hthrow].
      rewrite Hthrow in Hd. discriminate Hd.
    + intros Hshapes.
      assert (Hall : forall q, In q particles -> exists d, drawBox h mode q = Return d).
      { intros q Hq. destruct (contributes q) eqn:Hc.
        - destruct (proj1 (drawBox_counted h mode field q Hc Hfield
                             (Hfieldconv q Hq Hc)) (Hshapes q Hq Hc)) as (d & Hd & _).
          exists d. exact Hd.
        - apply drawBox_uncounted, Hc. }
      clear - Hall. induction particles as [ | p ps IH].
      * exists []. reflexivity.
      * destruct (Hall p (or_introl eq_refl)) as [d Hd].
        destruct IH as [ds Hds]; [intros q Hq; apply Hall; right; exact Hq | ].
        exists (d :: ds). cbn [Overlay.drawBoxes]. rewrite Hd, Hds. reflexivity.
  - intros drawn Hdrawn. apply drawBoxes_complete in Hdrawn. split.
    + symmetry. eapply Forall2_length, Hdrawn.
    + intros i p Hi Hp v exported.
      assert (Hin : In p particles)
        by (apply list_elem_of_In; eapply list_elem_of_lookup_2, Hi).
      destruct (Forall2_lookup_l _ _ _ _ _ Hdrawn Hi) as (d & Hd & Hdraw).
      exists d. split; [exact Hd | ].
      assert (Htext : Overlay.label d = label NumberToString v).
      { destruct (shapeIsText p) eqn:Hshape.
        - destruct (proj1 (drawBox_counted h mode field p Hp Hfield
                             (Hfieldconv p Hin Hp)) Hshape) as (d' & Hd' & Hl).
          rewrite Hd' in Hdraw. injection Hdraw as <-. exact Hl.
        - destruct (proj2 (drawBox_counted h mode field p Hp Hfield
                             (Hfieldconv p Hin Hp)) Hshape) as [message Hthrow].
          rewrite Hthrow in Hdraw. discriminate Hdraw. }
      assert (Hfallback := fallback_iff p). cbv zeta in Hfallback.
      rewrite Hp in Hfallback. cbn [negb] in Hfallback.
      assert (Herror : truthyV (getV (AnalyzedParticle.analysis p) "error") = false).
      { apply orb_false_elim in Hfallback as [Hfallback _].
        apply orb_false_elim in Hfallback as [_ Herror]. exact Herror. }
      assert (Hexported : exported = orEmpty v).
      { subst exported v.
        destruct mode; try discriminate Hfield; injection Hfield as <-; reflexivity. }
      split; [ | split].
      * intros str Hv Hstr. rewrite Htext, Hexported. unfold Table.cell. fold v.
        rewrite Herror, Hv. unfold label, orEmpty. cbn [truthyV truthy].
        destruct (String.eqb_spec str EmptyString) as [Heq | _]; [contradiction | ].
        repeat split.
      * intros Hv. rewrite Htext, Hexported. unfold Table.cell. fold v.
        rewrite Hv. unfold orEmpty. rewrite Hv. repeat split.
        unfold label. destruct v as [j | ]; [ | reflexivity].
        cbn [truthyV] in Hv. rewrite Hv. reflexivity.
      * intros Hinherited.
        assert (Hne : particles <> []) by (intros ->; destruct Hin).
        destruct (computeStats_nonempty NumberToString particles Hne)
          as (s' & Hs' & _ & _ & _ & Hcells & _).
        rewrite Hs in Hs'. injection Hs' as <-.
        destruct (Hcells (Overlay.label d) Hinherited) as (Hshape & Hcolor & Htransparency).
        assert (Hcounted : In (Overlay.label d) (labels NumberToString field particles)).
        { unfold labels. apply in_map_iff. exists p. split; [symmetry; exact Htext | ].
          apply filter_In. split; assumption. }
        destruct (occurrences_pos _ _ Hcounted) as [n Hn].
        exists n.
        destruct mode; try discriminate Hfield; injection Hfield as <-;
          cbn [distributionOf]; [rewrite Hshape | rewrite Hcolor | rewrite Htransparency];
          rewrite Hn; reflexivity.
Qed.

(** X13.  The color of a box follows the test of the statistics.  In the
    confidence mode, and for a particle the statistics do not count, the box
    is red and, for such a particle, labelled with its class and confidence
    in every mode.  For a counted particle in another mode the color depends
    on the shape only, not on the mode, is one of six colors and never the
    red of the fallback; and the call throws, instead of returning a color,
    exactly when the shape is present and is neither null nor a string. *)
Theorem box_color_follows_statistics :
  forall (p : AnalyzedParticle.t) (mode : DisplayMode) (asRgba : bool),
    let red := if asRgba then "rgba(255, 0, 0, 0.7)" else "red" in
    let shape := getV (AnalyzedParticle.analysis p) "shape" in
    (Display.isConfidence mode = true \/ contributes p = false ->
     getColorForParticleType p mode asRgba = Return red)
    /\ (contributes p = false ->
        labelText p mode
        = BoundingBox.class (AnalyzedParticle.box p) +:+ " (" +:+
          toFixed (BoundingBox.confidence (AnalyzedParticle.box p) * 100)%float 0
          +:+ "%)")
    /\ (Display.isConfidence mode = false -> contributes p = true ->
        getColorForParticleType p mode asRgba
        = getColorForParticleType p ModeType asRgba
        /\ getColorForParticleType p mode asRgba <> Return red
        /\ (forall c, getColorForParticleType p mode false = Return c ->
                      In c shapeColors)
        /\ ((exists message, getColorForParticleType p mode asRgba = Throw message)
            <-> exists j, shape = Some j /\ j <> JNull /\ forall s', j <> JStr s')).
Proof.
  intros p mode asRgba red shape.
  assert (Hfallback := fallback_iff p). cbv zeta in Hfallback.
  unfold Display.getColorForParticleType, Overlay.labelText. cbv zeta.
  rewrite <- !orb_assoc, (orb_assoc (negb _)), Hfallback. fold shape. fold red.
  split; [ | split].
  - intros [-> | ->]; [reflexivity | ]. rewrite orb_true_r. reflexivity.
  - intros ->. reflexivity.
  - intros Hmode ->. rewrite Hmode. cbn [negb orb].
    assert (Hcolors : forall shape' rgb,
               In (Display.shapeColor NumberToString shape' false rgb) shapeColors
               /\ Display.shapeColor NumberToString shape' asRgba
                    (if asRgba then 0.7%float else 1%float) <> red).
    { intros shape' rgb. unfold Display.shapeColor, shapeColors, Display.rgba. subst red.
      cbv zeta.
      repeat match goal with
             | |- context [if ?b then _ else _] =>
                 lazymatch b with
                 | asRgba => fail
                 | _ => destruct b
                 end
             end;
        (split; [cbn; tauto | ]); destruct asRgba;
        cbv; discriminate. }
    split; [reflexivity | split; [ | split]].
    + destruct shape as [[ | | | s' | | ] | ]; try discriminate;
        intros [= H]; revert H; apply (proj2 (Hcolors _ 0%float)).
    + intros c. destruct shape as [[ | | | s' | | ] | ]; try discriminate;
        intros [= <-]; apply (proj1 (Hcolors _ _)).
    + split.
      * intros [message Hthrow].
        destruct shape as [[ | b | f | s' | l | o] | ]; try discriminate Hthrow;
          eexists; (split; [reflexivity | split; [discriminate | intros ?; discriminate]]).
      * intros (j & -> & Hnull & Hstr).
        destruct j as [ | b | f | s' | l | o]; try (eexists; reflexivity).
        -- contradiction Hnull. reflexivity.
        -- contradiction (Hstr s'). reflexivity.
Qed.

End OverlayFacts.

(** The analysed particle of scenario A in the type mode. *)
Lemma analysis_shows_the_same_text_witness :
  ((exists drawn,
       Overlay.drawBoxes Statement.noNumberToString Reading.noToFixed
                         Reading.noToLowerCase None Page.ModeType [Reading.particleA]
       = (drawn, None))
   <-> forall q, In q [Reading.particleA] -> Page.contributes q = true ->
                 Reading.shapeIsText q = true)
  /\ (forall drawn,
        Overlay.drawBoxes Statement.noNumberToString Reading.noToFixed
                          Reading.noToLowerCase None Page.ModeType [Reading.particleA]
        = (drawn, None) ->
        List.length drawn = List.length [Reading.particleA]
        /\ forall i p,
             [Reading.particleA] !! i = Some p -> Page.contributes p = true ->
             exists d,
               drawn !! i = Some d
               /\ (forall str,
                     getV (AnalyzedParticle.analysis p) "shape" = Some (JStr str) ->
                     str <> EmptyString ->
                     Overlay.label d = str
                     /\ Table.cell p "shape" = Some (JStr str)
                     /\ Page.fieldString Statement.noNumberToString
                          (nth 7 (Page.row Reading.noToFixed p) None) = str)
               /\ (truthyV (getV (AnalyzedParticle.analysis p) "shape") = false ->
                   Overlay.label d = "Unknown"
                   /\ Table.cell p "shape" = None
                   /\ Page.fieldString Statement.noNumberToString
                        (nth 7 (Page.row Reading.noToFixed p) None) = EmptyString)
               /\ (Page.inherited (Overlay.label d) = false ->
                   exists n, Page.shapes Reading.statsA !! Overlay.label d
                             = Some (Page.Count (S n)))).
Proof.
  apply (analysis_shows_the_same_text
           Statement.noNumberToString Reading.noToFixed Reading.noToLowerCase
           [Reading.particleA] Reading.statsA Page.ModeType "shape" None).
  - reflexivity.
  - intros q [<- | []] _. reflexivity.
  - vm_compute. reflexivity.
Defined.

(** ** The confidence threshold *)

Section ThresholdFacts.

Import Page.

Variable NumberToString : float -> string.
Variable StringToNumber : string -> float.

Lemma SFleb_trans (a b c : spec_float) :
  SFleb a b = true -> SFleb b c = true -> SFleb a c = true.
Proof.
  unfold SFleb, SFcompare.
  destruct a as [sa | sa | | sa ma ea], b as [sb | sb | | sb mb eb],
           c as [sc | sc | | sc mc ec];
    try destruct sa; try destruct sb; try destruct sc;
    try discriminate; try reflexivity;
    change (PosDef.Pos.compare_cont Eq) with Pos.compare;
    destruct (Z.compare_spec ea eb); destruct (Z.compare_spec eb ec);
    destruct (Z.compare_spec ea ec); try discriminate; try reflexivity; try lia;
    destruct (Pos.compare_spec ma mb); destruct (Pos.compare_spec mb mc);
    destruct (Pos.compare_spec ma mc); cbn [CompOpp];
    try discriminate; try reflexivity; try lia.
Qed.

Lemma leb_trans (a b c : float) :
  PrimFloat.leb a b = true -> PrimFloat.leb b c = true -> PrimFloat.leb a c = true.
Proof. rewrite !FloatAxioms.leb_spec. apply SFleb_trans. Qed.

Lemma filter_sublist {A : Type} (P Q : A -> bool) (l : list A) :
  (forall x, Q x = true -> P x = true) ->
  sublist (List.filter Q l) (List.filter P l).
Proof.
  intros HPQ. induction l as [ | x l IH]; [constructor | ].
  cbn [List.filter]. destruct (Q x) eqn:Hq.
  - rewrite (HPQ x Hq). apply sublist_skip, IH.
  - destruct (P x); [apply sublist_cons, IH | exact IH].
Qed.

(** X14.  Moving the slider sets the threshold and changes nothing else of
    the page: the image, the detections, the analysed particles, the two
    flags, the two messages, the display mode and the highlight stay, and no
    call is started or dropped.  What is displayed changes in one direction
    only: raising the threshold removes particles from the displayed list and
    keeps the others in their order with their indices, lowering it only adds
    particles.  Nothing is displayed for a threshold that is not a number. *)
Theorem slider_only_filters :
  forall (sys sys' : System) (value : float),
    step NumberToString StringToNumber (ConfidenceChange value) sys = Some sys' ->
    let st := page sys in
    let st' := page sys' in
    sys' = mkSystem
             (mkState value (capturedImage st) (boundingBoxes st) (analyzedParticles st)
                      (isDetecting st) (isAnalyzing st) (errorState st)
                      (analysisErrorState st) (displayMode st)
                      (highlightedParticleIndex st))
             (pending sys)
    /\ (PrimFloat.leb (confidenceThreshold st) value = true ->
        sublist (particlesToDisplay st') (particlesToDisplay st))
    /\ (PrimFloat.leb value (confidenceThreshold st) = true ->
        sublist (particlesToDisplay st) (particlesToDisplay st'))
    /\ (PrimFloat.leb value value = false -> particlesToDisplay st' = []).
Proof.
  intros sys sys' value [= <-] st st'. subst st st'. cbn [page pending].
  split; [reflexivity | ]. repeat split.
  - intros Hle. unfold particlesToDisplay.
    cbn [confidenceThreshold boundingBoxes analyzedParticles]. cbv zeta.
    apply filter_sublist. intros p. unfold aboveThreshold. apply leb_trans, Hle.
  - intros Hle. unfold particlesToDisplay.
    cbn [confidenceThreshold boundingBoxes analyzedParticles]. cbv zeta.
    apply filter_sublist. intros p. unfold aboveThreshold. apply leb_trans, Hle.
  - intros Hnan. unfold particlesToDisplay.
    cbn [confidenceThreshold boundingBoxes analyzedParticles]. cbv zeta.
    assert (Hnone : forall c, PrimFloat.leb value c = false).
    { intros c. rewrite FloatAxioms.leb_spec in Hnan |- *.
      unfold SFleb, SFcompare in *.
      destruct (Prim2SF value) as [[ | ] | [ | ] | | [ | ] m e];
        try discriminate Hnan; try reflexivity.
      - rewrite Z.compare_refl in Hnan.
        change (PosDef.Pos.compare_cont Eq) with Pos.compare in Hnan.
        rewrite Pos.compare_refl in Hnan. discriminate Hnan.
      - rewrite Z.compare_refl in Hnan.
        change (PosDef.Pos.compare_cont Eq) with Pos.compare in Hnan.
        rewrite Pos.compare_refl in Hnan. discriminate Hnan. }
    match goal with
    | |- List.filter _ ?particles = [] => generalize particles
    end.
    intros l. induction l as [ | x l IH]; [reflexivity | ].
    cbn [List.filter]. unfold aboveThreshold at 1. rewrite Hnone. exact IH.
Qed.

End ThresholdFacts.

(** The slider is moved from 0.5 to 0.95 on the analysed page of scenario A,
    whose particle has confidence 0.9. *)
Lemma slider_only_filters_witness :
  Page.mkSystem Reading.hiddenA []
  = Page.mkSystem
      (Page.mkState 0.95
         (Page.capturedImage (Page.page Reading.analysedA))
         (Page.boundingBoxes (Page.page Reading.analysedA))
         (Page.analyzedParticles (Page.page Reading.analysedA))
         (Page.isDetecting (Page.page Reading.analysedA))
         (Page.isAnalyzing (Page.page Reading.analysedA))
         (Page.errorState (Page.page Reading.analysedA))
         (Page.analysisErrorState (Page.page Reading.analysedA))
         (Page.displayMode (Page.page Reading.analysedA))
         (Page.highlightedParticleIndex (Page.page Reading.analysedA)))
      (Page.pending Reading.analysedA)
  /\ (PrimFloat.leb (Page.confidenceThreshold (Page.page Reading.analysedA)) 0.95 = true ->
      sublist (Page.particlesToDisplay Reading.hiddenA)
              (Page.particlesToDisplay (Page.page Reading.analysedA)))
  /\ (PrimFloat.leb 0.95 (Page.confidenceThreshold (Page.page Reading.analysedA)) = true ->
      sublist (Page.particlesToDisplay (Page.page Reading.analysedA))
              (Page.particlesToDisplay Reading.hiddenA))
  /\ (PrimFloat.leb 0.95 0.95 = false -> Page.particlesToDisplay Reading.hiddenA = []).
Proof.
  apply (slider_only_filters Statement.noNumberToString Statement.noStringToNumber
           Reading.analysedA (Page.mkSystem Reading.hiddenA []) 0.95%float).
  reflexivity.
Defined.

(** ** What an analysis changes *)

Section AnalysisFacts.

Import Page Statement Reading.

Variable NumberToString : float -> string.
Variable StringToNumber : string -> float.
Variable JSON_parse : string -> option JSON.

Local Abbreviation step := (Page.step NumberToString StringToNumber).
Local Abbreviation reachable := (Reading.reachable NumberToString StringToNumber JSON_parse).

Lemma idle_no_pending (sys : System) :
  oneCallAtATime sys -> isProcessing (page sys) = false -> pending sys = [].
Proof.
  intros [_ Hone] Hidle. unfold isProcessing in Hidle.
  apply orb_false_elim in Hidle as [Hd Ha].
  destruct (pending sys) as [ | [thr | img boxes] [ | ? ?]]; try contradiction;
    try reflexivity.
  - destruct Hone as (Hd' & _). congruence.
  - destruct Hone as (_ & Ha' & _). congruence.
Qed.

Lemma reachable_thresholdHeld (sys : System) :
  reachable sys -> thresholdHeld sys.
Proof.
  induction 1 as [ | sys sys' ev Hreach IH Henabled Hstep]; [exact I | ].
  pose proof (reachable_oneCallAtATime _ _ _ sys Hreach) as Hone.
  pose proof (idle_no_pending sys Hone) as Hidle.
  destruct sys as [st tasks]. cbn [page pending] in *.
  destruct ev as [imageSrc | result | | | value | mode | index | i outcome | i outcome];
    cbn [enabled page pending] in Henabled; try contradiction.
  - unfold inputDisabled in Henabled. apply orb_false_elim in Henabled as [Hp _].
    rewrite (Hidle Hp) in *. cbn [Page.step] in Hstep.
    destruct (nonEmpty imageSrc); injection Hstep as <-; [reflexivity | exact I].
  - rewrite (Hidle Henabled) in *. injection Hstep as <-. exact I.
  - rewrite (Hidle Henabled) in *. injection Hstep as <-. exact I.
  - injection Hstep as <-.
    destruct tasks as [ | [thr | img boxes] [ | ? ?]]; exact IH.
  - injection Hstep as <-.
    destruct tasks as [ | [thr | img boxes] [ | ? ?]]; exact IH.
  - destruct Hone as [_ Hone]. cbn [page pending] in Hone.
    cbn [Page.step page pending] in Hstep.
    destruct tasks as [ | [thr | img boxes] [ | ? ?]]; try contradiction;
      destruct i as [ | [ | i]]; cbn [lookup list_lookup] in Hstep;
      try discriminate Hstep.
    unfold thresholdHeld in IH. cbn [page pending] in IH. subst thr.
    destruct outcome as [message | status body | resized detectionData];
      cbn [startDetection_settle] in Hstep; try (injection Hstep as <-; exact I).
    destruct (Geometry.processRoboflowResults _ _ detectionData)
      as [detectedBoxes | message]; [ | injection Hstep as <-; exact I].
    destruct (0 <? List.length _)%nat; injection Hstep as <-; [reflexivity | exact I].
  - destruct Henabled as (img & boxes & Hpending & _).
    destruct Hone as [_ Hone]. cbn [page pending] in Hone.
    cbn [Page.step page pending] in Hstep. rewrite Hpending in Hstep.
    injection Hstep as <-.
    destruct tasks as [ | [thr | img' boxes'] [ | ? ?]]; try contradiction;
      destruct i as [ | [ | i]]; cbn [lookup list_lookup] in Hpending;
      try discriminate Hpending.
    exact I.
Qed.

Lemma boxes_of_filtered_imap (P : BoundingBox.t -> bool)
  (l : list BoundingBox.t) :
  forall f : nat -> BoundingBox.t -> AnalyzedParticle.t,
    (forall i b, AnalyzedParticle.box (f i b) = b) ->
    map AnalyzedParticle.box
        (List.filter (fun p => P (AnalyzedParticle.box p)) (imap f l))
    = List.filter P l.
Proof.
  induction l as [ | b l IH]; intros f Hf; [reflexivity | ].
  rewrite imap_cons. cbn [List.filter]. rewrite Hf.
  destruct (P b); cbn [map]; rewrite ?Hf, (IH (f ∘ S)); try reflexivity;
    intros i b'; apply Hf.
Qed.

Lemma filter_all {A : Type} (P : A -> bool) (l : list A) :
  (forall x, In x l -> P x = true) -> List.filter P l = l.
Proof.
  induction l as [ | x l IH]; intros Hall; [reflexivity | ].
  cbn [List.filter]. rewrite (Hall x (or_introl eq_refl)). f_equal.
  apply IH. intros y Hy. apply Hall. right. exact Hy.
Qed.

(** X15.  In a session with the webcam, when an analysis settles for
    detections whose numbers are ones the request and the reply carry
    unchanged, the boxes that are displayed stay the same: before and after,
    they are the detections at or above the threshold, in order.  If the
    analysis failed no analysed particle is kept and the message of the
    failure is set; otherwise every analysed particle is displayed, one per
    box at or above the threshold, numbered from 0 by its place among these
    boxes. *)
Theorem analysis_keeps_displayed_boxes :
  forall (sys sys' : System) (i : nat) (outcome : AnalysisOutcome),
    reachable sys ->
    enabled JSON_parse (AnalysisSettles i outcome) sys ->
    step (AnalysisSettles i outcome) sys = Some sys' ->
    forallb Wire.exactBox (boundingBoxes (page sys)) = true ->
    let st := page sys in
    let st' := page sys' in
    let shown := List.filter (aboveThreshold (confidenceThreshold st')) (boundingBoxes st') in
    map AnalyzedParticle.box (particlesToDisplay st) = shown
    /\ map AnalyzedParticle.box (particlesToDisplay st') = shown
    /\ pending sys' = []
    /\ ((analyzedParticles st' = []
         /\ exists message, analysisErrorState st' = Some ("Analysis Error: " +:+ message))
        \/ (particlesToDisplay st' = analyzedParticles st'
            /\ map AnalyzedParticle.index (analyzedParticles st')
               = seq 0 (List.length shown))).
Proof.
  intros sys sys' i outcome Hreach Henabled Hstep _ st st' shown.
  destruct (reachable_oneCallAtATime _ _ _ sys Hreach) as [_ Hone].
  pose proof (reachable_thresholdHeld sys Hreach) as Hheld.
  unfold thresholdHeld in Hheld.
  destruct sys as [page0 tasks]. cbn [page pending] in *.
  destruct Henabled as (img & boxes & Hpending & Hserved).
  cbn [page pending] in Hpending.
  cbn [Page.step page pending] in Hstep. rewrite Hpending in Hstep.
  injection Hstep as <-.
  destruct tasks as [ | [thr | img' boxes'] [ | ? ?]]; try contradiction;
    destruct i as [ | [ | i]]; cbn [lookup list_lookup] in Hpending;
    try discriminate Hpending.
  injection Hpending as -> ->.
  destruct Hone as (Hd & Ha & Hnone & Hne & _).
  subst st st' shown. cbn [page pending delete list_delete].
  set (P := aboveThreshold (confidenceThreshold page0)) in *.
  assert (Hbefore : map AnalyzedParticle.box (particlesToDisplay page0)
                    = List.filter P (boundingBoxes page0)).
  { unfold particlesToDisplay. rewrite Hnone.
    change (0 <? List.length (@nil AnalyzedParticle.t))%nat with false. cbv iota zeta.
    destruct (boundingBoxes page0) as [ | b bs] eqn:Hbs; [reflexivity | ].
    change (0 <? List.length (b :: bs))%nat with true. cbv iota.
    apply (boxes_of_filtered_imap P). reflexivity. }
  assert (Hfailed : forall message,
             let st' := analysisFailed message page0 in
             map AnalyzedParticle.box (particlesToDisplay page0)
             = List.filter (aboveThreshold (confidenceThreshold st')) (boundingBoxes st')
             /\ map AnalyzedParticle.box (particlesToDisplay st')
                = List.filter (aboveThreshold (confidenceThreshold st')) (boundingBoxes st')
             /\ @nil Task = []
             /\ ((analyzedParticles st' = []
                  /\ exists message', analysisErrorState st'
                                      = Some ("Analysis Error: " +:+ message'))
                 \/ (particlesToDisplay st' = analyzedParticles st'
                     /\ map AnalyzedParticle.index (analyzedParticles st')
                        = seq 0 (List.length
                                   (List.filter (aboveThreshold (confidenceThreshold st'))
                                                (boundingBoxes st')))))).
  { intros message st'. subst st'.
    cbn [analysisFailed setAnalysis confidenceThreshold boundingBoxes analyzedParticles
         analysisErrorState]. fold P.
    split; [exact Hbefore | ]. split; [ | split; [reflexivity | ]].
    - rewrite <- Hbefore. unfold particlesToDisplay.
      cbn [analysisFailed setAnalysis confidenceThreshold boundingBoxes analyzedParticles].
      rewrite Hnone. reflexivity.
    - left. split; [reflexivity | ]. exists message. reflexivity. }
  destruct Hserved as [[m ->] | [[s ->] | (apiKey & url & gemini & ->)]];
    [apply Hfailed | apply Hfailed | ].
  unfold routeReply, startAnalysis_settle.
  set (response := Route.POST JSON_parse _).
  destruct (ok (Route.status response)) eqn:Hok; cbn [negb]; [ | apply Hfailed].
  destruct (Route.particles response) as [ps | ] eqn:Hps; [ | apply Hfailed].
  destruct (routeReply_particles JSON_parse apiKey url boxes gemini ps Hok Hps)
    as (f & -> & Hf).
  cbn [setAnalysis confidenceThreshold boundingBoxes analyzedParticles analysisErrorState].
  fold P. rewrite <- Hheld.
  set (ps := imap f (boxesWithIndices boxes)).
  assert (Hboxes : map AnalyzedParticle.box ps = boxes).
  { subst ps. apply list_eq. intros j. unfold boxesWithIndices.
    rewrite list_lookup_fmap, !list_lookup_imap.
    destruct (boxes !! j) as [b | ]; [ | reflexivity].
    cbn. f_equal. apply Hf. }
  assert (Hshown : particlesToDisplay
                     (setAnalysis ps
                        (match Route.error response with
                         | Some e => if String.eqb e EmptyString
                                     then analysisErrorState page0 else Some e
                         | None => analysisErrorState page0
                         end) false page0) = ps).
  { unfold particlesToDisplay.
    cbn [setAnalysis confidenceThreshold boundingBoxes analyzedParticles].
    assert (Hsome : (0 <? List.length ps)%nat = true).
    { rewrite <- (length_map AnalyzedParticle.box), Hboxes.
      destruct boxes; [contradiction | reflexivity]. }
    rewrite Hsome. cbv zeta. apply filter_all. intros p Hp. fold P.
    assert (Hin : In (AnalyzedParticle.box p) boxes).
    { rewrite <- Hboxes. apply in_map. exact Hp. }
    rewrite Hheld in Hin. apply filter_In in Hin. tauto. }
  split; [rewrite Hbefore; symmetry; exact Hheld | ]. split; [ | split; [reflexivity | ]].
  - rewrite Hshown. exact Hboxes.
  - right. split; [exact Hshown | ].
    subst ps. rewrite (imap_indices f _ 0) by (intros j b; apply Hf).
    rewrite boxesWithIndices_length. reflexivity.
Qed.

End AnalysisFacts.

Lemma analysis_keeps_displayed_boxes_witness :
  map AnalyzedParticle.box (Page.particlesToDisplay (Page.page Reading.detectedA))
  = (List.filter
       (Page.aboveThreshold (Page.confidenceThreshold (Page.page Reading.analysedA)))
       (Page.boundingBoxes (Page.page Reading.analysedA)))
  /\ map AnalyzedParticle.box (Page.particlesToDisplay (Page.page Reading.analysedA))
     = (List.filter
       (Page.aboveThreshold (Page.confidenceThreshold (Page.page Reading.analysedA)))
       (Page.boundingBoxes (Page.page Reading.analysedA)))
  /\ Page.pending Reading.analysedA = []
  /\ ((Page.analyzedParticles (Page.page Reading.analysedA) = []
       /\ exists message,
            Page.analysisErrorState (Page.page Reading.analysedA)
            = Some ("Analysis Error: " +:+ message))
      \/ (Page.particlesToDisplay (Page.page Reading.analysedA)
          = Page.analyzedParticles (Page.page Reading.analysedA)
          /\ map AnalyzedParticle.index (Page.analyzedParticles (Page.page Reading.analysedA))
             = seq 0 (List.length
                        (List.filter
       (Page.aboveThreshold (Page.confidenceThreshold (Page.page Reading.analysedA)))
       (Page.boundingBoxes (Page.page Reading.analysedA)))))).
Proof.
  apply (analysis_keeps_displayed_boxes
           Statement.noNumberToString Statement.noStringToNumber JSONParser.parse
           Reading.detectedA Reading.analysedA 0
           (Page.routeReply JSONParser.parse true "data:image/png;base64,annotated"
                            [Statement.scenarioA_box]
                            (Route.ResponseText Statement.scenarioC))).
  - apply detectedA_reachable.
  - exists "resized", [Statement.scenarioA_box]. split; [reflexivity | ].
    right. right.
    exists true, "data:image/png;base64,annotated", (Route.ResponseText Statement.scenarioC).
    reflexivity.
  - vm_compute. reflexivity.
  - reflexivity.
Defined.

Section ResetFacts.

Import Page Reading.

Variable NumberToString : float -> string.
Variable StringToNumber : string -> float.
Variable JSON_parse : string -> option JSON.

(** X16.  In a session with the webcam the clear button, whenever it can be
    used, takes the page back to its initial state, the threshold apart: no
    image, no detection, no analysed particle, no message, the confidence
    mode, nothing highlighted, nothing processing and no call pending.  From
    there a capture is possible again, and it leaves exactly one detection
    pending, which holds the threshold of the page. *)
Theorem clear_returns_to_start :
  forall (sys sys' : System) (imageSrc : string),
    Reading.reachable NumberToString StringToNumber JSON_parse sys ->
    enabled JSON_parse ClearImage sys ->
    Page.step NumberToString StringToNumber ClearImage sys = Some sys' ->
    imageSrc <> EmptyString ->
    sys' = mkSystem
             (mkState (confidenceThreshold (page sys)) None [] [] false false None None
                      ModeConfidence None)
             []
    /\ enabled JSON_parse (Capture (Some imageSrc)) sys'
    /\ Page.step NumberToString StringToNumber (Capture (Some imageSrc)) sys'
       = Some (mkSystem
                 (mkState (confidenceThreshold (page sys)) (Some imageSrc) [] [] true false
                          None None ModeConfidence None)
                 [Detecting (confidenceThreshold (page sys))]).
Proof.
  intros sys sys' imageSrc Hreach Henabled Hstep Himage.
  pose proof (reachable_oneCallAtATime _ _ _ sys Hreach) as Hone.
  pose proof (idle_no_pending sys Hone Henabled) as Hpending.
  cbn [enabled] in Henabled. unfold clearDisabled, isProcessing in Henabled.
  apply orb_false_elim in Henabled as [Hd Ha].
  destruct sys as [st tasks]. cbn [page pending] in *. subst tasks.
  injection Hstep as <-.
  assert (Hcleared : handleClearImage st
                     = mkState (confidenceThreshold st) None [] [] false false None None
                               ModeConfidence None).
  { unfold handleClearImage, resetAnalysisState, setCapturedImage.
    cbn. rewrite Hd, Ha. reflexivity. }
  rewrite Hcleared. split; [reflexivity | split; [reflexivity | ]].
  cbn [Page.step nonEmpty].
  destruct (String.eqb_spec imageSrc EmptyString) as [Heq | _]; [contradiction | ].
  reflexivity.
Qed.

End ResetFacts.

Lemma clear_returns_to_start_witness :
  Page.mkSystem (Page.handleClearImage (Page.page Reading.analysedA)) []
  = Page.mkSystem
      (Page.mkState (Page.confidenceThreshold (Page.page Reading.analysedA)) None [] []
                    false false None None Page.ModeConfidence None)
      []
  /\ Reading.enabled JSONParser.parse (Page.Capture (Some "image"))
       (Page.mkSystem (Page.handleClearImage (Page.page Reading.analysedA)) [])
  /\ Page.step Statement.noNumberToString Statement.noStringToNumber
       (Page.Capture (Some "image"))
       (Page.mkSystem (Page.handleClearImage (Page.page Reading.analysedA)) [])
     = Some (Page.mkSystem
               (Page.mkState (Page.confidenceThreshold (Page.page Reading.analysedA))
                             (Some "image") [] [] true false None None
                             Page.ModeConfidence None)
               [Page.Detecting (Page.confidenceThreshold (Page.page Reading.analysedA))]).
Proof.
  apply (clear_returns_to_start
           Statement.noNumberToString Statement.noStringToNumber JSONParser.parse
           Reading.analysedA
           (Page.mkSystem (Page.handleClearImage (Page.page Reading.analysedA)) [])
           "image").
  - apply analysedA_reachable.
  - reflexivity.
  - reflexivity.
  - discriminate.
Defined.
